(** * Firework rack planner (firework2.py)

    A shallow embedding of the geometry kernel, the view transform, the
    scene commands, the pointer gestures, the undo/redo history and the
    fuse metrics of [FireworkRackPlanner], and of the tube layout of the
    two tube dialogs.

    Numbers: Python [int]s are [Z]; Python [float]s are idealised as exact
    real numbers [R] ([math.sin], [math.cos] and [math.radians] are the
    real functions).  Dictionaries with a fixed set of keys are records;
    Python lists are lists. *)

From Stdlib Require Import Reals Lra Lia ZArith List String Bool Permutation.
From Stdlib Require DecimalString.
Import ListNotations.
Open Scope R_scope.

(** ** Constants of [FireworkRackPlanner.__init__] *)

Definition DEFAULT_TUBE_SPACING_RATIO : R := 0.2.
Definition DEFAULT_FAN_PADDING_RATIO : R := 0.2.
Definition DEFAULT_INTER_FAN_SPACING_RATIO : R := 0.5.
Definition RACK_OUTER_PADDING : R := 5.
Definition ROTATION_DEGREES : list Z := [0; 90; 180; 270]%Z.

Definition DEFAULT_CRATE_FUSE_INCHES : R := 70.0.
Definition FAN_CHAIN_INTER_TUBE_ALLOWANCE_INCHES : R := 3.0.
Definition FAN_CHAIN_INTER_SEGMENT_ALLOWANCE_INCHES : R := 0.0.
Definition FAN_CHAIN_LEAD_INCHES : R := 3.0.
Definition FAN_CHAIN_TAIL_INCHES : R := 3.0.
Definition FUSE_LENGTH_SCALE_FACTOR : R := 0.9.

Definition MAX_UNDO_STEPS : nat := 50.
Definition MIN_ZOOM : R := 0.1.
Definition MAX_ZOOM : R := 5.0.
Definition ZOOM_STEP : R := 1.2.

(** ** Data model *)

(** One entry of a rack's ['tubes'] list. *)
Record tube_data := mk_tube {
  color : string;
  angle : R;
  lift_time : R;
  firework_type : string;
  cue : string
}.

(** A rack dictionary as built by [add_rack_to_list]; the key ['type'] is
    the field [rack_type]. *)
Record rack_config := mk_rack {
  id : string;
  name : string;
  rack_type : string;
  x_tubes : Z;
  y_tubes : Z;
  pos_x : R;
  pos_y : R;
  tube_diameter : R;
  rotation_angle : Z;
  tubes : list tube_data
}.

Definition set_rotation_angle (rc : rack_config) (a : Z) : rack_config :=
  mk_rack (id rc) (name rc) (rack_type rc) (x_tubes rc) (y_tubes rc)
          (pos_x rc) (pos_y rc) (tube_diameter rc) a (tubes rc).

Definition set_tubes (rc : rack_config) (ts : list tube_data) : rack_config :=
  mk_rack (id rc) (name rc) (rack_type rc) (x_tubes rc) (y_tubes rc)
          (pos_x rc) (pos_y rc) (tube_diameter rc) (rotation_angle rc) ts.

(** Python's [range(n)] for an integer [n]: empty when [n <= 0]. *)
Definition range_nat (n : nat) : list Z := map Z.of_nat (seq 0 n).
Definition range (n : Z) : list Z := range_nat (Z.to_nat n).

(** ** Geometry kernel *)

(** [math.radians]. *)
Definition radians (deg : R) : R := deg * (PI / 180).

(** [_rotate_point(x, y, angle_deg, cx, cy)]. *)
Definition _rotate_point (x y angle_deg cx cy : R) : R * R :=
  let angle_rad := radians angle_deg in
  let s := sin angle_rad in
  let c := cos angle_rad in
  let x := x - cx in
  let y := y - cy in
  (x * c - y * s + cx, x * s + y * c + cy).

(** An element [(idx, cx, cy, dia)] of [tube_center_points_info_world]. *)
Record tube_info := mk_tube_info {
  tube_idx : Z;
  tube_cx : R;
  tube_cy : R;
  tube_dia : R
}.

(** The 5-tuple returned by [_get_rack_dimensions_and_points]. *)
Record rack_geometry := mk_geometry {
  tube_center_points_info_world : list tube_info;
  rotated_outline_points_absolute_world : list (R * R);
  unrotated_rack_size_world : R * R;
  rotated_bbox_width_world : R;
  rotated_bbox_height_world : R
}.

(** First block of the kernel: the tube group size by rack type, plus the
    outer padding on both sides. A type that is neither "Crate" nor "Fan"
    leaves the group size at [0, 0]. *)
Definition unrotated_rack_size (rc : rack_config) : R * R :=
  let cols_or_fans := x_tubes rc in
  let rows_or_tubes_per_fan := y_tubes rc in
  let tube_diameter_world := tube_diameter rc in
  let '(tube_group_width_world, tube_group_height_world) :=
    if (rack_type rc =? "Crate")%string then
      let spacing_world := DEFAULT_TUBE_SPACING_RATIO * tube_diameter_world in
      (IZR cols_or_fans * tube_diameter_world
         + IZR (Z.max 0 (cols_or_fans - 1)) * spacing_world,
       IZR rows_or_tubes_per_fan * tube_diameter_world
         + IZR (Z.max 0 (rows_or_tubes_per_fan - 1)) * spacing_world)
    else if (rack_type rc =? "Fan")%string then
      let fan_visual_padding_world :=
        DEFAULT_FAN_PADDING_RATIO * tube_diameter_world in
      let fan_rect_width_per_segment_world :=
        tube_diameter_world + 2 * fan_visual_padding_world in
      let spacing_x_between_fans_world :=
        DEFAULT_INTER_FAN_SPACING_RATIO * tube_diameter_world in
      let spacing_y_in_fan_world :=
        DEFAULT_TUBE_SPACING_RATIO * tube_diameter_world in
      let height_of_one_fan_tubes_world :=
        IZR rows_or_tubes_per_fan * tube_diameter_world
          + IZR (Z.max 0 (rows_or_tubes_per_fan - 1)) * spacing_y_in_fan_world in
      (IZR cols_or_fans * fan_rect_width_per_segment_world
         + IZR (Z.max 0 (cols_or_fans - 1)) * spacing_x_between_fans_world,
       height_of_one_fan_tubes_world + 2 * fan_visual_padding_world)
    else (0, 0) in
  (tube_group_width_world + 2 * RACK_OUTER_PADDING,
   tube_group_height_world + 2 * RACK_OUTER_PADDING).

(** [min(...)] and [max(...)] of a non-empty sequence of floats. *)
Definition min_of (x : R) (xs : list R) : R := fold_left Rmin xs x.
Definition max_of (x : R) (xs : list R) : R := fold_left Rmax xs x.

(** Body of the Crate double loop: one tube appended, counter advanced. *)
Definition crate_step (rc : rack_config) (center : R * R) (eff : R)
    (r_idx : Z) (st : list tube_info * Z) (c_idx : Z) : list tube_info * Z :=
  let '(tube_center_points, tube_idx_counter) := st in
  let tube_diameter_world := tube_diameter rc in
  let spacing_world := DEFAULT_TUBE_SPACING_RATIO * tube_diameter_world in
  let local_center_x_world :=
    RACK_OUTER_PADDING + IZR c_idx * (tube_diameter_world + spacing_world)
      + tube_diameter_world / 2 in
  let local_center_y_world :=
    RACK_OUTER_PADDING + IZR r_idx * (tube_diameter_world + spacing_world)
      + tube_diameter_world / 2 in
  let rotated :=
    _rotate_point local_center_x_world local_center_y_world
                  (IZR (rotation_angle rc)) (fst center) (snd center) in
  let abs_tube_cx_world := pos_x rc - fst center + fst rotated in
  let abs_tube_cy_world := pos_y rc - snd center + snd rotated in
  (tube_center_points
     ++ [mk_tube_info tube_idx_counter abs_tube_cx_world abs_tube_cy_world eff],
   (tube_idx_counter + 1)%Z).

(** Body of the Fan double loop: the outer index is the fan segment. *)
Definition fan_step (rc : rack_config) (center : R * R) (eff : R)
    (f_idx : Z) (st : list tube_info * Z) (t_idx : Z) : list tube_info * Z :=
  let '(tube_center_points, tube_idx_counter) := st in
  let tube_diameter_world := tube_diameter rc in
  let spacing_y_in_fan_world := DEFAULT_TUBE_SPACING_RATIO * tube_diameter_world in
  let fan_visual_padding_world := DEFAULT_FAN_PADDING_RATIO * tube_diameter_world in
  let fan_rect_width_per_segment_world :=
    tube_diameter_world + 2 * fan_visual_padding_world in
  let spacing_x_between_fans_world :=
    DEFAULT_INTER_FAN_SPACING_RATIO * tube_diameter_world in
  let fan_segment_content_start_x_local_world :=
    RACK_OUTER_PADDING
      + IZR f_idx * (fan_rect_width_per_segment_world + spacing_x_between_fans_world) in
  let fan_segment_content_start_y_local_world := RACK_OUTER_PADDING in
  let tube_center_x_in_segment_local_world :=
    fan_segment_content_start_x_local_world + fan_visual_padding_world
      + tube_diameter_world / 2 in
  let tube_center_y_in_segment_local_world :=
    fan_segment_content_start_y_local_world + fan_visual_padding_world
      + IZR t_idx * (tube_diameter_world + spacing_y_in_fan_world)
      + tube_diameter_world / 2 in
  let rotated :=
    _rotate_point tube_center_x_in_segment_local_world
                  tube_center_y_in_segment_local_world
                  (IZR (rotation_angle rc)) (fst center) (snd center) in
  let abs_tube_cx_world := pos_x rc - fst center + fst rotated in
  let abs_tube_cy_world := pos_y rc - snd center + snd rotated in
  (tube_center_points
     ++ [mk_tube_info tube_idx_counter abs_tube_cx_world abs_tube_cy_world eff],
   (tube_idx_counter + 1)%Z).

(** The tube loops: rows outside and columns inside for a Crate, fan
    segments outside and tubes of the segment inside for a Fan; one shared
    counter numbers the tubes in the order they are appended. *)
Definition tube_loops (rc : rack_config) (center : R * R) (eff : R)
  : list tube_info * Z :=
  let cols_or_fans := x_tubes rc in
  let rows_or_tubes_per_fan := y_tubes rc in
  if (rack_type rc =? "Crate")%string then
    fold_left
      (fun st r_idx =>
         fold_left (crate_step rc center eff r_idx) (range cols_or_fans) st)
      (range rows_or_tubes_per_fan) ([], 0%Z)
  else if (rack_type rc =? "Fan")%string then
    fold_left
      (fun st f_idx =>
         fold_left (fan_step rc center eff f_idx) (range rows_or_tubes_per_fan) st)
      (range cols_or_fans) ([], 0%Z)
  else ([], 0%Z).

(** [_get_rack_dimensions_and_points(rack_config)]. *)
Definition _get_rack_dimensions_and_points (rc : rack_config) : rack_geometry :=
  let tube_diameter_world := tube_diameter rc in
  let base_x_world := pos_x rc in
  let base_y_world := pos_y rc in
  let angle_deg := IZR (rotation_angle rc) in
  let '(unrotated_rack_width_world, unrotated_rack_height_world) :=
    unrotated_rack_size rc in
  let center_local_x_world := unrotated_rack_width_world / 2 in
  let center_local_y_world := unrotated_rack_height_world / 2 in
  let corners_unrotated_local_world :=
    [(0, 0); (unrotated_rack_width_world, 0);
     (unrotated_rack_width_world, unrotated_rack_height_world);
     (0, unrotated_rack_height_world)] in
  let rotated_outline_points_local_world :=
    map (fun '(crx, cry) =>
           _rotate_point crx cry angle_deg center_local_x_world center_local_y_world)
        corners_unrotated_local_world in
  let rotated_outline_points_absolute :=
    map (fun '(prx, pry) =>
           (base_x_world - center_local_x_world + prx,
            base_y_world - center_local_y_world + pry))
        rotated_outline_points_local_world in
  let '(min_x_world, max_x_world, min_y_world, max_y_world) :=
    match rotated_outline_points_absolute with
    | p :: ps =>
        (min_of (fst p) (map fst ps), max_of (fst p) (map fst ps),
         min_of (snd p) (map snd ps), max_of (snd p) (map snd ps))
    | [] =>
        (base_x_world, base_x_world + unrotated_rack_width_world,
         base_y_world, base_y_world + unrotated_rack_height_world)
    end in
  let rotated_bbox_width := max_x_world - min_x_world in
  let rotated_bbox_height := max_y_world - min_y_world in
  let effective_tube_diameter_world := Rmax tube_diameter_world 10 in
  let tube_center_points :=
    fst (tube_loops rc (center_local_x_world, center_local_y_world)
                    effective_tube_diameter_world) in
  mk_geometry tube_center_points rotated_outline_points_absolute
              (unrotated_rack_width_world, unrotated_rack_height_world)
              rotated_bbox_width rotated_bbox_height.

(** ** Scene, view and history state *)

Record flow_line := mk_flow_line {
  fl_id : string;
  fl_x1 : R; fl_y1 : R; fl_x2 : R; fl_y2 : R;
  fl_color : string;
  fl_width : R;
  fl_label : string
}.

Record connection := mk_connection {
  conn_id : string;
  source_rack_id : string;
  source_tube_idx : Z;
  target_rack_id : string;
  target_tube_idx : Z;
  conn_color : string
}.

(** The dictionary built by [_capture_current_state]; [copy.deepcopy] is the
    identity on immutable values. *)
Record history_entry := mk_entry {
  h_racks : list rack_config;
  h_flow_lines : list flow_line;
  h_tube_connections : list connection;
  h_selected_rack_ids : list string;
  h_selected_flow_line_id : option string;
  h_zoom : R;
  h_pan_x : R;
  h_pan_y : R
}.

(** The attributes of [self] that the modelled methods read or write.
    Python lists used as stacks keep Python's order: [append] adds at the
    end, [pop()] takes from the end, [pop(0)] from the front. *)
Record planner := mk_planner {
  racks_on_canvas : list rack_config;
  flow_lines_on_canvas : list flow_line;
  tube_connections : list connection;
  selected_rack_ids : list string;
  selected_flow_line_id : option string;
  zoom_level : R;
  pan_offset_x : R;
  pan_offset_y : R;
  undo_stack : list history_entry;
  redo_stack : list history_entry;
  dragging_rack_id : option string;
  drag_start_positions : list (string * (R * R));
  drag_operation_pending_undo_state : option history_entry;
  flow_line_start_point : option (R * R);
  first_tube_for_connection : option (string * Z);
  connecting_tubes_mode : bool;
  drawing_flow_line_mode : bool
}.

Definition set_racks (self : planner) (v : list rack_config) : planner :=
  mk_planner v (flow_lines_on_canvas self) (tube_connections self)
    (selected_rack_ids self) (selected_flow_line_id self) (zoom_level self)
    (pan_offset_x self) (pan_offset_y self) (undo_stack self) (redo_stack self)
    (dragging_rack_id self) (drag_start_positions self)
    (drag_operation_pending_undo_state self) (flow_line_start_point self)
    (first_tube_for_connection self) (connecting_tubes_mode self)
    (drawing_flow_line_mode self).

Definition set_flow_lines (self : planner) (v : list flow_line) : planner :=
  mk_planner (racks_on_canvas self) v (tube_connections self)
    (selected_rack_ids self) (selected_flow_line_id self) (zoom_level self)
    (pan_offset_x self) (pan_offset_y self) (undo_stack self) (redo_stack self)
    (dragging_rack_id self) (drag_start_positions self)
    (drag_operation_pending_undo_state self) (flow_line_start_point self)
    (first_tube_for_connection self) (connecting_tubes_mode self)
    (drawing_flow_line_mode self).

Definition set_tube_connections (self : planner) (v : list connection) : planner :=
  mk_planner (racks_on_canvas self) (flow_lines_on_canvas self) v
    (selected_rack_ids self) (selected_flow_line_id self) (zoom_level self)
    (pan_offset_x self) (pan_offset_y self) (undo_stack self) (redo_stack self)
    (dragging_rack_id self) (drag_start_positions self)
    (drag_operation_pending_undo_state self) (flow_line_start_point self)
    (first_tube_for_connection self) (connecting_tubes_mode self)
    (drawing_flow_line_mode self).

Definition set_selected_rack_ids (self : planner) (v : list string) : planner :=
  mk_planner (racks_on_canvas self) (flow_lines_on_canvas self)
    (tube_connections self) v (selected_flow_line_id self) (zoom_level self)
    (pan_offset_x self) (pan_offset_y self) (undo_stack self) (redo_stack self)
    (dragging_rack_id self) (drag_start_positions self)
    (drag_operation_pending_undo_state self) (flow_line_start_point self)
    (first_tube_for_connection self) (connecting_tubes_mode self)
    (drawing_flow_line_mode self).

Definition set_selected_flow_line_id (self : planner) (v : option string) : planner :=
  mk_planner (racks_on_canvas self) (flow_lines_on_canvas self)
    (tube_connections self) (selected_rack_ids self) v (zoom_level self)
    (pan_offset_x self) (pan_offset_y self) (undo_stack self) (redo_stack self)
    (dragging_rack_id self) (drag_start_positions self)
    (drag_operation_pending_undo_state self) (flow_line_start_point self)
    (first_tube_for_connection self) (connecting_tubes_mode self)
    (drawing_flow_line_mode self).

Definition set_zoom_level (self : planner) (v : R) : planner :=
  mk_planner (racks_on_canvas self) (flow_lines_on_canvas self)
    (tube_connections self) (selected_rack_ids self) (selected_flow_line_id self)
    v (pan_offset_x self) (pan_offset_y self) (undo_stack self) (redo_stack self)
    (dragging_rack_id self) (drag_start_positions self)
    (drag_operation_pending_undo_state self) (flow_line_start_point self)
    (first_tube_for_connection self) (connecting_tubes_mode self)
    (drawing_flow_line_mode self).

Definition set_pan_offset (self : planner) (vx vy : R) : planner :=
  mk_planner (racks_on_canvas self) (flow_lines_on_canvas self)
    (tube_connections self) (selected_rack_ids self) (selected_flow_line_id self)
    (zoom_level self) vx vy (undo_stack self) (redo_stack self)
    (dragging_rack_id self) (drag_start_positions self)
    (drag_operation_pending_undo_state self) (flow_line_start_point self)
    (first_tube_for_connection self) (connecting_tubes_mode self)
    (drawing_flow_line_mode self).

Definition set_undo_stack (self : planner) (v : list history_entry) : planner :=
  mk_planner (racks_on_canvas self) (flow_lines_on_canvas self)
    (tube_connections self) (selected_rack_ids self) (selected_flow_line_id self)
    (zoom_level self) (pan_offset_x self) (pan_offset_y self) v (redo_stack self)
    (dragging_rack_id self) (drag_start_positions self)
    (drag_operation_pending_undo_state self) (flow_line_start_point self)
    (first_tube_for_connection self) (connecting_tubes_mode self)
    (drawing_flow_line_mode self).

Definition set_redo_stack (self : planner) (v : list history_entry) : planner :=
  mk_planner (racks_on_canvas self) (flow_lines_on_canvas self)
    (tube_connections self) (selected_rack_ids self) (selected_flow_line_id self)
    (zoom_level self) (pan_offset_x self) (pan_offset_y self) (undo_stack self) v
    (dragging_rack_id self) (drag_start_positions self)
    (drag_operation_pending_undo_state self) (flow_line_start_point self)
    (first_tube_for_connection self) (connecting_tubes_mode self)
    (drawing_flow_line_mode self).

Definition set_dragging_rack_id (self : planner) (v : option string) : planner :=
  mk_planner (racks_on_canvas self) (flow_lines_on_canvas self)
    (tube_connections self) (selected_rack_ids self) (selected_flow_line_id self)
    (zoom_level self) (pan_offset_x self) (pan_offset_y self) (undo_stack self)
    (redo_stack self) v (drag_start_positions self)
    (drag_operation_pending_undo_state self) (flow_line_start_point self)
    (first_tube_for_connection self) (connecting_tubes_mode self)
    (drawing_flow_line_mode self).

Definition set_first_tube_for_connection (self : planner)
    (v : option (string * Z)) : planner :=
  mk_planner (racks_on_canvas self) (flow_lines_on_canvas self)
    (tube_connections self) (selected_rack_ids self) (selected_flow_line_id self)
    (zoom_level self) (pan_offset_x self) (pan_offset_y self) (undo_stack self)
    (redo_stack self) (dragging_rack_id self) (drag_start_positions self)
    (drag_operation_pending_undo_state self) (flow_line_start_point self)
    v (connecting_tubes_mode self) (drawing_flow_line_mode self).

(** Truth value of an optional id in an [if]: [None] and the empty string
    are false. *)
Definition truthy_id (o : option string) : bool :=
  match o with
  | Some s => negb (s =? "")%string
  | None => false
  end.

(** [x in ids] for a list (or set) of ids. *)
Definition id_in (x : string) (ids : list string) : bool :=
  existsb (String.eqb x) ids.

(** [next((r for r in racks if r['id'] == rack_id), None)]. *)
Definition rack_by_id (racks : list rack_config) (rack_id : string)
  : option rack_config :=
  find (fun r => (id r =? rack_id)%string) racks.

(** In-place mutation of the rack object found by [rack_by_id]: the first
    rack of the list with that id is the one that changes. *)
Fixpoint update_rack (racks : list rack_config) (rack_id : string)
    (f : rack_config -> rack_config) : list rack_config :=
  match racks with
  | [] => []
  | r :: rest =>
      if (id r =? rack_id)%string then f r :: rest
      else r :: update_rack rest rack_id f
  end.

(** ** View transform *)

Definition world_to_canvas (self : planner) (world_x world_y : R) : R * R :=
  let canvas_x := (world_x - pan_offset_x self) * zoom_level self in
  let canvas_y := (world_y - pan_offset_y self) * zoom_level self in
  (canvas_x, canvas_y).

Definition canvas_to_world (self : planner) (canvas_x canvas_y : R) : R * R :=
  let world_x := (canvas_x / zoom_level self) + pan_offset_x self in
  let world_y := (canvas_y / zoom_level self) + pan_offset_y self in
  (world_x, world_y).

(** The fields of a Tk wheel event that [on_mouse_wheel] reads. *)
Record wheel_event := mk_wheel_event {
  ev_x : R;
  ev_y : R;
  ev_state : Z;
  ev_delta : Z;
  ev_num : Z
}.

(** [on_mouse_wheel(event)], without the redraw. *)
Definition on_mouse_wheel (self : planner) (event : wheel_event) : planner :=
  if (Z.land (ev_state event) 4 =? 0)%Z then self
  else
    let '(world_x_before_zoom, world_y_before_zoom) :=
      canvas_to_world self (ev_x event) (ev_y event) in
    let self1 :=
      if ((0 <? ev_delta event) || (ev_num event =? 4))%Z then
        set_zoom_level self (zoom_level self * ZOOM_STEP)
      else if ((ev_delta event <? 0) || (ev_num event =? 5))%Z then
        set_zoom_level self (zoom_level self / ZOOM_STEP)
      else self in
    let self2 :=
      set_zoom_level self1 (Rmax MIN_ZOOM (Rmin MAX_ZOOM (zoom_level self1))) in
    let '(world_x_after_zoom, world_y_after_zoom) :=
      canvas_to_world self2 (ev_x event) (ev_y event) in
    set_pan_offset self2
      (pan_offset_x self2 + (world_x_before_zoom - world_x_after_zoom))
      (pan_offset_y self2 + (world_y_before_zoom - world_y_after_zoom)).

(** ** History manager *)

Definition _capture_current_state (self : planner) : history_entry :=
  mk_entry (racks_on_canvas self) (flow_lines_on_canvas self)
           (tube_connections self) (selected_rack_ids self)
           (selected_flow_line_id self)
           (zoom_level self) (pan_offset_x self) (pan_offset_y self).

(** [_restore_state_from_history]: the scene, the selection and the view
    come from the entry, every gesture in progress is reset, the stacks and
    the mode flags are left alone. *)
Definition _restore_state_from_history (self : planner) (e : history_entry)
  : planner :=
  mk_planner (h_racks e) (h_flow_lines e) (h_tube_connections e)
    (h_selected_rack_ids e) (h_selected_flow_line_id e)
    (h_zoom e) (h_pan_x e) (h_pan_y e)
    (undo_stack self) (redo_stack self)
    None [] None None None
    (connecting_tubes_mode self) (drawing_flow_line_mode self).

Definition _push_to_undo_stack (self : planner) (state_to_push : history_entry)
  : planner :=
  let stack := undo_stack self ++ [state_to_push] in
  let stack :=
    if (MAX_UNDO_STEPS <? List.length stack)%nat then tl stack else stack in
  set_redo_stack (set_undo_stack self stack) [].

Definition _record_state_for_undo (self : planner) : planner :=
  _push_to_undo_stack self (_capture_current_state self).

(** [stack.pop()] on a non-empty list: the last element and the rest. *)
Definition pop_last {A : Type} (l : list A) : option (A * list A) :=
  match rev l with
  | [] => None
  | x :: r => Some (x, rev r)
  end.

Definition undo_action (self : planner) : planner :=
  match pop_last (undo_stack self) with
  | None => self
  | Some (entry, rest) =>
      let self1 :=
        set_redo_stack self (redo_stack self ++ [_capture_current_state self]) in
      _restore_state_from_history (set_undo_stack self1 rest) entry
  end.

Definition redo_action (self : planner) : planner :=
  match pop_last (redo_stack self) with
  | None => self
  | Some (entry, rest) =>
      let self1 :=
        set_undo_stack self (undo_stack self ++ [_capture_current_state self]) in
      _restore_state_from_history (set_redo_stack self1 rest) entry
  end.

(** ** Tube hit-testing and the commands that use it *)

(** The test [(wx - cx)**2 + (wy - cy)**2 <= (dia / 2)**2] shared by
    [_get_tube_at_canvas_coords] and [on_canvas_shift_click]. *)
Definition tube_hit (world_x world_y : R) (t : tube_info) : bool :=
  if Rle_dec ((world_x - tube_cx t) ^ 2 + (world_y - tube_cy t) ^ 2)
             ((tube_dia t / 2) ^ 2)
  then true else false.

(** First hit in a sequence of candidates, as a [for] loop with [return]. *)
Fixpoint first_some {A B : Type} (f : A -> option B) (l : list A) : option B :=
  match l with
  | [] => None
  | a :: rest =>
      match f a with
      | Some b => Some b
      | None => first_some f rest
      end
  end.

(** [_get_tube_at_canvas_coords]: [(None, None)] is [None]. *)
Definition _get_tube_at_canvas_coords (self : planner) (canvas_x canvas_y : R)
  : option (string * Z) :=
  let '(world_x, world_y) := canvas_to_world self canvas_x canvas_y in
  first_some
    (fun rack_config =>
       let tube_center_points_info :=
         tube_center_points_info_world
           (_get_rack_dimensions_and_points rack_config) in
       match find (tube_hit world_x world_y) tube_center_points_info with
       | Some t => Some (id rack_config, tube_idx t)
       | None => None
       end)
    (rev (racks_on_canvas self)).

(** [on_canvas_press_connect_tubes_mode(event)]; [new_uuid] is the value of
    [str(uuid.uuid4())] drawn for the connection. *)
Definition on_canvas_press_connect_tubes_mode (self : planner)
    (event_x event_y : R) (new_uuid : string) : planner :=
  if negb (connecting_tubes_mode self) then self
  else
    match _get_tube_at_canvas_coords self event_x event_y with
    | None => set_first_tube_for_connection self None
    | Some (clicked_rack_id, clicked_tube_idx) =>
        match first_tube_for_connection self with
        | None =>
            set_first_tube_for_connection self
              (Some (clicked_rack_id, clicked_tube_idx))
        | Some (source_rack_id, source_tube) =>
            if ((source_rack_id =? clicked_rack_id)%string
                && (source_tube =? clicked_tube_idx)%Z)%bool
            then self
            else
              let connection :=
                mk_connection new_uuid source_rack_id source_tube
                              clicked_rack_id clicked_tube_idx "#00FF00" in
              let self1 :=
                set_tube_connections self (tube_connections self ++ [connection]) in
              let self2 := _record_state_for_undo self1 in
              set_first_tube_for_connection self2 None
        end
    end.

(** [FUSE_COLORS_MAP], in insertion order, and [FUSE_COLOR_CHOICES]. *)
Definition FUSE_COLORS_MAP : list (string * string) :=
  [("White", "white"); ("Yellow", "yellow"); ("Pink", "pink");
   ("Blue", "lightblue"); ("Orange", "orange"); ("Green", "lightgreen")]%string.
Definition FUSE_COLOR_CHOICES : list string := map fst FUSE_COLORS_MAP.

(** [l.index(x)]: [None] stands for the [ValueError]. *)
Fixpoint list_index {A : Type} (eqb : A -> A -> bool) (x : A) (l : list A)
  : option nat :=
  match l with
  | [] => None
  | y :: rest =>
      if eqb y x then Some O
      else match list_index eqb x rest with
           | Some i => Some (S i)
           | None => None
           end
  end.

(** The palette successor computed inside [on_canvas_shift_click]. *)
Definition next_color_value (current_color_value : string) : option string :=
  let current_color_name :=
    match find (fun nv => (snd nv =? current_color_value)%string) FUSE_COLORS_MAP with
    | Some nv => fst nv
    | None => hd ""%string FUSE_COLOR_CHOICES
    end in
  match list_index String.eqb current_color_name FUSE_COLOR_CHOICES with
  | None => None
  | Some current_choice_idx =>
      let new_color_name :=
        nth ((current_choice_idx + 1) mod List.length FUSE_COLOR_CHOICES)
            FUSE_COLOR_CHOICES ""%string in
      match find (fun nv => (fst nv =? new_color_name)%string) FUSE_COLORS_MAP with
      | Some nv => Some (snd nv)
      | None => None
      end
  end.

Definition set_color (t : tube_data) (c : string) : tube_data :=
  mk_tube c (angle t) (lift_time t) (firework_type t) (cue t).

(** [lst[i] = f(lst[i])] for an index inside the list. *)
Fixpoint update_nth {A : Type} (i : nat) (f : A -> A) (l : list A) : list A :=
  match l, i with
  | [], _ => []
  | a :: rest, O => f a :: rest
  | a :: rest, S j => a :: update_nth j f rest
  end.

(** [on_canvas_shift_click(event)]: the first tube of the single selected
    rack that is hit and has an entry in ['tubes'] gets the next palette
    color; a lookup that raises leaves the state as it was. *)
Definition on_canvas_shift_click (self : planner) (event_x event_y : R)
  : planner :=
  if (drawing_flow_line_mode self || connecting_tubes_mode self)%bool then self
  else
    match selected_rack_ids self with
    | [selected_rack_id] =>
        match rack_by_id (racks_on_canvas self) selected_rack_id with
        | None => self
        | Some selected_rack_config =>
            let '(world_event_x, world_event_y) :=
              canvas_to_world self event_x event_y in
            let tube_points_world :=
              tube_center_points_info_world
                (_get_rack_dimensions_and_points selected_rack_config) in
            match
              find (fun t =>
                      (tube_hit world_event_x world_event_y t
                       && (tube_idx t
                             <? Z.of_nat (List.length (tubes selected_rack_config)))%Z)%bool)
                   tube_points_world
            with
            | None => self
            | Some t =>
                let i := Z.to_nat (tube_idx t) in
                match nth_error (tubes selected_rack_config) i with
                | None => self
                | Some tube =>
                    match next_color_value (color tube) with
                    | None => self
                    | Some new_value =>
                        let self1 :=
                          set_racks self
                            (update_rack (racks_on_canvas self) selected_rack_id
                               (fun r =>
                                  set_tubes r
                                    (update_nth i (fun u => set_color u new_value)
                                                (tubes r)))) in
                        _record_state_for_undo self1
                    end
                end
            end
        end
    | _ => self
    end.

(** [lines.remove(line_to_delete)] where [line_to_delete] is the first line
    with the selected id: the first line with that id goes. *)
Fixpoint remove_flow_line (lines : list flow_line) (line_id : string)
  : list flow_line :=
  match lines with
  | [] => []
  | l :: rest =>
      if (fl_id l =? line_id)%string then rest
      else l :: remove_flow_line rest line_id
  end.

Definition id_opt_in (o : option string) (ids : list string) : bool :=
  match o with
  | Some x => id_in x ids
  | None => false
  end.

(** [delete_selected_item()]; [confirmed] is the answer of
    [messagebox.askyesno], asked only where the code asks it. *)
Definition delete_selected_item (self : planner) (confirmed : bool) : planner :=
  if truthy_id (selected_flow_line_id self) then
    let line_id :=
      match selected_flow_line_id self with Some s => s | None => ""%string end in
    match find (fun l => (fl_id l =? line_id)%string) (flow_lines_on_canvas self) with
    | Some _ =>
        if confirmed then
          let self1 := _record_state_for_undo self in
          let self2 :=
            set_flow_lines self1
              (remove_flow_line (flow_lines_on_canvas self1) line_id) in
          set_selected_flow_line_id self2 None
        else self
    | None => set_selected_flow_line_id self None
    end
  else
    match selected_rack_ids self with
    | [] => self
    | _ :: _ =>
        if confirmed then
          let self1 := _record_state_for_undo self in
          let deleted_rack_ids_set := selected_rack_ids self1 in
          let self2 :=
            set_racks self1
              (filter (fun r => negb (id_in (id r) (selected_rack_ids self1)))
                      (racks_on_canvas self1)) in
          let self3 :=
            if id_opt_in (dragging_rack_id self2) (selected_rack_ids self2)
            then set_dragging_rack_id self2 None else self2 in
          let self4 := set_selected_rack_ids self3 [] in
          set_tube_connections self4
            (filter (fun c =>
                       (negb (id_in (source_rack_id c) deleted_rack_ids_set)
                        && negb (id_in (target_rack_id c) deleted_rack_ids_set))%bool)
                    (tube_connections self4))
        else self
    end.

(** The next entry of [ROTATION_DEGREES], or its first entry when the
    current angle is not in the list (the [except ValueError] branch). *)
Definition next_rotation (current_angle : Z) : Z :=
  match list_index Z.eqb current_angle ROTATION_DEGREES with
  | Some current_angle_idx =>
      nth ((current_angle_idx + 1) mod List.length ROTATION_DEGREES)
          ROTATION_DEGREES 0%Z
  | None => nth 0 ROTATION_DEGREES 0%Z
  end.

(** [rotate_selected_racks_action()]. *)
Definition rotate_selected_racks_action (self : planner) : planner :=
  if truthy_id (selected_flow_line_id self) then self
  else
    match selected_rack_ids self with
    | [] => self
    | _ :: _ =>
        let self1 := _record_state_for_undo self in
        set_racks self1
          (fold_left
             (fun racks rack_id =>
                update_rack racks rack_id
                  (fun r => set_rotation_angle r (next_rotation (rotation_angle r))))
             (selected_rack_ids self1) (racks_on_canvas self1))
    end.

(** ** Derived metrics *)

(** [current_rack_total_fuse_length_inches] after the branch on the rack
    type, for a rack with [num_tubes_in_rack] tubes. *)
Definition rack_total_fuse_length_inches (rc : rack_config) : R :=
  let num_tubes_in_rack := (x_tubes rc * y_tubes rc)%Z in
  if (rack_type rc =? "Crate")%string then
    let base_crate_tubes := (5 * 5)%Z in
    let scale_factor :=
      if (0 <? base_crate_tubes)%Z
      then IZR num_tubes_in_rack / IZR base_crate_tubes else 1 in
    DEFAULT_CRATE_FUSE_INCHES * scale_factor
  else if (rack_type rc =? "Fan")%string then
    let num_segments := x_tubes rc in
    let tubes_per_segment := y_tubes rc in
    if ((0 <? num_segments) && (0 <? tubes_per_segment))%Z%bool then
      let fuse_within_all_segments :=
        IZR (num_segments * Z.max 0 (tubes_per_segment - 1))
          * FAN_CHAIN_INTER_TUBE_ALLOWANCE_INCHES in
      let fuse_linking_segments :=
        IZR (Z.max 0 (num_segments - 1))
          * FAN_CHAIN_INTER_SEGMENT_ALLOWANCE_INCHES in
      FAN_CHAIN_LEAD_INCHES + fuse_within_all_segments
        + fuse_linking_segments + FAN_CHAIN_TAIL_INCHES
    else 0
  else 0.

(** [defaultdict(float)] keyed by color: a total map with default [0.0]. *)
Definition fuse_table := string -> R.
Definition empty_fuse_table : fuse_table := fun _ => 0.

(** [table[key] += amount]. *)
Definition add_fuse (table : fuse_table) (key : string) (amount : R)
  : fuse_table :=
  fun k => if (k =? key)%string then table k + amount else table k.

(** One iteration of the loop over racks in [_update_canvas_summary_info]:
    the state is [(total_tubes, fuse_lengths_by_color_value)]. *)
Definition summary_step (st : Z * fuse_table) (rc : rack_config)
  : Z * fuse_table :=
  let '(total_tubes, fuse_lengths_by_color_value) := st in
  let num_tubes_in_rack := (x_tubes rc * y_tubes rc)%Z in
  let total_tubes := (total_tubes + num_tubes_in_rack)%Z in
  if (num_tubes_in_rack =? 0)%Z then (total_tubes, fuse_lengths_by_color_value)
  else
    let current_rack_total_fuse_length_inches :=
      rack_total_fuse_length_inches rc in
    if Rlt_dec 0 current_rack_total_fuse_length_inches then
      if (0 <? num_tubes_in_rack)%Z then
        let fuse_per_tube_in_rack_inches :=
          (current_rack_total_fuse_length_inches * FUSE_LENGTH_SCALE_FACTOR)
            / IZR num_tubes_in_rack in
        (total_tubes,
         fold_left
           (fun table tube_data =>
              add_fuse table (color tube_data) fuse_per_tube_in_rack_inches)
           (tubes rc) fuse_lengths_by_color_value)
      else (total_tubes, fuse_lengths_by_color_value)
    else (total_tubes, fuse_lengths_by_color_value).

(** The accumulation part of [_update_canvas_summary_info]: the tube count
    and the fuse length per color value, in inches. *)
Definition _update_canvas_summary_info (self : planner) : Z * fuse_table :=
  fold_left summary_step (racks_on_canvas self) (0%Z, empty_fuse_table).

(** ** Reference points used in the statements *)

(** The center of the unrotated rectangle, about which the kernel rotates. *)
Definition rack_center (rc : rack_config) : R * R :=
  (fst (unrotated_rack_size rc) / 2, snd (unrotated_rack_size rc) / 2).

(** A point of the unrotated rectangle, rotated about [rack_center] by the
    rack's angle and translated by [pos - rack_center]. *)
Definition to_world (rc : rack_config) (p : R * R) : R * R :=
  let rotated :=
    _rotate_point (fst p) (snd p) (IZR (rotation_angle rc))
                  (fst (rack_center rc)) (snd (rack_center rc)) in
  (pos_x rc - fst (rack_center rc) + fst rotated,
   pos_y rc - snd (rack_center rc) + snd rotated).

(** Center of the Crate cell in unrotated column [col] and row [row]. *)
Definition crate_cell_local (rc : rack_config) (col row : Z) : R * R :=
  let d := tube_diameter rc in
  let spacing := DEFAULT_TUBE_SPACING_RATIO * d in
  (RACK_OUTER_PADDING + IZR col * (d + spacing) + d / 2,
   RACK_OUTER_PADDING + IZR row * (d + spacing) + d / 2).

(** Center of tube [row] of fan segment [col] of a Fan rack. *)
Definition fan_cell_local (rc : rack_config) (col row : Z) : R * R :=
  let d := tube_diameter rc in
  let spacing_y := DEFAULT_TUBE_SPACING_RATIO * d in
  let padding := DEFAULT_FAN_PADDING_RATIO * d in
  let segment_width := d + 2 * padding in
  let spacing_x := DEFAULT_INTER_FAN_SPACING_RATIO * d in
  (RACK_OUTER_PADDING + IZR col * (segment_width + spacing_x) + padding + d / 2,
   RACK_OUTER_PADDING + padding + IZR row * (d + spacing_y) + d / 2).

(** The tuple the kernel reports for the tube numbered [idx] whose
    unrotated center is [local]. *)
Definition tube_of_cell (rc : rack_config) (local : R * R) (idx : Z) : tube_info :=
  mk_tube_info idx (fst (to_world rc local)) (snd (to_world rc local))
               (Rmax (tube_diameter rc) 10).

(** The unrotated (column, row) of the tube numbered [i]: rows of [x_tubes]
    cells for a Crate, fan segments of [y_tubes] tubes for a Fan. *)
Definition cell_of_index (rc : rack_config) (i : Z) : Z * Z :=
  if (rack_type rc =? "Crate")%string
  then ((i mod x_tubes rc)%Z, (i / x_tubes rc)%Z)
  else ((i / y_tubes rc)%Z, (i mod y_tubes rc)%Z).

Definition cell_local (rc : rack_config) (cell : Z * Z) : R * R :=
  if (rack_type rc =? "Crate")%string
  then crate_cell_local rc (fst cell) (snd cell)
  else fan_cell_local rc (fst cell) (snd cell).

(** The tube list as a block enumeration: for a Crate the blocks are the
    rows, for a Fan the fan segments. *)
Definition tube_grid (rc : rack_config) : list tube_info :=
  if (rack_type rc =? "Crate")%string then
    flat_map
      (fun o => map (fun i => tube_of_cell rc
                                (crate_cell_local rc (Z.of_nat i) (Z.of_nat o))
                                (Z.of_nat (o * Z.to_nat (x_tubes rc) + i)))
                    (seq 0 (Z.to_nat (x_tubes rc))))
      (seq 0 (Z.to_nat (y_tubes rc)))
  else if (rack_type rc =? "Fan")%string then
    flat_map
      (fun o => map (fun i => tube_of_cell rc
                                (fan_cell_local rc (Z.of_nat o) (Z.of_nat i))
                                (Z.of_nat (o * Z.to_nat (y_tubes rc) + i)))
                    (seq 0 (Z.to_nat (y_tubes rc))))
      (seq 0 (Z.to_nat (x_tubes rc)))
  else [].

(** The rack of the worked scenario: a 3 by 2 Crate of diameter 20 at
    (50, 50), not rotated. *)
Definition scenario_crate : rack_config :=
  mk_rack "rack-1" "Crate Rack 1" "Crate" 3 2 50 50 20 0 [].

(** A Fan rack of 2 segments with 3 tubes each. *)
Definition scenario_fan : rack_config :=
  mk_rack "rack-2" "Fan Rack 2" "Fan" 2 3 0 0 20 0 [].

(** ** States used in the examples *)

(** The state set up by [__init__]. *)
Definition initial_planner : planner :=
  mk_planner [] [] [] [] None 1.0 0.0 0.0 [] [] None [] None None None
             false false.

(** Control held, wheel turned up, cursor at (10, 20). *)
Definition wheel_up_at_10_20 : wheel_event :=
  mk_wheel_event 10 20 4 120 0.

(** One Crate on the canvas, selected, after one recorded action from the
    empty scene. *)
Definition planner_with_history : planner :=
  mk_planner [scenario_crate] [] [] ["rack-1"%string] None 1.0 0.0 0.0
             [_capture_current_state initial_planner] []
             None [] None None None false false.


(** Two racks with a connection between them and one inside the second
    rack; the first rack is selected. *)
Definition two_rack_planner : planner :=
  mk_planner
    [scenario_crate; scenario_fan] []
    [mk_connection "conn-a" "rack-1" 0 "rack-2" 0 "#00FF00";
     mk_connection "conn-b" "rack-2" 0 "rack-2" 1 "#00FF00"]
    ["rack-1"%string] None 1.0 0.0 0.0 [] [] None [] None None None false false.

(** Tube connect mode with tube 1 of the Crate already chosen as source. *)
Definition connect_state : planner :=
  mk_planner [scenario_crate] [] [] [] None 1.0 0.0 0.0 [] []
             None [] None None (Some ("rack-1"%string, 1%Z)) true false.



(** ** Point-in-polygon test and moved racks *)

(** Comparisons of floats as truth values. *)
Definition Rltb (a b : R) : bool := if Rlt_dec a b then true else false.
Definition Rleb (a b : R) : bool := if Rle_dec a b then true else false.
Definition Reqb (a b : R) : bool := if Req_dec_T a b then true else false.

Definition set_pos (rc : rack_config) (x y : R) : rack_config :=
  mk_rack (id rc) (name rc) (rack_type rc) (x_tubes rc) (y_tubes rc)
          x y (tube_diameter rc) (rotation_angle rc) (tubes rc).


(** One iteration of the loop of [_is_point_in_polygon]. The state is
    [(ins, (p1x_w, p1y_w), xi_w)]; [xi_w] is [None] until its first
    assignment, and [None] as a state is the error of reading it before. *)
Definition polygon_step (x_w y_w : R)
    (st : option (bool * (R * R) * option R)) (p2 : R * R)
  : option (bool * (R * R) * option R) :=
  match st with
  | None => None
  | Some (ins, (p1x_w, p1y_w), xi_w) =>
      let '(p2x_w, p2y_w) := p2 in
      if (Rltb (Rmin p1y_w p2y_w) y_w && Rleb y_w (Rmax p1y_w p2y_w)
          && Rleb x_w (Rmax p1x_w p2x_w))%bool
      then
        let xi_w :=
          if negb (Reqb p1y_w p2y_w)
          then Some ((y_w - p1y_w) * (p2x_w - p1x_w) / (p2y_w - p1y_w) + p1x_w)
          else xi_w in
        if Reqb p1x_w p2x_w then Some (negb ins, p2, xi_w)
        else
          match xi_w with
          | None => None
          | Some xi => Some (if Rleb x_w xi then negb ins else ins, p2, xi_w)
          end
      else Some (ins, p2, xi_w)
  end.

(** [_is_point_in_polygon(x_w, y_w, poly_v_w)]: [None] is an exception (the
    [IndexError] of [poly_v_w[0]] on an empty list, or an unbound [xi_w]). *)
Definition _is_point_in_polygon (x_w y_w : R) (poly_v_w : list (R * R))
  : option bool :=
  let nv := List.length poly_v_w in
  match poly_v_w with
  | [] => None
  | p1 :: _ =>
      if (nv <? 3)%nat then Some false
      else
        match
          fold_left (polygon_step x_w y_w)
                    (map (fun i => nth (i mod nv) poly_v_w (0, 0))
                         (seq 0 (nv + 1)))
                    (Some (false, p1, None))
        with
        | None => None
        | Some (ins, _, _) => Some ins
        end
  end.

(** ** Panning *)





(** ** More commands of the interaction layer *)

Definition LINE_CLICK_HALO : R := 5.
Definition default_new_tube_color_value : string := "pink".

Definition set_flow_line_start_point (self : planner) (v : option (R * R))
  : planner :=
  mk_planner (racks_on_canvas self) (flow_lines_on_canvas self)
    (tube_connections self) (selected_rack_ids self) (selected_flow_line_id self)
    (zoom_level self) (pan_offset_x self) (pan_offset_y self) (undo_stack self)
    (redo_stack self) (dragging_rack_id self) (drag_start_positions self)
    (drag_operation_pending_undo_state self) v
    (first_tube_for_connection self) (connecting_tubes_mode self)
    (drawing_flow_line_mode self).

Definition set_connecting_tubes_mode (self : planner) (v : bool) : planner :=
  mk_planner (racks_on_canvas self) (flow_lines_on_canvas self)
    (tube_connections self) (selected_rack_ids self) (selected_flow_line_id self)
    (zoom_level self) (pan_offset_x self) (pan_offset_y self) (undo_stack self)
    (redo_stack self) (dragging_rack_id self) (drag_start_positions self)
    (drag_operation_pending_undo_state self) (flow_line_start_point self)
    (first_tube_for_connection self) v (drawing_flow_line_mode self).

Definition set_drawing_flow_line_mode (self : planner) (v : bool) : planner :=
  mk_planner (racks_on_canvas self) (flow_lines_on_canvas self)
    (tube_connections self) (selected_rack_ids self) (selected_flow_line_id self)
    (zoom_level self) (pan_offset_x self) (pan_offset_y self) (undo_stack self)
    (redo_stack self) (dragging_rack_id self) (drag_start_positions self)
    (drag_operation_pending_undo_state self) (flow_line_start_point self)
    (first_tube_for_connection self) (connecting_tubes_mode self) v.

Definition set_drag_start_positions (self : planner)
    (v : list (string * (R * R))) : planner :=
  mk_planner (racks_on_canvas self) (flow_lines_on_canvas self)
    (tube_connections self) (selected_rack_ids self) (selected_flow_line_id self)
    (zoom_level self) (pan_offset_x self) (pan_offset_y self) (undo_stack self)
    (redo_stack self) (dragging_rack_id self) v
    (drag_operation_pending_undo_state self) (flow_line_start_point self)
    (first_tube_for_connection self) (connecting_tubes_mode self)
    (drawing_flow_line_mode self).

Definition set_drag_operation_pending_undo_state (self : planner)
    (v : option history_entry) : planner :=
  mk_planner (racks_on_canvas self) (flow_lines_on_canvas self)
    (tube_connections self) (selected_rack_ids self) (selected_flow_line_id self)
    (zoom_level self) (pan_offset_x self) (pan_offset_y self) (undo_stack self)
    (redo_stack self) (dragging_rack_id self) (drag_start_positions self)
    v (flow_line_start_point self)
    (first_tube_for_connection self) (connecting_tubes_mode self)
    (drawing_flow_line_mode self).

(** [toggle_connect_tubes_mode(force_off=True)]. After the assignment the
    mode is off, so the guarded call of [toggle_draw_flow_line_mode] is not
    taken and the [else] part runs. *)
Definition toggle_connect_tubes_mode_force_off (self : planner) : planner :=
  let self1 := set_connecting_tubes_mode self false in
  set_first_tube_for_connection self1 None.

(** [toggle_draw_flow_line_mode()]. *)
Definition toggle_draw_flow_line_mode (self : planner) : planner :=
  let self1 :=
    set_drawing_flow_line_mode self (negb (drawing_flow_line_mode self)) in
  let self2 :=
    if (drawing_flow_line_mode self1 && connecting_tubes_mode self1)%bool
    then toggle_connect_tubes_mode_force_off self1 else self1 in
  if drawing_flow_line_mode self2 then
    set_first_tube_for_connection
      (set_selected_flow_line_id (set_selected_rack_ids self2 []) None) None
  else set_flow_line_start_point self2 None.

(** [toggle_connect_tubes_mode(force_off)]. *)
Definition toggle_connect_tubes_mode (self : planner) (force_off : bool)
  : planner :=
  if force_off then toggle_connect_tubes_mode_force_off self
  else
    let self1 :=
      set_connecting_tubes_mode self (negb (connecting_tubes_mode self)) in
    let self2 :=
      if (connecting_tubes_mode self1 && drawing_flow_line_mode self1)%bool
      then toggle_draw_flow_line_mode self1 else self1 in
    if connecting_tubes_mode self2 then
      set_flow_line_start_point
        (set_selected_flow_line_id (set_selected_rack_ids self2 []) None) None
    else set_first_tube_for_connection self2 None.




(** [clear_all_racks()]; [confirmed] is the answer of the dialog. *)
Definition clear_all_racks (self : planner) (confirmed : bool) : planner :=
  if confirmed then
    let self1 := _record_state_for_undo self in
    let deleted_rack_ids := map id (racks_on_canvas self1) in
    let self2 :=
      set_dragging_rack_id
        (set_selected_rack_ids (set_racks self1 []) []) None in
    set_tube_connections self2
      (filter (fun c =>
                 (negb (id_in (source_rack_id c) deleted_rack_ids)
                  && negb (id_in (target_rack_id c) deleted_rack_ids))%bool)
              (tube_connections self2))
  else self.

(** [_generate_default_tube_data(num_tubes)]. *)
Definition _generate_default_tube_data (num_tubes : Z) : list tube_data :=
  map (fun _ => mk_tube default_new_tube_color_value 0 0.0 "Standard" "")
      (range num_tubes).

(** What [add_rack_to_list] reads from the input fields: the results of
    [int(...)] and [float(...)] ([None] is their [ValueError]), the rack
    type, the stripped name, and the id drawn for the rack. *)
Record rack_inputs := mk_rack_inputs {
  in_rack_type : string;
  in_x_tubes : option Z;
  in_y_tubes : option Z;
  in_pos_x : option R;
  in_pos_y : option R;
  in_tube_diameter : option Z;
  in_rotation : option Z;
  in_rack_name : string;
  in_uuid : string
}.

(** [str(n)] for a natural number. *)
Definition str_of_nat (n : nat) : string :=
  DecimalString.NilZero.string_of_uint (Nat.to_uint n).

(** [add_rack_to_list()], without the suggestion written back to the
    position field. *)
Definition add_rack_to_list (self : planner) (inputs : rack_inputs) : planner :=
  match in_x_tubes inputs, in_y_tubes inputs, in_pos_x inputs, in_pos_y inputs,
        in_tube_diameter inputs, in_rotation inputs with
  | Some x_tubes_v, Some y_tubes_v, Some pos_x_world, Some pos_y_world,
    Some tube_diameter_world, Some rotation =>
      let rack_type_v := in_rack_type inputs in
      let rack_name :=
        if (in_rack_name inputs =? "")%string
        then (rack_type_v ++ " Rack "
              ++ str_of_nat (List.length (racks_on_canvas self) + 1))%string
        else in_rack_name inputs in
      if ((rack_type_v =? "")%string || (x_tubes_v <=? 0)%Z
          || (y_tubes_v <=? 0)%Z || (tube_diameter_world <=? 2)%Z)%bool
      then self
      else
        let num_total_tubes := (x_tubes_v * y_tubes_v)%Z in
        let initial_tubes_data := _generate_default_tube_data num_total_tubes in
        let rack_config :=
          mk_rack (in_uuid inputs) rack_name rack_type_v x_tubes_v y_tubes_v
                  pos_x_world pos_y_world (IZR tube_diameter_world) rotation
                  initial_tubes_data in
        let self1 := _record_state_for_undo self in
        let self2 := set_racks self1 (racks_on_canvas self1 ++ [rack_config]) in
        let self3 :=
          set_selected_flow_line_id
            (set_selected_rack_ids self2 [id rack_config]) None in
        if (connecting_tubes_mode self3 || drawing_flow_line_mode self3)%bool
        then toggle_draw_flow_line_mode (toggle_connect_tubes_mode self3 true)
        else self3
  | _, _, _, _, _, _ => self
  end.

(** ** Flow lines *)

(** [math.hypot]. *)
Definition hypot (a b : R) : R := sqrt (a * a + b * b).

(** The body of the loop of [_get_line_under_mouse] for one line: whether
    the line is returned. *)
Definition line_hit (self : planner) (world_x world_y : R)
    (line_data : flow_line) : bool :=
  let wx1 := fl_x1 line_data in
  let wy1 := fl_y1 line_data in
  let wx2 := fl_x2 line_data in
  let wy2 := fl_y2 line_data in
  let world_halo := LINE_CLICK_HALO / zoom_level self in
  let min_wx := Rmin wx1 wx2 in
  let max_wx := Rmax wx1 wx2 in
  let min_wy := Rmin wy1 wy2 in
  let max_wy := Rmax wy1 wy2 in
  if negb (Rleb (min_wx - world_halo) world_x
           && Rleb world_x (max_wx + world_halo)
           && (Rleb (min_wy - world_halo) world_y
               && Rleb world_y (max_wy + world_halo)))%bool
  then false
  else
    let dx_w := wx2 - wx1 in
    let dy_w := wy2 - wy1 in
    let dist_w :=
      if (Reqb dx_w 0 && Reqb dy_w 0)%bool
      then hypot (world_x - wx1) (world_y - wy1)
      else
        let t :=
          ((world_x - wx1) * dx_w + (world_y - wy1) * dy_w)
          / (dx_w * dx_w + dy_w * dy_w) in
        let t := Rmax 0 (Rmin 1 t) in
        let closest_wx := wx1 + t * dx_w in
        let closest_wy := wy1 + t * dy_w in
        hypot (world_x - closest_wx) (world_y - closest_wy) in
    Rleb dist_w world_halo.

(** [_get_line_under_mouse(world_x, world_y)]. *)
Definition _get_line_under_mouse (self : planner) (world_x world_y : R)
  : option string :=
  match find (line_hit self world_x world_y)
             (rev (flow_lines_on_canvas self)) with
  | Some line_data => Some (fl_id line_data)
  | None => None
  end.


(** [clear_all_flow_lines()]. *)
Definition clear_all_flow_lines (self : planner) (confirmed : bool) : planner :=
  match flow_lines_on_canvas self with
  | [] => self
  | _ :: _ =>
      if confirmed then
        let self1 := _record_state_for_undo self in
        set_selected_flow_line_id (set_flow_lines self1 []) None
      else self
  end.

(** [clear_all_tube_connections()]. *)
Definition clear_all_tube_connections (self : planner) (confirmed : bool)
  : planner :=
  match tube_connections self with
  | [] => self
  | _ :: _ =>
      if confirmed then
        let self1 := _record_state_for_undo self in
        set_first_tube_for_connection (set_tube_connections self1 []) None
      else self
  end.

(** ** Tube dialogs *)

(** Layout constants of [TubeRecolorDialog] and [TubeTypeDialog]. *)
Definition _padding : Z := 10.
Definition _tube_size : Z := 25.
Definition _spacing : Z := 5.
Definition _segment_visual_spacing : Z := 8.

(** The first block of [_draw_tubes_on_dialog_canvas_initial]:
    [((dialog_display_cols, dialog_display_rows), (canvas_width,
    canvas_height))]; [None] is the [NameError] of a rack type that is
    neither "Crate" nor "Fan". *)
Definition dialog_grid_and_canvas (rack_type_v : string)
    (original_configured_cols original_configured_rows
       visual_rotation_angle : Z)
  : option ((Z * Z) * (Z * Z)) :=
  if (rack_type_v =? "Crate")%string then
    let '(dialog_display_cols, dialog_display_rows) :=
      if ((visual_rotation_angle =? 90) || (visual_rotation_angle =? 270))%Z
      then (original_configured_rows, original_configured_cols)
      else (original_configured_cols, original_configured_rows) in
    let canvas_width :=
      (2 * _padding + dialog_display_cols * (_tube_size + _spacing) - _spacing)%Z in
    let canvas_height :=
      (2 * _padding + dialog_display_rows * (_tube_size + _spacing) - _spacing)%Z in
    Some ((dialog_display_cols, dialog_display_rows),
          (canvas_width, canvas_height))
  else if (rack_type_v =? "Fan")%string then
    let num_fans_original := original_configured_cols in
    let tubes_per_fan_original := original_configured_rows in
    if ((visual_rotation_angle =? 90) || (visual_rotation_angle =? 270))%Z then
      let dialog_display_cols := tubes_per_fan_original in
      let dialog_display_rows := num_fans_original in
      Some ((dialog_display_cols, dialog_display_rows),
            ((2 * _padding + dialog_display_cols * _tube_size
              + Z.max 0 (dialog_display_cols - 1) * _spacing)%Z,
             (2 * _padding + dialog_display_rows * _tube_size
              + Z.max 0 (dialog_display_rows - 1) * _segment_visual_spacing)%Z))
    else
      let dialog_display_cols := num_fans_original in
      let dialog_display_rows := tubes_per_fan_original in
      Some ((dialog_display_cols, dialog_display_rows),
            ((2 * _padding + dialog_display_cols * _tube_size
              + Z.max 0 (dialog_display_cols - 1) * _segment_visual_spacing)%Z,
             (2 * _padding + dialog_display_rows * _tube_size
              + Z.max 0 (dialog_display_rows - 1) * _spacing)%Z))
  else None.

(** One iteration of the drawing loop for tube [i]:
    [((dialog_visual_col, dialog_visual_row), (x1, y1))]. [None] is an
    exception: a division by zero, or a name that no branch has bound (a
    Crate at an angle outside the four, or another rack type). *)
Definition dialog_tube_cell (rack_type_v : string)
    (original_configured_cols original_configured_rows
       visual_rotation_angle i : Z)
  : option ((Z * Z) * (Z * Z)) :=
  if (original_configured_cols =? 0)%Z then None
  else
    let original_col_idx := (i mod original_configured_cols)%Z in
    let original_row_idx := (i / original_configured_cols)%Z in
    if (rack_type_v =? "Crate")%string then
      let cell :=
        if (visual_rotation_angle =? 0)%Z then
          Some (original_col_idx, original_row_idx)
        else if (visual_rotation_angle =? 90)%Z then
          Some (original_row_idx,
                (original_configured_cols - 1 - original_col_idx)%Z)
        else if (visual_rotation_angle =? 180)%Z then
          Some ((original_configured_cols - 1 - original_col_idx)%Z,
                (original_configured_rows - 1 - original_row_idx)%Z)
        else if (visual_rotation_angle =? 270)%Z then
          Some ((original_configured_rows - 1 - original_row_idx)%Z,
                original_col_idx)
        else None in
      match cell with
      | None => None
      | Some (dialog_visual_col, dialog_visual_row) =>
          Some ((dialog_visual_col, dialog_visual_row),
                ((_padding + dialog_visual_col * (_tube_size + _spacing))%Z,
                 (_padding + dialog_visual_row * (_tube_size + _spacing))%Z))
      end
    else if (rack_type_v =? "Fan")%string then
      let num_fans := original_configured_cols in
      let tubes_per_fan := original_configured_rows in
      if (tubes_per_fan =? 0)%Z then None
      else
        let segment_idx := (i / tubes_per_fan)%Z in
        let tube_in_segment_idx := (i mod tubes_per_fan)%Z in
        let '(dialog_visual_col, dialog_visual_row) :=
          if (visual_rotation_angle =? 0)%Z then
            (segment_idx, tube_in_segment_idx)
          else if (visual_rotation_angle =? 90)%Z then
            (tube_in_segment_idx, (num_fans - 1 - segment_idx)%Z)
          else if (visual_rotation_angle =? 180)%Z then
            ((num_fans - 1 - segment_idx)%Z,
             (tubes_per_fan - 1 - tube_in_segment_idx)%Z)
          else if (visual_rotation_angle =? 270)%Z then
            ((tubes_per_fan - 1 - tube_in_segment_idx)%Z, segment_idx)
          else (segment_idx, tube_in_segment_idx) in
        if ((visual_rotation_angle =? 90) || (visual_rotation_angle =? 270))%Z
        then
          Some ((dialog_visual_col, dialog_visual_row),
                ((_padding + dialog_visual_col * (_tube_size + _spacing))%Z,
                 (_padding
                  + dialog_visual_row * (_tube_size + _segment_visual_spacing))%Z))
        else
          Some ((dialog_visual_col, dialog_visual_row),
                ((_padding
                  + dialog_visual_col * (_tube_size + _segment_visual_spacing))%Z,
                 (_padding + dialog_visual_row * (_tube_size + _spacing))%Z))
    else None.

(** ** Press, drag and release *)

Definition SNAP_THRESHOLD : R := 10.

(** A dictionary keyed by rack id, in insertion order. *)
Fixpoint dict_get {V : Type} (d : list (string * V)) (k : string) : option V :=
  match d with
  | [] => None
  | (k', v) :: rest => if (k' =? k)%string then Some v else dict_get rest k
  end.

(** [d[k] = v]: an existing key keeps its place. *)
Fixpoint dict_set {V : Type} (d : list (string * V)) (k : string) (v : V)
  : list (string * V) :=
  match d with
  | [] => [(k, v)]
  | (k', v') :: rest =>
      if (k' =? k)%string then (k', v) :: rest else (k', v') :: dict_set rest k v
  end.

(** [ids.remove(x)] for an [x] that is in the list. *)
Fixpoint remove_first_id (x : string) (ids : list string) : list string :=
  match ids with
  | [] => []
  | y :: rest => if (y =? x)%string then rest else y :: remove_first_id x rest
  end.

Definition tube_data_eq_dec (a b : tube_data) : {a = b} + {a <> b}.
Proof. decide equality; first [apply string_dec | apply Req_dec_T]. Defined.

(** [==] on rack dictionaries. *)
Definition rack_config_eq_dec (a b : rack_config) : {a = b} + {a <> b}.
Proof.
  decide equality;
    first [ apply string_dec | apply Req_dec_T | apply Z.eq_dec
          | apply (list_eq_dec tube_data_eq_dec) ].
Defined.

(** [racks.remove(rack)]: the first rack equal to [rack] goes. *)
Fixpoint remove_first_rack (rack : rack_config) (racks : list rack_config)
  : list rack_config :=
  match racks with
  | [] => []
  | r :: rest =>
      if rack_config_eq_dec r rack then rest
      else r :: remove_first_rack rack rest
  end.

(** The loop of [on_canvas_press] over [reversed(self.racks_on_canvas)]:
    the first rack whose outline contains the point. The outer [None] is an
    exception of [_is_point_in_polygon]. *)
Fixpoint first_rack_at (world_x world_y : R) (racks : list rack_config)
  : option (option rack_config) :=
  match racks with
  | [] => Some None
  | rack_config_iter :: rest =>
      match
        _is_point_in_polygon world_x world_y
          (rotated_outline_points_absolute_world
             (_get_rack_dimensions_and_points rack_config_iter))
      with
      | None => None
      | Some true => Some (Some rack_config_iter)
      | Some false => first_rack_at world_x world_y rest
      end
  end.

(** The settings read by [on_canvas_drag]: the two check boxes and the
    result of [int(self.grid_size_var.get())] ([None] is its
    [ValueError]). *)
Record snap_settings := mk_snap_settings {
  snap_to_grid_enabled : bool;
  grid_size_var : option Z;
  snap_to_racks_enabled : bool
}.

(** [on_canvas_press(event)]. The second component is
    [(self.drag_offset_x, self.drag_offset_y)]. *)
Definition on_canvas_press (self : planner) (drag_offset : R * R)
    (event_x event_y : R) (event_state : Z) : planner * (R * R) :=
  if (drawing_flow_line_mode self || connecting_tubes_mode self)%bool
  then (self, drag_offset)
  else
    let '(world_event_x, world_event_y) :=
      canvas_to_world self event_x event_y in
    let clicked_line_id :=
      _get_line_under_mouse self world_event_x world_event_y in
    let is_ctrl_click := negb (Z.land event_state 4 =? 0)%Z in
    let is_shift_click := negb (Z.land event_state 1 =? 0)%Z in
    if truthy_id clicked_line_id then
      let self1 :=
        if negb is_ctrl_click
        then set_selected_flow_line_id self clicked_line_id else self in
      (set_drag_operation_pending_undo_state
         (set_dragging_rack_id (set_selected_rack_ids self1 []) None) None,
       drag_offset)
    else
      match first_rack_at world_event_x world_event_y
                          (rev (racks_on_canvas self)) with
      | None => (self, drag_offset)
      | Some (Some clicked_on_rack_config) =>
          let clicked_id := id clicked_on_rack_config in
          let self1 := set_selected_flow_line_id self None in
          let self2 :=
            set_drag_operation_pending_undo_state self1
              (Some (_capture_current_state self1)) in
          let self3 := set_dragging_rack_id self2 (Some clicked_id) in
          let drag_offset' :=
            (world_event_x - pos_x clicked_on_rack_config,
             world_event_y - pos_y clicked_on_rack_config) in
          let is_multi_drag_candidate :=
            (id_in clicked_id (selected_rack_ids self3)
             && (1 <? List.length (selected_rack_ids self3))%nat)%bool in
          let starts :=
            if is_multi_drag_candidate then
              fold_left
                (fun d r_id =>
                   match rack_by_id (racks_on_canvas self3) r_id with
                   | Some r_sel => dict_set d r_id (pos_x r_sel, pos_y r_sel)
                   | None => d
                   end)
                (selected_rack_ids self3) []
            else if truthy_id (dragging_rack_id self3) then
              dict_set [] clicked_id
                       (pos_x clicked_on_rack_config, pos_y clicked_on_rack_config)
            else [] in
          let self4 := set_drag_start_positions self3 starts in
          let self5 :=
            if (is_ctrl_click && negb is_shift_click)%bool then
              if id_in clicked_id (selected_rack_ids self4)
              then set_selected_rack_ids self4
                     (remove_first_id clicked_id (selected_rack_ids self4))
              else set_selected_rack_ids self4
                     (selected_rack_ids self4 ++ [clicked_id])
            else if (negb is_shift_click
                     && (negb (id_in clicked_id (selected_rack_ids self4))
                         || (1 <? List.length (selected_rack_ids self4))%nat))%bool
            then set_selected_rack_ids self4 [clicked_id]
            else self4 in
          let self6 :=
            if (negb (List.length (selected_rack_ids self5) =? 0)%nat
                && id_in clicked_id (selected_rack_ids self5))%bool
            then
              let selected_racks_to_move :=
                filter (fun r => id_in (id r) (selected_rack_ids self5))
                       (racks_on_canvas self5) in
              let others :=
                filter (fun r => negb (id_in (id r) (selected_rack_ids self5)))
                       (racks_on_canvas self5) in
              set_racks self5
                (others
                   ++ (remove_first_rack clicked_on_rack_config
                                         selected_racks_to_move
                       ++ [clicked_on_rack_config]))
            else self5 in
          (self6, drag_offset')
      | Some None =>
          if negb is_shift_click then
            let self1 :=
              if negb is_ctrl_click
              then set_selected_flow_line_id (set_selected_rack_ids self []) None
              else self in
            (set_drag_start_positions
               (set_drag_operation_pending_undo_state
                  (set_dragging_rack_id self1 None) None) [],
             drag_offset)
          else (self, drag_offset)
      end.

(** [round(x)] on a float: to the nearest integer, halves to the even
    one. *)
Definition py_round (x : R) : Z :=
  let f := Int_part x in
  let r := frac_part x in
  if Rltb r (1 / 2) then f
  else if Rltb (1 / 2) r then (f + 1)%Z
  else if Z.even f then f else (f + 1)%Z.

(** [(min, max)] of the first and of the second coordinates of an
    outline. *)
Definition outline_extent (outline : list (R * R)) : (R * R) * (R * R) :=
  let xs := map fst outline in
  let ys := map snd outline in
  ((min_of (hd 0 xs) (tl xs), max_of (hd 0 xs) (tl xs)),
   (min_of (hd 0 ys) (tl ys), max_of (hd 0 ys) (tl ys))).

(** One axis of the edge comparison of [_snap_rack]: the [if]/[elif] chain
    on the four pairs of edges. *)
Definition snap_axis (snapped current drag_min drag_max other_min other_max
                        threshold : R) : R :=
  if Rltb (Rabs (drag_min - other_max)) threshold
  then current + (other_max - drag_min)
  else if Rltb (Rabs (drag_max - other_min)) threshold
  then current + (other_min - drag_max)
  else if Rltb (Rabs (drag_min - other_min)) threshold
  then current + (other_min - drag_min)
  else if Rltb (Rabs (drag_max - other_max)) threshold
  then current + (other_max - drag_max)
  else snapped.

(** [other_rack['id'] in ids_in_drag_group] in [_snap_rack]: the group is
    the selection when a primary id is passed and more than one rack is
    selected, the dragged rack alone otherwise. *)
Definition ids_in_drag_group (self : planner) (dragged_rack_config : rack_config)
    (primary_drag_id_for_group : option string) (rack_id : string) : bool :=
  if (truthy_id primary_drag_id_for_group
      && (1 <? List.length (selected_rack_ids self))%nat)%bool
  then id_in rack_id (selected_rack_ids self)
  else (rack_id =? id dragged_rack_config)%string.

(** The body of the loop of [_snap_rack] for one other rack. *)
Definition snap_step (self : planner) (dragged_rack_config : rack_config)
    (primary_drag_id_for_group : option string)
    (current_x_world current_y_world : R)
    (drag_extent : (R * R) * (R * R)) (snapped : R * R)
    (other_rack : rack_config) : R * R :=
  let '((drag_min_xw, drag_max_xw), (drag_min_yw, drag_max_yw)) :=
    drag_extent in
  let world_snap_threshold := SNAP_THRESHOLD / zoom_level self in
  if ids_in_drag_group self dragged_rack_config primary_drag_id_for_group
                       (id other_rack)
  then snapped
  else
    let other_outline_world :=
      rotated_outline_points_absolute_world
        (_get_rack_dimensions_and_points other_rack) in
    match other_outline_world with
    | [] => snapped
    | _ :: _ =>
        let '((other_min_xw, other_max_xw), (other_min_yw, other_max_yw)) :=
          outline_extent other_outline_world in
        (snap_axis (fst snapped) current_x_world drag_min_xw drag_max_xw
                   other_min_xw other_max_xw world_snap_threshold,
         snap_axis (snd snapped) current_y_world drag_min_yw drag_max_yw
                   other_min_yw other_max_yw world_snap_threshold)
    end.

(** [_snap_rack(dragged_rack_config, current_x_world, current_y_world,
    primary_drag_id_for_group)]. *)
Definition _snap_rack (self : planner) (dragged_rack_config : rack_config)
    (current_x_world current_y_world : R)
    (primary_drag_id_for_group : option string) : R * R :=
  let temp_dragged_config :=
    set_pos dragged_rack_config current_x_world current_y_world in
  let dragged_outline_world :=
    rotated_outline_points_absolute_world
      (_get_rack_dimensions_and_points temp_dragged_config) in
  match dragged_outline_world with
  | [] => (current_x_world, current_y_world)
  | _ :: _ =>
      fold_left
        (snap_step self dragged_rack_config primary_drag_id_for_group
                   current_x_world current_y_world
                   (outline_extent dragged_outline_world))
        (racks_on_canvas self) (current_x_world, current_y_world)
  end.


(** The snapped position and the delta computed by [on_canvas_drag]. *)
Definition drag_target (self : planner) (drag_offset : R * R)
    (settings : snap_settings) (primary_rack_dragged : rack_config)
    (event_x event_y : R) : (R * R) * (R * R) :=
  let '(world_event_x, world_event_y) :=
    canvas_to_world self event_x event_y in
  let proposed_primary_x_world := world_event_x - fst drag_offset in
  let proposed_primary_y_world := world_event_y - snd drag_offset in
  let dragging_id :=
    match dragging_rack_id self with Some s => s | None => ""%string end in
  let '(orig_primary_start_x_w, orig_primary_start_y_w) :=
    match dict_get (drag_start_positions self) dragging_id with
    | Some p => p
    | None => (proposed_primary_x_world, proposed_primary_y_world)
    end in
  let '(snapped_x_world, snapped_y_world) :=
    if snap_to_grid_enabled settings then
      match grid_size_var settings with
      | Some grid_s_world =>
          if (0 <? grid_s_world)%Z then
            (IZR (py_round (proposed_primary_x_world / IZR grid_s_world)
                  * grid_s_world),
             IZR (py_round (proposed_primary_y_world / IZR grid_s_world)
                  * grid_s_world))
          else (proposed_primary_x_world, proposed_primary_y_world)
      | None => (proposed_primary_x_world, proposed_primary_y_world)
      end
    else (proposed_primary_x_world, proposed_primary_y_world) in
  let '(snapped_x_world, snapped_y_world) :=
    if snap_to_racks_enabled settings then
      _snap_rack self primary_rack_dragged snapped_x_world snapped_y_world
        (if (1 <? List.length (selected_rack_ids self))%nat
         then dragging_rack_id self else None)
    else (snapped_x_world, snapped_y_world) in
  ((snapped_x_world, snapped_y_world),
   (snapped_x_world - orig_primary_start_x_w,
    snapped_y_world - orig_primary_start_y_w)).


(** The loop of [on_canvas_release] that looks for a moved rack. *)
Definition drag_ended_state_different (self : planner) : bool :=
  existsb
    (fun rack_id =>
       match rack_by_id (racks_on_canvas self) rack_id,
             dict_get (drag_start_positions self) rack_id with
       | Some current_rack_config, Some (start_x_w, start_y_w) =>
           (negb (Reqb (pos_x current_rack_config) start_x_w)
            || negb (Reqb (pos_y current_rack_config) start_y_w))%bool
       | _, _ => false
       end)
    (selected_rack_ids self).

(** [on_canvas_release(event)]. *)
Definition on_canvas_release (self : planner) (is_panning : bool) : planner :=
  if (truthy_id (selected_flow_line_id self) || drawing_flow_line_mode self
      || connecting_tubes_mode self || is_panning)%bool
  then self
  else
    let self1 :=
      if truthy_id (dragging_rack_id self) then
        match drag_operation_pending_undo_state self,
              drag_start_positions self with
        | Some pending, _ :: _ =>
            if drag_ended_state_different self
            then _push_to_undo_stack self pending else self
        | _, _ => self
        end
      else self in
    set_drag_operation_pending_undo_state
      (set_drag_start_positions (set_dragging_rack_id self1 None) []) None.

(** ** Predicates used in the statements *)

(** Whether the edge from [p1] to [p2] passes the guard of the loop. *)
Definition edge_guard (x y : R) (p1 p2 : R * R) : bool :=
  (Rltb (Rmin (snd p1) (snd p2)) y && Rleb y (Rmax (snd p1) (snd p2))
   && Rleb x (Rmax (fst p1) (fst p2)))%bool.

(** The half-open box test [lo_x < x <= hi_x and lo_y < y <= hi_y]. *)
Definition in_half_open_box (x y lo_x hi_x lo_y hi_y : R) : bool :=
  (Rltb lo_x x && Rleb x hi_x && Rltb lo_y y && Rleb y hi_y)%bool.

Definition wheel_up (event : wheel_event) : bool :=
  ((0 <? ev_delta event) || (ev_num event =? 4))%Z.

Definition wheel_down (event : wheel_event) : bool :=
  (negb (wheel_up event)
   && ((ev_delta event <? 0) || (ev_num event =? 5))%Z)%bool.


(** Inputs that [add_rack_to_list] accepts: every number parses, the type is
    not empty, both tube counts are positive and the diameter exceeds 2. *)
Definition accepted_inputs (inputs : rack_inputs) (x y d rot : Z) (px py : R)
  : Prop :=
  in_x_tubes inputs = Some x /\ in_y_tubes inputs = Some y
  /\ in_pos_x inputs = Some px /\ in_pos_y inputs = Some py
  /\ in_tube_diameter inputs = Some d /\ in_rotation inputs = Some rot
  /\ in_rack_type inputs <> ""%string
  /\ (0 < x)%Z /\ (0 < y)%Z /\ (2 < d)%Z.

Definition example_inputs : rack_inputs :=
  mk_rack_inputs "Fan" (Some 2%Z) (Some 3%Z) (Some 50) (Some 50)
                 (Some 20%Z) (Some 90%Z) "" "rack-new".

Definition example_line : flow_line :=
  mk_flow_line "line-1" 0 0 100 50 "darkred" 2.0 "".




(** A state in the middle of a drag of the Crate, which was grabbed at its
    center. *)
Definition mid_drag_planner : planner :=
  mk_planner [scenario_fan; scenario_crate] [] [] ["rack-1"%string] None
             1.0 0.0 0.0 [] [] (Some "rack-1"%string)
             [("rack-1"%string, (50, 50))]
             (Some (_capture_current_state two_rack_planner)) None None
             false false.


Definition grid_of_20 : snap_settings := mk_snap_settings true (Some 20%Z) false.

(** What [on_canvas_release] looks for: a selected rack on the canvas with a
    recorded start position that is not its position any more. *)
Definition some_selected_rack_moved (self : planner) : Prop :=
  exists rack_id rack start,
    In rack_id (selected_rack_ids self)
    /\ rack_by_id (racks_on_canvas self) rack_id = Some rack
    /\ dict_get (drag_start_positions self) rack_id = Some start
    /\ (pos_x rack, pos_y rack) <> start.

(** The middle of the drag, with the Crate moved to (80, 90). *)
Definition moved_drag_planner : planner :=
  set_racks mid_drag_planner [scenario_fan; set_pos scenario_crate 80 90].




(** * Properties *)

(** ** Counting loops *)

Lemma range_nat_S (n : nat) : range_nat (S n) = range_nat n ++ [Z.of_nat n].
Proof. unfold range_nat. rewrite seq_S, map_app. reflexivity. Qed.

Section CountingLoops.
Context {B : Type}.

(** A loop over [range] that appends one element per iteration and
    advances a counter yields the elements in iteration order, numbered
    from the counter's start. *)
Lemma counter_loop (step : list B * Z -> Z -> list B * Z) (f : Z -> Z -> B) :
  (forall acc k a, step (acc, k) a = (acc ++ [f a k], (k + 1)%Z)) ->
  forall n acc k,
    fold_left step (range_nat n) (acc, k)
    = (acc ++ map (fun j => f (Z.of_nat j) (k + Z.of_nat j)%Z) (seq 0 n),
       (k + Z.of_nat n)%Z).
Proof.
  intros Hstep n. induction n as [|n IH]; intros acc k.
  - cbn. rewrite app_nil_r, Z.add_0_r. reflexivity.
  - rewrite range_nat_S, fold_left_app, IH.
    cbn [fold_left]. rewrite Hstep, <- app_assoc, seq_S, map_app.
    cbn [map Nat.add]. f_equal. lia.
Qed.

(** Two nested counting loops enumerate the grid block by block. *)
Lemma nested_counter_loop
    (step : Z -> list B * Z -> Z -> list B * Z) (f : Z -> Z -> Z -> B) :
  (forall o acc k a, step o (acc, k) a = (acc ++ [f o a k], (k + 1)%Z)) ->
  forall m n,
    fold_left (fun st o => fold_left (step o) (range_nat m) st)
              (range_nat n) ([], 0%Z)
    = (flat_map
         (fun o => map (fun i => f (Z.of_nat o) (Z.of_nat i)
                                   (Z.of_nat (o * m + i)))
                       (seq 0 m))
         (seq 0 n),
       Z.of_nat (n * m)).
Proof.
  intros Hstep m n. induction n as [|n IH].
  - reflexivity.
  - rewrite range_nat_S, fold_left_app, IH.
    cbn [fold_left].
    rewrite (counter_loop (step (Z.of_nat n)) (f (Z.of_nat n)) (Hstep _)).
    rewrite seq_S, flat_map_app. cbn [flat_map Nat.add]. rewrite app_nil_r.
    f_equal; [|lia].
    f_equal. apply map_ext. intros j. f_equal. lia.
Qed.

Lemma length_grid (g : nat -> nat -> B) (m n : nat) :
  List.length (flat_map (fun o => map (g o) (seq 0 m)) (seq 0 n)) = (n * m)%nat.
Proof.
  induction n as [|n IH]; [reflexivity|].
  rewrite seq_S, flat_map_app, length_app, IH. cbn [flat_map].
  rewrite app_nil_r, length_map, length_seq. lia.
Qed.

(** The element at a position of the block enumeration. *)
Lemma nth_error_grid (g : nat -> nat -> B) (m n k : nat) :
  (k < n * m)%nat ->
  nth_error (flat_map (fun o => map (g o) (seq 0 m)) (seq 0 n)) k
  = Some (g (k / m)%nat (k mod m)%nat).
Proof.
  induction n as [|n IH]; intros Hk; [lia|].
  assert (Hm : (m <> 0)%nat) by (intros ->; lia).
  rewrite seq_S, flat_map_app. cbn [flat_map Nat.add]. rewrite app_nil_r.
  destruct (Nat.lt_ge_cases k (n * m)) as [Hlt|Hge].
  - rewrite nth_error_app1 by (rewrite length_grid; exact Hlt). apply IH, Hlt.
  - rewrite nth_error_app2 by (rewrite length_grid; exact Hge).
    rewrite length_grid.
    assert (Hq : (k / m = n)%nat).
    { symmetry. apply (Nat.div_unique k m n (k - n * m)); lia. }
    assert (Hr : (k mod m = k - n * m)%nat).
    { symmetry. apply (Nat.mod_unique k m n (k - n * m)); lia. }
    rewrite Hq, Hr.
    rewrite nth_error_map, nth_error_seq.
    assert (Hb : (k - n * m <? m)%nat = true) by (apply Nat.ltb_lt; lia).
    rewrite Hb. reflexivity.
Qed.
End CountingLoops.

(** ** Rotation by the four rack angles *)

Lemma radians_0 : radians 0 = 0.
Proof. unfold radians. lra. Qed.

Lemma rotate_point_0 (x y cx cy : R) : _rotate_point x y 0 cx cy = (x, y).
Proof.
  unfold _rotate_point, radians.
  replace (0 * (PI / 180)) with 0 by lra.
  rewrite sin_0, cos_0. f_equal; ring.
Qed.




(** ** The tube list of the kernel *)

Lemma kernel_tubes (rc : rack_config) :
  tube_center_points_info_world (_get_rack_dimensions_and_points rc)
  = fst (tube_loops rc (rack_center rc) (Rmax (tube_diameter rc) 10)).
Proof.
  unfold _get_rack_dimensions_and_points, rack_center.
  destruct (unrotated_rack_size rc) as [w h]. reflexivity.
Qed.

Lemma kernel_size (rc : rack_config) :
  unrotated_rack_size_world (_get_rack_dimensions_and_points rc)
  = unrotated_rack_size rc.
Proof.
  unfold _get_rack_dimensions_and_points.
  destruct (unrotated_rack_size rc) as [w h]. reflexivity.
Qed.

Lemma kernel_tubes_grid (rc : rack_config) :
  tube_center_points_info_world (_get_rack_dimensions_and_points rc)
  = tube_grid rc.
Proof.
  rewrite kernel_tubes. unfold tube_loops, tube_grid, range.
  destruct (rack_type rc =? "Crate")%string.
  - rewrite (nested_counter_loop
               (crate_step rc (rack_center rc) (Rmax (tube_diameter rc) 10))
               (fun o a k => tube_of_cell rc (crate_cell_local rc a o) k)).
    + reflexivity.
    + intros o acc k a. reflexivity.
  - destruct (rack_type rc =? "Fan")%string; [|reflexivity].
    rewrite (nested_counter_loop
               (fan_step rc (rack_center rc) (Rmax (tube_diameter rc) 10))
               (fun o a k => tube_of_cell rc (fan_cell_local rc o a) k)).
    + reflexivity.
    + intros o acc k a. unfold fan_step, tube_of_cell, to_world, fan_cell_local.
      cbn [fst snd]. do 4 f_equal; f_equal; try ring.
Qed.

Lemma tube_grid_nth (rc : rack_config) (k : nat) :
  (rack_type rc = "Crate" \/ rack_type rc = "Fan")%string ->
  (0 < x_tubes rc)%Z -> (0 < y_tubes rc)%Z ->
  (Z.of_nat k < x_tubes rc * y_tubes rc)%Z ->
  nth_error (tube_grid rc) k
  = Some (tube_of_cell rc (cell_local rc (cell_of_index rc (Z.of_nat k)))
                       (Z.of_nat k)).
Proof.
  intros Hty Hc Hr Hk.
  pose proof (Z2Nat.id (x_tubes rc) ltac:(lia)) as Hm.
  pose proof (Z2Nat.id (y_tubes rc) ltac:(lia)) as Hn.
  set (m := Z.to_nat (x_tubes rc)) in *.
  set (n := Z.to_nat (y_tubes rc)) in *.
  unfold tube_grid, cell_local, cell_of_index.
  destruct Hty as [Hty|Hty]; rewrite Hty.
  - rewrite String.eqb_refl. fold m n.
    rewrite (nth_error_grid
               (fun o i => tube_of_cell rc
                             (crate_cell_local rc (Z.of_nat i) (Z.of_nat o))
                             (Z.of_nat (o * m + i)))) by nia.
    cbn [fst snd]. rewrite Nat2Z.inj_mod, Nat2Z.inj_div, Hm.
    do 2 f_equal. f_equal.
    pose proof (Nat.div_mod_eq k m). lia.
  - change (("Fan" =? "Crate")%string) with false. rewrite String.eqb_refl.
    fold m n.
    rewrite (nth_error_grid
               (fun o i => tube_of_cell rc
                             (fan_cell_local rc (Z.of_nat o) (Z.of_nat i))
                             (Z.of_nat (o * n + i)))) by nia.
    cbn [fst snd]. rewrite Nat2Z.inj_mod, Nat2Z.inj_div, Hn.
    do 2 f_equal. f_equal.
    pose proof (Nat.div_mod_eq k n). lia.
Qed.

Lemma tube_grid_length (rc : rack_config) :
  (rack_type rc = "Crate" \/ rack_type rc = "Fan")%string ->
  List.length (tube_grid rc) = (Z.to_nat (x_tubes rc) * Z.to_nat (y_tubes rc))%nat.
Proof.
  intros Hty. unfold tube_grid.
  destruct Hty as [Hty|Hty]; rewrite Hty.
  - rewrite String.eqb_refl.
    rewrite (length_grid
               (fun o i => tube_of_cell rc
                             (crate_cell_local rc (Z.of_nat i) (Z.of_nat o))
                             (Z.of_nat (o * Z.to_nat (x_tubes rc) + i)))).
    lia.
  - change (("Fan" =? "Crate")%string) with false. rewrite String.eqb_refl.
    rewrite (length_grid
               (fun o i => tube_of_cell rc
                             (fan_cell_local rc (Z.of_nat o) (Z.of_nat i))
                             (Z.of_nat (o * Z.to_nat (y_tubes rc) + i)))).
    lia.
Qed.

(** The kernel numbers the tubes [0 .. cols*rows - 1] in list order. *)
Lemma tube_grid_indices (rc : rack_config) :
  (rack_type rc = "Crate" \/ rack_type rc = "Fan")%string ->
  (0 < x_tubes rc)%Z -> (0 < y_tubes rc)%Z ->
  map tube_idx (tube_grid rc) = range (x_tubes rc * y_tubes rc).
Proof.
  intros Hty Hc Hr. apply nth_error_ext. intros k.
  unfold range, range_nat. rewrite !nth_error_map, nth_error_seq.
  rewrite Z2Nat.inj_mul by lia.
  destruct (Nat.ltb_spec k (Z.to_nat (x_tubes rc) * Z.to_nat (y_tubes rc))) as [Hlt|Hge].
  - rewrite tube_grid_nth by (try assumption; nia). reflexivity.
  - assert (Hnone : nth_error (tube_grid rc) k = None).
    { apply nth_error_None. rewrite tube_grid_length by assumption. exact Hge. }
    rewrite Hnone. reflexivity.
Qed.

(** The tube at position [i] of the kernel's list, for a rack of either
    type with positive dimensions. *)
Lemma kernel_nth_tube (rc : rack_config) (i : Z) :
  (rack_type rc = "Crate" \/ rack_type rc = "Fan")%string ->
  (0 < x_tubes rc)%Z -> (0 < y_tubes rc)%Z ->
  (0 <= i < x_tubes rc * y_tubes rc)%Z ->
  nth_error (tube_center_points_info_world (_get_rack_dimensions_and_points rc))
            (Z.to_nat i)
  = Some (tube_of_cell rc (cell_local rc (cell_of_index rc i)) i).
Proof.
  intros Hty Hc Hr Hi. rewrite kernel_tubes_grid.
  rewrite tube_grid_nth by (try assumption; lia).
  rewrite Z2Nat.id by lia. reflexivity.
Qed.


(** Evaluation of closed integer expressions under [IZR]. *)
Ltac eval_IZR :=
  repeat match goal with
         | |- context [IZR ?z] =>
             lazymatch z with
             | Z0 => fail
             | Zpos _ => fail
             | Zneg _ => fail
             | _ => let v := eval vm_compute in z in change (IZR z) with (IZR v)
             end
         end.

(** Unfolding of a reported tube down to real arithmetic. *)
Ltac unfold_tube :=
  unfold tube_of_cell, to_world, rack_center, cell_local, cell_of_index,
    crate_cell_local, fan_cell_local, unrotated_rack_size;
  cbn -[IZR Rmax Rplus Rmult Rminus Rdiv _rotate_point
        Z.div Z.modulo Z.max Z.sub Z.mul];
  eval_IZR.

Ltac unfold_constants :=
  unfold DEFAULT_TUBE_SPACING_RATIO, DEFAULT_FAN_PADDING_RATIO,
    DEFAULT_INTER_FAN_SPACING_RATIO, RACK_OUTER_PADDING in *.

(** ** The worked Crate scenario *)

Lemma scenario_crate_size :
  unrotated_rack_size scenario_crate = (78, 54).
Proof.
  unfold unrotated_rack_size, scenario_crate.
  cbn -[IZR Rplus Rmult Z.max Z.sub]. eval_IZR. unfold_constants.
  f_equal; lra.
Qed.

Lemma scenario_crate_first_tube :
  tube_of_cell scenario_crate
               (cell_local scenario_crate (cell_of_index scenario_crate 0)) 0
  = mk_tube_info 0 26 38 20.
Proof.
  unfold scenario_crate. unfold_tube.
  rewrite rotate_point_0. cbn [fst snd]. unfold_constants.
  rewrite Rmax_left by lra. f_equal; lra.
Qed.

Lemma scenario_crate_tubes_inv (t : tube_info) :
  In t (tube_center_points_info_world
          (_get_rack_dimensions_and_points scenario_crate)) ->
  tube_idx t = 0%Z -> t = mk_tube_info 0 26 38 20.
Proof.
  intros Hin Hidx. apply In_nth_error in Hin. destruct Hin as [k Hk].
  assert (Hlt : (k < 6)%nat).
  { assert (Hsome : nth_error
                      (tube_center_points_info_world
                         (_get_rack_dimensions_and_points scenario_crate)) k
                    <> None) by congruence.
    apply nth_error_Some in Hsome.
    rewrite kernel_tubes_grid, tube_grid_length in Hsome by (left; reflexivity).
    exact Hsome. }
  rewrite kernel_tubes_grid in Hk.
  rewrite tube_grid_nth in Hk;
    [|left; reflexivity|reflexivity|reflexivity|cbn [scenario_crate x_tubes y_tubes]; lia].
  injection Hk as <-. cbn [tube_of_cell tube_idx] in Hidx.
  assert (k = 0%nat) by lia. subst k.
  apply scenario_crate_first_tube.
Qed.

(** C1 (as stated, refuted): in the 3 by 2 Crate of diameter 20 at (50, 50)
    with rotation 0, no tube numbered 0 has its center at (65, 65). *)
Lemma scenario_crate_tube0_not_65_65 :
  ~ exists t,
      In t (tube_center_points_info_world
              (_get_rack_dimensions_and_points scenario_crate))
      /\ tube_idx t = 0%Z /\ tube_cx t = 65 /\ tube_cy t = 65.
Proof.
  intros (t & Hin & Hidx & Hx & _).
  rewrite (scenario_crate_tubes_inv t Hin Hidx) in Hx.
  cbn [tube_cx] in Hx. lra.
Qed.

(** C1 (amended): the rack position is where the kernel puts the center of
    the rack rectangle. The scenario rack measures 78 by 54, so its
    rotation center is (39, 27); the tube numbered 0 is the first of the
    list and its center is (50 - 39 + 15, 50 - 27 + 15) = (26, 38), with
    effective diameter 20. *)
Theorem scenario_crate_tube0_center :
  unrotated_rack_size_world (_get_rack_dimensions_and_points scenario_crate)
  = (78, 54)
  /\ nth_error (tube_center_points_info_world
                  (_get_rack_dimensions_and_points scenario_crate)) 0
     = Some (mk_tube_info 0 (50 - 39 + 15) (50 - 27 + 15) 20).
Proof.
  split.
  - rewrite kernel_size. apply scenario_crate_size.
  - change 0%nat with (Z.to_nat 0).
    rewrite kernel_nth_tube;
      [|left; reflexivity|reflexivity|reflexivity|cbn [scenario_crate x_tubes y_tubes]; lia].
    rewrite scenario_crate_first_tube. do 2 f_equal; lra.
Qed.

(** ** Tube numbering *)

Lemma set_rotation_angle_grid_cell (rc : rack_config) (a i : Z) :
  cell_local (set_rotation_angle rc a) (cell_of_index (set_rotation_angle rc a) i)
  = cell_local rc (cell_of_index rc i).
Proof. reflexivity. Qed.

(** C2 (as stated, refuted): row-major numbering, with tube [i] in
    unrotated column [i mod cols] and row [i div cols], does not hold for
    every rack of both types: in a Fan of 2 segments with 3 tubes each the
    tube numbered 1 is the second tube of the first segment. *)
Lemma fan_numbering_not_row_major :
  ~ forall (rc : rack_config) (i : Z),
      (rack_type rc = "Crate" \/ rack_type rc = "Fan")%string ->
      (0 < x_tubes rc)%Z -> (0 < y_tubes rc)%Z ->
      (0 <= i < x_tubes rc * y_tubes rc)%Z ->
      nth_error (tube_center_points_info_world
                   (_get_rack_dimensions_and_points rc)) (Z.to_nat i)
      = Some (tube_of_cell rc
                (cell_local rc ((i mod x_tubes rc)%Z, (i / x_tubes rc)%Z)) i).
Proof.
  intros H.
  assert (Hi : (0 <= 1 < x_tubes scenario_fan * y_tubes scenario_fan)%Z)
    by (cbn [scenario_fan x_tubes y_tubes]; lia).
  specialize (H scenario_fan 1%Z (or_intror eq_refl) eq_refl eq_refl Hi).
  rewrite (kernel_nth_tube scenario_fan 1 (or_intror eq_refl) eq_refl eq_refl Hi)
    in H.
  apply (f_equal (option_map tube_cx)) in H. cbn [option_map] in H.
  injection H as H. revert H.
  unfold scenario_fan. unfold_tube.
  rewrite radians_0, sin_0, cos_0. unfold_constants. lra.
Qed.

(** C2 (amended): for a rack of either type with positive dimensions the
    kernel numbers its tubes [0 .. cols*rows - 1] in list order. In a Crate
    the numbering is row-major over the unrotated grid (tube [i] is in
    column [i mod cols], row [i div cols]); in a Fan it runs segment by
    segment (tube [i] is tube [i mod rows] of fan segment [i div rows]).
    Changing the rotation angle changes neither the numbers nor the
    unrotated cell a number stands for, only where the cell is placed. *)
Theorem tube_numbering (rc : rack_config) :
  (rack_type rc = "Crate" \/ rack_type rc = "Fan")%string ->
  (0 < x_tubes rc)%Z -> (0 < y_tubes rc)%Z ->
  map tube_idx (tube_center_points_info_world
                  (_get_rack_dimensions_and_points rc))
  = range (x_tubes rc * y_tubes rc)
  /\ (forall a i,
         (0 <= i < x_tubes rc * y_tubes rc)%Z ->
         nth_error (tube_center_points_info_world
                      (_get_rack_dimensions_and_points (set_rotation_angle rc a)))
                   (Z.to_nat i)
         = Some (tube_of_cell (set_rotation_angle rc a)
                              (cell_local rc (cell_of_index rc i)) i))
  /\ (forall a,
         map tube_idx (tube_center_points_info_world
                         (_get_rack_dimensions_and_points (set_rotation_angle rc a)))
         = map tube_idx (tube_center_points_info_world
                           (_get_rack_dimensions_and_points rc)))
  /\ (forall i,
         cell_of_index rc i
         = if (rack_type rc =? "Crate")%string
           then ((i mod x_tubes rc)%Z, (i / x_tubes rc)%Z)
           else ((i / y_tubes rc)%Z, (i mod y_tubes rc)%Z)).
Proof.
  intros Hty Hc Hr. repeat split.
  - rewrite kernel_tubes_grid. apply tube_grid_indices; assumption.
  - intros a i Hi.
    rewrite (kernel_nth_tube (set_rotation_angle rc a) i Hty Hc Hr Hi).
    rewrite set_rotation_angle_grid_cell. reflexivity.
  - intros a. rewrite !kernel_tubes_grid.
    rewrite (tube_grid_indices (set_rotation_angle rc a) Hty Hc Hr).
    rewrite (tube_grid_indices rc Hty Hc Hr). reflexivity.
Qed.

Lemma tube_numbering_witness :
  map tube_idx (tube_center_points_info_world
                  (_get_rack_dimensions_and_points scenario_fan))
  = range (x_tubes scenario_fan * y_tubes scenario_fan).
Proof.
  apply (tube_numbering scenario_fan); [right; reflexivity|reflexivity|reflexivity].
Defined.

(** ** Effective tube diameter *)

Lemma tube_hit_iff (wx wy : R) (t : tube_info) :
  tube_hit wx wy t = true
  <-> (wx - tube_cx t) ^ 2 + (wy - tube_cy t) ^ 2 <= (tube_dia t / 2) ^ 2.
Proof.
  unfold tube_hit.
  destruct (Rle_dec ((wx - tube_cx t) ^ 2 + (wy - tube_cy t) ^ 2)
                    ((tube_dia t / 2) ^ 2)); split; intros; try assumption;
    try reflexivity; try discriminate; contradiction.
Qed.



(** ** Bounding box of the rotated outline *)








(** ** View transform *)






(** ** Undo and redo *)

Lemma pop_last_app {A : Type} (l : list A) (x : A) :
  pop_last (l ++ [x]) = Some (x, l).
Proof.
  unfold pop_last. rewrite rev_app_distr. cbn [rev app].
  rewrite rev_involutive. reflexivity.
Qed.

Lemma pop_last_inv {A : Type} (l r : list A) (x : A) :
  pop_last l = Some (x, r) -> l = r ++ [x].
Proof.
  unfold pop_last. intros H.
  rewrite <- (rev_involutive l).
  destruct (rev l) as [|y t]; [discriminate|].
  injection H as -> <-. reflexivity.
Qed.

Lemma pop_last_nonempty {A : Type} (l : list A) :
  l <> [] -> exists x r, pop_last l = Some (x, r).
Proof.
  intros Hne. unfold pop_last.
  destruct (rev l) as [|y t] eqn:E.
  - apply (f_equal (@rev A)) in E. rewrite rev_involutive in E. contradiction.
  - eauto.
Qed.

Lemma capture_restore (self : planner) (e : history_entry) :
  _capture_current_state (_restore_state_from_history self e) = e.
Proof. destruct e. reflexivity. Qed.

(** C5: with a non-empty undo stack, [undo_action] followed by
    [redo_action] brings back the racks, flow lines, tube connections,
    selection and view that were live before the undo, and both stacks are
    as they were. *)
Theorem undo_then_redo (self : planner) :
  undo_stack self <> [] ->
  let self' := redo_action (undo_action self) in
  _capture_current_state self' = _capture_current_state self
  /\ undo_stack self' = undo_stack self
  /\ redo_stack self' = redo_stack self.
Proof.
  intros Hne.
  destruct (pop_last_nonempty (undo_stack self) Hne) as (entry & rest & Hpop).
  pose proof (pop_last_inv _ _ _ Hpop) as Hstack.
  unfold undo_action. rewrite Hpop.
  unfold redo_action.
  cbn [_restore_state_from_history set_undo_stack set_redo_stack
       redo_stack undo_stack].
  rewrite pop_last_app.
  cbn [_restore_state_from_history set_undo_stack set_redo_stack
       redo_stack undo_stack].
  repeat split.
  rewrite Hstack. f_equal. f_equal. destruct entry. reflexivity.
Qed.

Lemma undo_then_redo_witness :
  _capture_current_state (redo_action (undo_action planner_with_history))
  = _capture_current_state planner_with_history.
Proof.
  apply (undo_then_redo planner_with_history).
  cbn [planner_with_history undo_stack]. discriminate.
Defined.

(** ** Recording before or after the mutation *)

Lemma record_state_top (self : planner) :
  exists rest,
    undo_stack (_record_state_for_undo self)
    = rest ++ [_capture_current_state self].
Proof.
  unfold _record_state_for_undo, _push_to_undo_stack.
  cbn [set_redo_stack set_undo_stack undo_stack].
  destruct (MAX_UNDO_STEPS <? List.length
              (undo_stack self ++ [_capture_current_state self]))%nat eqn:E.
  - destruct (undo_stack self) as [|e u].
    + cbn in E. discriminate.
    + exists u. reflexivity.
  - eauto.
Qed.

(** [rotate_selected_racks_action] records, then mutates. *)
Lemma rotate_records_before_mutation (self : planner) :
  truthy_id (selected_flow_line_id self) = false ->
  selected_rack_ids self <> [] ->
  exists rest,
    undo_stack (rotate_selected_racks_action self)
    = rest ++ [_capture_current_state self].
Proof.
  intros Hfl Hsel. unfold rotate_selected_racks_action. rewrite Hfl.
  destruct (selected_rack_ids self) as [|x xs]; [contradiction|].
  cbn [set_racks undo_stack]. apply record_state_top.
Qed.

(** [delete_selected_item] records, then mutates. *)
Lemma delete_records_before_mutation (self : planner) :
  truthy_id (selected_flow_line_id self) = false ->
  selected_rack_ids self <> [] ->
  exists rest,
    undo_stack (delete_selected_item self true)
    = rest ++ [_capture_current_state self].
Proof.
  intros Hfl Hsel. unfold delete_selected_item. rewrite Hfl.
  destruct (selected_rack_ids self) as [|x xs]; [contradiction|].
  cbn [set_tube_connections set_selected_rack_ids undo_stack].
  match goal with
  | |- context [if ?b then _ else _] => destruct b
  end; cbn [set_dragging_rack_id set_racks undo_stack]; apply record_state_top.
Qed.

Lemma capture_record (self : planner) :
  _capture_current_state (_record_state_for_undo self)
  = _capture_current_state self.
Proof. reflexivity. Qed.

(** [on_canvas_shift_click] either leaves the state alone or recolors a
    tube and records afterwards: the newest undo entry is then the scene
    with the new color. *)
Lemma shift_click_records_after_mutation (self : planner) (x y : R) :
  let after := on_canvas_shift_click self x y in
  after = self
  \/ exists rest, undo_stack after = rest ++ [_capture_current_state after].
Proof.
  unfold on_canvas_shift_click.
  destruct (drawing_flow_line_mode self || connecting_tubes_mode self)%bool;
    [left; reflexivity|].
  destruct (selected_rack_ids self) as [|sel [|? ?]]; try (left; reflexivity).
  destruct (rack_by_id (racks_on_canvas self) sel) as [rack|];
    [|left; reflexivity].
  unfold canvas_to_world.
  destruct (find _ _) as [t|]; [|left; reflexivity].
  destruct (nth_error _ _) as [tube|]; [|left; reflexivity].
  destruct (next_color_value _) as [new_value|]; [|left; reflexivity].
  right. rewrite capture_record. apply record_state_top.
Qed.

(** [on_canvas_press_connect_tubes_mode] either leaves the undo stack alone
    or appends a connection and records afterwards. *)
Lemma connect_records_after_mutation (self : planner) (x y : R) (u : string) :
  let after := on_canvas_press_connect_tubes_mode self x y u in
  undo_stack after = undo_stack self
  \/ exists rest, undo_stack after = rest ++ [_capture_current_state after].
Proof.
  unfold on_canvas_press_connect_tubes_mode.
  destruct (negb (connecting_tubes_mode self)); [left; reflexivity|].
  destruct (_get_tube_at_canvas_coords self x y) as [[rid tidx]|];
    [|left; reflexivity].
  destruct (first_tube_for_connection self) as [[sid sidx]|];
    [|left; reflexivity].
  destruct ((sid =? rid)%string && (sidx =? tidx)%Z)%bool; [left; reflexivity|].
  right. cbn [set_first_tube_for_connection undo_stack].
  match goal with
  | |- exists rest, undo_stack (_record_state_for_undo ?s) = _ =>
      destruct (record_state_top s) as [rest Hrest]; exists rest;
      rewrite Hrest; reflexivity
  end.
Qed.

Lemma nth_error_0_cons {A : Type} (l : list A) (x : A) :
  nth_error l 0 = Some x -> l = x :: tl l.
Proof. destruct l; cbn; congruence. Qed.

Lemma connect_click_hits_tube0 :
  _get_tube_at_canvas_coords connect_state 26 38 = Some ("rack-1"%string, 0%Z).
Proof.
  unfold _get_tube_at_canvas_coords, canvas_to_world.
  cbn [connect_state zoom_level pan_offset_x pan_offset_y racks_on_canvas
       rev app first_some].
  rewrite kernel_tubes_grid.
  assert (Hhead : nth_error (tube_grid scenario_crate) 0
                  = Some (mk_tube_info 0 26 38 20)).
  { rewrite <- scenario_crate_first_tube.
    apply (tube_grid_nth scenario_crate 0);
      [left; reflexivity|reflexivity|reflexivity|
       cbn [scenario_crate x_tubes y_tubes]; lia]. }
  rewrite (nth_error_0_cons _ _ Hhead). cbn [find].
  assert (Hhit : tube_hit (26 / 1.0 + 0.0) (38 / 1.0 + 0.0)
                          (mk_tube_info 0 26 38 20) = true).
  { apply tube_hit_iff. cbn [tube_cx tube_cy tube_dia]. lra. }
  rewrite Hhit. reflexivity.
Qed.

(** C3 (the code at the failing input): in tube connect mode with a source
    tube chosen, a click on another tube appends the connection first and
    records afterwards. The only entry of the undo stack is then the scene
    with the new connection in it, not the scene before the command, and
    [undo_action] gives back the scene with the connection. *)
Theorem connection_recorded_after_mutation :
  let after := on_canvas_press_connect_tubes_mode connect_state 26 38 "conn-1" in
  tube_connections connect_state = []
  /\ tube_connections after
     = [mk_connection "conn-1" "rack-1" 1 "rack-1" 0 "#00FF00"]
  /\ undo_stack after = [_capture_current_state after]
  /\ _capture_current_state after <> _capture_current_state connect_state
  /\ _capture_current_state (undo_action after) = _capture_current_state after.
Proof.
  unfold on_canvas_press_connect_tubes_mode.
  rewrite connect_click_hits_tube0.
  cbn -[IZR Q2R]. repeat split. discriminate.
Qed.

(** ** Deleting racks *)

Lemma id_in_true_iff (x : string) (ids : list string) :
  id_in x ids = true <-> In x ids.
Proof.
  unfold id_in. rewrite existsb_exists. split.
  - intros (y & Hy & Heq). apply String.eqb_eq in Heq. subst. exact Hy.
  - intros Hin. exists x. split; [exact Hin|apply String.eqb_refl].
Qed.

Lemma id_in_false_iff (x : string) (ids : list string) :
  negb (id_in x ids) = true <-> ~ In x ids.
Proof.
  rewrite negb_true_iff, <- id_in_true_iff.
  destruct (id_in x ids); split; congruence.
Qed.

(** C9: with racks selected (and no flow line selected, which is when the
    rack branch of delete runs), the confirmed delete keeps exactly the
    racks whose id is not selected, and keeps exactly the tube connections
    whose source rack id and target rack id are both not selected. *)
Theorem delete_removes_selected_racks_and_their_connections (self : planner) :
  truthy_id (selected_flow_line_id self) = false ->
  let deleted := selected_rack_ids self in
  let self' := delete_selected_item self true in
  (forall r,
      In r (racks_on_canvas self')
      <-> In r (racks_on_canvas self) /\ ~ In (id r) deleted)
  /\ (forall c,
         In c (tube_connections self')
         <-> In c (tube_connections self)
             /\ ~ In (source_rack_id c) deleted
             /\ ~ In (target_rack_id c) deleted).
Proof.
  intros Hfl deleted self'. subst deleted self'.
  unfold delete_selected_item. rewrite Hfl.
  destruct (selected_rack_ids self) as [|x xs] eqn:Hsel.
  - split; intros; rewrite ?Hsel; cbn [In]; tauto.
  - cbn [set_tube_connections set_selected_rack_ids racks_on_canvas
         tube_connections].
    match goal with
    | |- context [if ?b then _ else _] => destruct b
    end;
      cbn [set_dragging_rack_id set_racks racks_on_canvas tube_connections
           selected_rack_ids _record_state_for_undo _push_to_undo_stack
           set_redo_stack set_undo_stack];
      rewrite Hsel; split; intros y; rewrite filter_In;
      rewrite ?andb_true_iff, ?id_in_false_iff; tauto.
Qed.

Lemma delete_removes_selected_racks_and_their_connections_witness :
  In scenario_fan (racks_on_canvas (delete_selected_item two_rack_planner true))
  <-> In scenario_fan (racks_on_canvas two_rack_planner)
      /\ ~ In (id scenario_fan) (selected_rack_ids two_rack_planner).
Proof.
  apply (proj1 (delete_removes_selected_racks_and_their_connections
                  two_rack_planner eq_refl) scenario_fan).
Defined.

(** ** Fuse length per color *)









(** ** Moving a rack *)









(** The kernel's outline and bounding box, from the unrotated size. *)
Lemma kernel_outline (rc : rack_config) :
  rotated_outline_points_absolute_world (_get_rack_dimensions_and_points rc)
  = map (to_world rc)
        [(0, 0); (fst (unrotated_rack_size rc), 0);
         (fst (unrotated_rack_size rc), snd (unrotated_rack_size rc));
         (0, snd (unrotated_rack_size rc))].
Proof.
  unfold _get_rack_dimensions_and_points, to_world, rack_center.
  destruct (unrotated_rack_size rc) as [w h]. reflexivity.
Qed.




(** ** The rotation primitive *)


Lemma rotate_point_dist (x1 y1 x2 y2 angle_deg cx cy : R) :
  let p := _rotate_point x1 y1 angle_deg cx cy in
  let q := _rotate_point x2 y2 angle_deg cx cy in
  (fst p - fst q) ^ 2 + (snd p - snd q) ^ 2 = (x1 - x2) ^ 2 + (y1 - y2) ^ 2.
Proof.
  unfold _rotate_point. cbn [fst snd].
  pose proof (sin2_cos2 (radians angle_deg)) as H. unfold Rsqr in H.
  set (s := sin (radians angle_deg)) in *.
  set (c := cos (radians angle_deg)) in *.
  replace (((x1 - cx) * c - (y1 - cy) * s + cx
            - ((x2 - cx) * c - (y2 - cy) * s + cx)) ^ 2
           + ((x1 - cx) * s + (y1 - cy) * c + cy
              - ((x2 - cx) * s + (y2 - cy) * c + cy)) ^ 2)
    with (((x1 - x2) ^ 2 + (y1 - y2) ^ 2) * (s * s + c * c)) by ring.
  rewrite H. ring.
Qed.

(** ** Point in polygon *)

Lemma Rltb_true (a b : R) : Rltb a b = true <-> a < b.
Proof. unfold Rltb. destruct (Rlt_dec a b); split; intros; auto; discriminate. Qed.

Lemma Rleb_true (a b : R) : Rleb a b = true <-> a <= b.
Proof. unfold Rleb. destruct (Rle_dec a b); split; intros; auto; discriminate. Qed.

Lemma Reqb_true (a b : R) : Reqb a b = true <-> a = b.
Proof. unfold Reqb. destruct (Req_dec_T a b); split; intros; auto; discriminate. Qed.

Lemma Rmin_lt_le_Rmax_neq (a b y : R) : Rmin a b < y -> y <= Rmax a b -> a <> b.
Proof.
  unfold Rmin, Rmax. intros H1 H2 ->.
  destruct (Rle_dec b b); lra.
Qed.

(** An iteration never reads [xi_w] before it is assigned: inside the
    guarded block the two ends of the edge differ in [y]. *)
Lemma polygon_step_some (x y : R)
    (st : bool * (R * R) * option R) (p2 : R * R) :
  exists st', polygon_step x y (Some st) p2 = Some st'.
Proof.
  destruct st as [[ins [p1x p1y]] xi]. destruct p2 as [p2x p2y].
  unfold polygon_step.
  destruct (Rltb (Rmin p1y p2y) y) eqn:E1; cbn [andb]; [|eauto].
  destruct (Rleb y (Rmax p1y p2y)) eqn:E2; cbn [andb]; [|eauto].
  destruct (Rleb x (Rmax p1x p2x)) eqn:E3; [|eauto].
  apply Rltb_true in E1. apply Rleb_true in E2.
  pose proof (Rmin_lt_le_Rmax_neq _ _ _ E1 E2) as Hne.
  assert (Hq : Reqb p1y p2y = false).
  { destruct (Reqb p1y p2y) eqn:E; [|reflexivity].
    apply Reqb_true in E. contradiction. }
  rewrite Hq. cbn [negb].
  destruct (Reqb p1x p2x); eauto.
Qed.

Lemma polygon_fold_some (x y : R) (l : list (R * R))
    (st : bool * (R * R) * option R) :
  exists st', fold_left (polygon_step x y) l (Some st) = Some st'.
Proof.
  revert st. induction l as [|p l IH]; intros st; [exists st; reflexivity|].
  cbn [fold_left]. destruct (polygon_step_some x y st p) as [st1 ->].
  apply IH.
Qed.

(** X4: [_is_point_in_polygon] raises exactly on the empty vertex list (the
    first vertex is read before the length check); on any other list it
    returns a truth value, and that value is [False] when there are fewer
    than 3 vertices. *)
Theorem point_in_polygon_defined (x y : R) (poly : list (R * R)) :
  (_is_point_in_polygon x y poly = None <-> poly = [])
  /\ (poly <> [] -> (List.length poly < 3)%nat ->
      _is_point_in_polygon x y poly = Some false).
Proof.
  unfold _is_point_in_polygon. destruct poly as [|p1 rest].
  - split; [split; reflexivity|]. intros H. contradiction.
  - split.
    + split; [|discriminate].
      destruct (List.length (p1 :: rest) <? 3)%nat; [discriminate|].
      destruct (polygon_fold_some x y
                  (map (fun i => nth (i mod List.length (p1 :: rest))
                                     (p1 :: rest) (0, 0))
                       (seq 0 (List.length (p1 :: rest) + 1)))
                  (false, p1, None)) as [[[ins p] xi] ->].
      discriminate.
    + intros _ Hlen. apply Nat.ltb_lt in Hlen. rewrite Hlen. reflexivity.
Qed.

(** On an edge parallel to an axis the crossing flag flips exactly when the
    guard holds. *)
Lemma polygon_step_axis_edge (x y : R) (ins : bool) (p1 p2 : R * R)
    (xi : option R) :
  snd p1 = snd p2 \/ fst p1 = fst p2 ->
  exists xi',
    polygon_step x y (Some (ins, p1, xi)) p2
    = Some (xorb ins (edge_guard x y p1 p2), p2, xi').
Proof.
  destruct p1 as [p1x p1y]. destruct p2 as [p2x p2y]. cbn [fst snd].
  intros Haxis. unfold polygon_step, edge_guard. cbn [fst snd].
  destruct (Rltb (Rmin p1y p2y) y) eqn:E1; cbn [andb];
    [|rewrite xorb_false_r; eauto].
  destruct (Rleb y (Rmax p1y p2y)) eqn:E2; cbn [andb];
    [|rewrite xorb_false_r; eauto].
  destruct (Rleb x (Rmax p1x p2x)) eqn:E3; [|rewrite xorb_false_r; eauto].
  apply Rltb_true in E1. apply Rleb_true in E2.
  pose proof (Rmin_lt_le_Rmax_neq _ _ _ E1 E2) as Hne.
  destruct Haxis as [Hy|Hx]; [contradiction|].
  assert (Hq : Reqb p1x p2x = true) by (apply Reqb_true; exact Hx).
  rewrite Hq, xorb_true_r. eauto.
Qed.


Ltac split_comparisons :=
  repeat match goal with
         | |- context [Rle_dec ?a ?b] =>
             destruct (Rle_dec a b); try (exfalso; lra)
         | |- context [Rlt_dec ?a ?b] =>
             destruct (Rlt_dec a b); try (exfalso; lra)
         end.

(** The test on an axis-parallel rectangle given by its four corners in
    either cyclic order the kernel produces. *)
Lemma point_in_rectangle (x y : R) (p0 p1 p2 p3 : R * R)
    (lo_x hi_x lo_y hi_y : R) :
  lo_x < hi_x -> lo_y < hi_y ->
  (snd p0 = snd p1 /\ fst p1 = fst p2 /\ snd p2 = snd p3 /\ fst p3 = fst p0
   \/ fst p0 = fst p1 /\ snd p1 = snd p2 /\ fst p2 = fst p3 /\ snd p3 = snd p0) ->
  Rmin (fst p0) (fst p2) = lo_x -> Rmax (fst p0) (fst p2) = hi_x ->
  Rmin (snd p0) (snd p2) = lo_y -> Rmax (snd p0) (snd p2) = hi_y ->
  _is_point_in_polygon x y [p0; p1; p2; p3]
  = Some (in_half_open_box x y lo_x hi_x lo_y hi_y).
Proof.
  intros Hx Hy Hshape Hlx Hhx Hly Hhy.
  unfold _is_point_in_polygon.
  cbn [List.length Nat.ltb Nat.leb Nat.add seq map].
  change (nth (0 mod 4) [p0; p1; p2; p3] (0, 0)) with p0.
  change (nth (1 mod 4) [p0; p1; p2; p3] (0, 0)) with p1.
  change (nth (2 mod 4) [p0; p1; p2; p3] (0, 0)) with p2.
  change (nth (3 mod 4) [p0; p1; p2; p3] (0, 0)) with p3.
  change (nth (4 mod 4) [p0; p1; p2; p3] (0, 0)) with p0.
  cbn [fold_left].
  destruct (polygon_step_axis_edge x y false p0 p0 None (or_introl eq_refl))
    as [xi0 ->].
  assert (H01 : snd p0 = snd p1 \/ fst p0 = fst p1) by (destruct Hshape; tauto).
  assert (H12 : snd p1 = snd p2 \/ fst p1 = fst p2) by (destruct Hshape; tauto).
  assert (H23 : snd p2 = snd p3 \/ fst p2 = fst p3) by (destruct Hshape; tauto).
  assert (H30 : snd p3 = snd p0 \/ fst p3 = fst p0) by (destruct Hshape; tauto).
  destruct (polygon_step_axis_edge x y (xorb false (edge_guard x y p0 p0))
              p0 p1 xi0 H01) as [xi1 ->].
  destruct (polygon_step_axis_edge x y
              (xorb (xorb false (edge_guard x y p0 p0)) (edge_guard x y p0 p1))
              p1 p2 xi1 H12) as [xi2 ->].
  destruct (polygon_step_axis_edge x y
              (xorb (xorb (xorb false (edge_guard x y p0 p0))
                          (edge_guard x y p0 p1)) (edge_guard x y p1 p2))
              p2 p3 xi2 H23) as [xi3 ->].
  destruct (polygon_step_axis_edge x y
              (xorb (xorb (xorb (xorb false (edge_guard x y p0 p0))
                                (edge_guard x y p0 p1)) (edge_guard x y p1 p2))
                    (edge_guard x y p2 p3))
              p3 p0 xi3 H30) as [xi4 ->].
  f_equal.
  destruct p0 as [x0 y0], p1 as [x1 y1], p2 as [x2 y2], p3 as [x3 y3].
  cbn [fst snd] in *.
  unfold edge_guard, in_half_open_box. cbn [fst snd].
  clear H01 H12 H23 H30.
  assert (Hox : x0 < x2 \/ x2 < x0).
  { destruct (Rle_dec x0 x2) as [Hle|Hgt].
    - rewrite Rmin_left, Rmax_right in * by lra. lra.
    - right. lra. }
  assert (Hoy : y0 < y2 \/ y2 < y0).
  { destruct (Rle_dec y0 y2) as [Hle|Hgt].
    - rewrite Rmin_left, Rmax_right in * by lra. lra.
    - right. lra. }
  destruct Hshape as [(E1 & E2 & E3 & E4)|(E1 & E2 & E3 & E4)]; subst;
    destruct Hox as [Hox|Hox]; destruct Hoy as [Hoy|Hoy];
    repeat (first [ rewrite Rmin_left by lra | rewrite Rmin_right by lra
                  | rewrite Rmax_left by lra | rewrite Rmax_right by lra ]);
    unfold Rltb, Rleb; split_comparisons; reflexivity.
Qed.

Ltac solve_rectangle_side :=
  cbn [fst snd];
  first
    [ lra
    | left; repeat split; lra
    | right; repeat split; lra
    | rewrite Rmin_left by lra; lra
    | rewrite Rmin_right by lra; lra
    | rewrite Rmax_left by lra; lra
    | rewrite Rmax_right by lra; lra ].



Lemma point_in_polygon_defined_witness :
  _is_point_in_polygon 0 0 [(0, 0); (1, 1)] = Some false.
Proof.
  apply (proj2 (point_in_polygon_defined 0 0 [(0, 0); (1, 1)]));
    [discriminate|cbn [List.length]; lia].
Defined.


(** ** Clicking a tube *)

Lemma canvas_world_inverse (self : planner) (wx wy : R) :
  zoom_level self <> 0 ->
  canvas_to_world self (fst (world_to_canvas self wx wy))
                       (snd (world_to_canvas self wx wy))
  = (wx, wy).
Proof.
  intros Hz. unfold canvas_to_world, world_to_canvas. cbn [fst snd].
  f_equal; field; exact Hz.
Qed.

Lemma find_first {A : Type} (P : A -> bool) (l : list A) (k : nat) (a : A) :
  nth_error l k = Some a -> P a = true ->
  (forall j b, (j < k)%nat -> nth_error l j = Some b -> P b = false) ->
  find P l = Some a.
Proof.
  revert k. induction l as [|b l IH]; intros k Hk Ha Hbefore.
  - destruct k; discriminate.
  - destruct k as [|k].
    + cbn in Hk. injection Hk as ->. cbn [find]. rewrite Ha. reflexivity.
    + cbn [find]. rewrite (Hbefore 0%nat b ltac:(lia) eq_refl).
      apply (IH k Hk Ha). intros j c Hj Hc.
      apply (Hbefore (S j) c ltac:(lia) Hc).
Qed.

Lemma IZR_diff_sq (a b : Z) : a <> b -> 1 <= (IZR a - IZR b) ^ 2.
Proof.
  intros Hne. destruct (Z_lt_ge_dec a b) as [Hlt|Hge].
  - assert (IZR a + 1 <= IZR b) by (rewrite <- (plus_IZR a 1); apply IZR_le; lia).
    nra.
  - assert (IZR b + 1 <= IZR a) by (rewrite <- (plus_IZR b 1); apply IZR_le; lia).
    nra.
Qed.

(** Two different cells of a rack are at least the tube pitch
    [1.2 * diameter] apart. *)
Lemma cell_local_apart (rc : rack_config) (c1 c2 : Z * Z) :
  (rack_type rc = "Crate" \/ rack_type rc = "Fan")%string ->
  0 <= tube_diameter rc -> c1 <> c2 ->
  (1.2 * tube_diameter rc) ^ 2
  <= (fst (cell_local rc c1) - fst (cell_local rc c2)) ^ 2
     + (snd (cell_local rc c1) - snd (cell_local rc c2)) ^ 2.
Proof.
  intros Hty Hd Hne. destruct c1 as [a1 b1], c2 as [a2 b2].
  assert (Hcases : a1 <> a2 \/ (a1 = a2 /\ b1 <> b2)).
  { destruct (Z.eq_dec a1 a2) as [->|]; [right|left; assumption].
    split; [reflexivity|]. intros ->. apply Hne. reflexivity. }
  unfold cell_local, crate_cell_local, fan_cell_local. unfold_constants.
  destruct Hty as [Hty|Hty]; rewrite Hty;
    [rewrite String.eqb_refl|change (("Fan" =? "Crate")%string) with false];
    cbn [fst snd];
    set (d := tube_diameter rc) in *;
    destruct Hcases as [Ha|[-> Hb]].
  - pose proof (IZR_diff_sq a1 a2 Ha) as H1.
    pose proof (pow2_ge_0 (IZR b1 - IZR b2)) as H2.
    replace (5 + IZR a1 * (d + 0.2 * d) + d / 2 - (5 + IZR a2 * (d + 0.2 * d) + d / 2))
      with ((IZR a1 - IZR a2) * (1.2 * d)) by lra.
    replace (5 + IZR b1 * (d + 0.2 * d) + d / 2 - (5 + IZR b2 * (d + 0.2 * d) + d / 2))
      with ((IZR b1 - IZR b2) * (1.2 * d)) by lra.
    rewrite !Rpow_mult_distr. pose proof (pow2_ge_0 (1.2 * d)). nra.
  - pose proof (IZR_diff_sq b1 b2 Hb) as H1.
    replace (5 + IZR a2 * (d + 0.2 * d) + d / 2 - (5 + IZR a2 * (d + 0.2 * d) + d / 2))
      with 0 by lra.
    replace (5 + IZR b1 * (d + 0.2 * d) + d / 2 - (5 + IZR b2 * (d + 0.2 * d) + d / 2))
      with ((IZR b1 - IZR b2) * (1.2 * d)) by lra.
    rewrite !Rpow_mult_distr. pose proof (pow2_ge_0 (1.2 * d)). nra.
  - pose proof (IZR_diff_sq a1 a2 Ha) as H1.
    pose proof (pow2_ge_0 (IZR b1 - IZR b2)) as H2.
    replace (5 + IZR a1 * (d + 2 * (0.2 * d) + 0.5 * d) + 0.2 * d + d / 2
             - (5 + IZR a2 * (d + 2 * (0.2 * d) + 0.5 * d) + 0.2 * d + d / 2))
      with ((IZR a1 - IZR a2) * (1.9 * d)) by lra.
    replace (5 + 0.2 * d + IZR b1 * (d + 0.2 * d) + d / 2
             - (5 + 0.2 * d + IZR b2 * (d + 0.2 * d) + d / 2))
      with ((IZR b1 - IZR b2) * (1.2 * d)) by lra.
    rewrite !Rpow_mult_distr. pose proof (pow2_ge_0 (1.2 * d)). nra.
  - pose proof (IZR_diff_sq b1 b2 Hb) as H1.
    replace (5 + IZR a2 * (d + 2 * (0.2 * d) + 0.5 * d) + 0.2 * d + d / 2
             - (5 + IZR a2 * (d + 2 * (0.2 * d) + 0.5 * d) + 0.2 * d + d / 2))
      with 0 by lra.
    replace (5 + 0.2 * d + IZR b1 * (d + 0.2 * d) + d / 2
             - (5 + 0.2 * d + IZR b2 * (d + 0.2 * d) + d / 2))
      with ((IZR b1 - IZR b2) * (1.2 * d)) by lra.
    rewrite !Rpow_mult_distr. pose proof (pow2_ge_0 (1.2 * d)). nra.
Qed.

Lemma cell_of_index_injective (rc : rack_config) (i j : Z) :
  (0 < x_tubes rc)%Z -> (0 < y_tubes rc)%Z ->
  cell_of_index rc i = cell_of_index rc j -> i = j.
Proof.
  intros Hc Hr. unfold cell_of_index.
  destruct (rack_type rc =? "Crate")%string; intros H; injection H as H1 H2.
  - rewrite (Z.div_mod i (x_tubes rc)), (Z.div_mod j (x_tubes rc)) by lia.
    rewrite H1, H2. reflexivity.
  - rewrite (Z.div_mod i (y_tubes rc)), (Z.div_mod j (y_tubes rc)) by lia.
    rewrite H1, H2. reflexivity.
Qed.

(** Placing cells in the world keeps their distances, for any angle. *)
Lemma to_world_dist (rc : rack_config) (p q : R * R) :
  (fst (to_world rc p) - fst (to_world rc q)) ^ 2
  + (snd (to_world rc p) - snd (to_world rc q)) ^ 2
  = (fst p - fst q) ^ 2 + (snd p - snd q) ^ 2.
Proof.
  unfold to_world. cbn [fst snd].
  rewrite <- (rotate_point_dist (fst p) (snd p) (fst q) (snd q)
                (IZR (rotation_angle rc))
                (fst (rack_center rc)) (snd (rack_center rc))).
  cbn zeta. ring.
Qed.

Lemma get_tube_topmost (self : planner) (rest : list rack_config)
    (rc : rack_config) (wx wy : R) (t : tube_info) :
  racks_on_canvas self = rest ++ [rc] ->
  zoom_level self <> 0 ->
  find (tube_hit wx wy) (tube_grid rc) = Some t ->
  _get_tube_at_canvas_coords self
    (fst (world_to_canvas self wx wy)) (snd (world_to_canvas self wx wy))
  = Some (id rc, tube_idx t).
Proof.
  intros Hracks Hz Hfind. unfold _get_tube_at_canvas_coords.
  rewrite (canvas_world_inverse self wx wy Hz).
  rewrite Hracks, rev_app_distr. cbn [rev app first_some].
  rewrite kernel_tubes_grid, Hfind. reflexivity.
Qed.

Lemma tube_hit_false (wx wy : R) (t : tube_info) :
  (tube_dia t / 2) ^ 2 < (wx - tube_cx t) ^ 2 + (wy - tube_cy t) ^ 2 ->
  tube_hit wx wy t = false.
Proof.
  intros H. unfold tube_hit.
  destruct (Rle_dec _ _); [lra|reflexivity].
Qed.

(** X6: when the tube diameter is at least 10, a click exactly on the center
    of a tube of the topmost rack is resolved to that rack and that tube,
    for either rack type, any rotation angle, any pan and any zoom other
    than 0. *)
Theorem click_on_tube_center (self : planner) (rest : list rack_config)
    (rc : rack_config) (i : Z) :
  racks_on_canvas self = rest ++ [rc] ->
  zoom_level self <> 0 ->
  (rack_type rc = "Crate" \/ rack_type rc = "Fan")%string ->
  (0 < x_tubes rc)%Z -> (0 < y_tubes rc)%Z ->
  10 <= tube_diameter rc ->
  (0 <= i < x_tubes rc * y_tubes rc)%Z ->
  let t := tube_of_cell rc (cell_local rc (cell_of_index rc i)) i in
  In t (tube_center_points_info_world (_get_rack_dimensions_and_points rc))
  /\ _get_tube_at_canvas_coords self
       (fst (world_to_canvas self (tube_cx t) (tube_cy t)))
       (snd (world_to_canvas self (tube_cx t) (tube_cy t)))
     = Some (id rc, i).
Proof.
  intros Hracks Hz Hty Hc Hr Hd Hi t.
  pose proof (kernel_nth_tube rc i Hty Hc Hr Hi) as Hnth. fold t in Hnth.
  split; [apply (nth_error_In _ _ Hnth)|].
  rewrite kernel_tubes_grid in Hnth.
  change (Some (id rc, i)) with (Some (id rc, tube_idx t)).
  apply (get_tube_topmost self rest rc _ _ t Hracks Hz).
  apply (find_first _ _ (Z.to_nat i) t Hnth).
  - apply tube_hit_iff. subst t. cbn [tube_of_cell tube_cx tube_cy tube_dia].
    replace (fst (to_world rc (cell_local rc (cell_of_index rc i)))
             - fst (to_world rc (cell_local rc (cell_of_index rc i)))) with 0 by ring.
    replace (snd (to_world rc (cell_local rc (cell_of_index rc i)))
             - snd (to_world rc (cell_local rc (cell_of_index rc i)))) with 0 by ring.
    pose proof (pow2_ge_0 (Rmax (tube_diameter rc) 10 / 2)). lra.
  - intros j b Hj Hb.
    rewrite tube_grid_nth in Hb by (try assumption; lia).
    injection Hb as <-. apply tube_hit_false.
    subst t. cbn [tube_of_cell tube_cx tube_cy tube_dia].
    rewrite to_world_dist.
    assert (Hne : cell_of_index rc i <> cell_of_index rc (Z.of_nat j)).
    { intros Heq. apply cell_of_index_injective in Heq; try assumption. lia. }
    pose proof (cell_local_apart rc _ _ Hty ltac:(lra) Hne) as Hfar.
    rewrite Rmax_left by lra. nra.
Qed.

Lemma click_on_tube_center_witness :
  let self := connect_state in
  let t := tube_of_cell scenario_crate
             (cell_local scenario_crate (cell_of_index scenario_crate 4)) 4 in
  In t (tube_center_points_info_world
          (_get_rack_dimensions_and_points scenario_crate))
  /\ _get_tube_at_canvas_coords self
       (fst (world_to_canvas self (tube_cx t) (tube_cy t)))
       (snd (world_to_canvas self (tube_cx t) (tube_cy t)))
     = Some (id scenario_crate, 4%Z).
Proof.
  apply (click_on_tube_center connect_state [] scenario_crate 4);
    [reflexivity
    |cbn [connect_state zoom_level]; lra
    |left; reflexivity|reflexivity|reflexivity
    |cbn [scenario_crate tube_diameter]; lra
    |cbn [scenario_crate x_tubes y_tubes]; lia].
Defined.

(** X7: in a Crate with at least two columns whose tube diameter is at most
    25/6 (so 3 or 4 for the integer diameters the planner accepts), the hit
    radius 5 of the effective diameter reaches the neighbouring center: a
    click exactly on the center of tube 1 of the topmost rack is resolved
    to tube 0. *)
Theorem click_on_small_tube_hits_neighbour (self : planner)
    (rest : list rack_config) (rc : rack_config) :
  racks_on_canvas self = rest ++ [rc] ->
  zoom_level self <> 0 ->
  rack_type rc = "Crate"%string ->
  (2 <= x_tubes rc)%Z -> (0 < y_tubes rc)%Z ->
  0 <= tube_diameter rc <= 25 / 6 ->
  let t := tube_of_cell rc (cell_local rc (cell_of_index rc 1)) 1 in
  In t (tube_center_points_info_world (_get_rack_dimensions_and_points rc))
  /\ _get_tube_at_canvas_coords self
       (fst (world_to_canvas self (tube_cx t) (tube_cy t)))
       (snd (world_to_canvas self (tube_cx t) (tube_cy t)))
     = Some (id rc, 0%Z).
Proof.
  intros Hracks Hz Hty Hc Hr Hd t.
  assert (Hc0 : (0 < x_tubes rc)%Z) by lia.
  assert (H1 : (0 <= 1 < x_tubes rc * y_tubes rc)%Z) by nia.
  assert (H0 : (0 <= 0 < x_tubes rc * y_tubes rc)%Z) by nia.
  pose proof (kernel_nth_tube rc 1 (or_introl Hty) Hc0 Hr H1) as Hnth1.
  pose proof (kernel_nth_tube rc 0 (or_introl Hty) Hc0 Hr H0) as Hnth0.
  fold t in Hnth1. split; [apply (nth_error_In _ _ Hnth1)|].
  rewrite kernel_tubes_grid in Hnth0.
  set (t0 := tube_of_cell rc (cell_local rc (cell_of_index rc 0)) 0) in *.
  change (Some (id rc, 0%Z)) with (Some (id rc, tube_idx t0)).
  apply (get_tube_topmost self rest rc _ _ t0 Hracks Hz).
  apply (find_first _ _ (Z.to_nat 0) t0 Hnth0).
  - apply tube_hit_iff. subst t t0.
    cbn [tube_of_cell tube_cx tube_cy tube_dia].
    rewrite to_world_dist.
    unfold cell_of_index, cell_local. rewrite Hty, String.eqb_refl.
    cbn [fst snd].
    rewrite (Z.mod_small 1 (x_tubes rc)) by lia.
    rewrite (Z.div_small 1 (x_tubes rc)) by lia.
    rewrite (Z.mod_small 0 (x_tubes rc)) by lia.
    rewrite (Z.div_small 0 (x_tubes rc)) by lia.
    unfold crate_cell_local. unfold_constants. cbn [fst snd].
    rewrite Rmax_right by lra.
    set (d := tube_diameter rc) in *.
    replace (5 + 1 * (d + 0.2 * d) + d / 2 - (5 + 0 * (d + 0.2 * d) + d / 2))
      with (1.2 * d) by lra.
    replace (5 + 0 * (d + 0.2 * d) + d / 2 - (5 + 0 * (d + 0.2 * d) + d / 2))
      with 0 by lra.
    nra.
  - intros j b Hj. cbn in Hj. lia.
Qed.

Lemma click_on_small_tube_hits_neighbour_witness :
  let rc := mk_rack "rack-5" "Crate Rack 5" "Crate" 2 1 0 0 4 0 [] in
  let self := set_racks connect_state [rc] in
  let t := tube_of_cell rc (cell_local rc (cell_of_index rc 1)) 1 in
  In t (tube_center_points_info_world (_get_rack_dimensions_and_points rc))
  /\ _get_tube_at_canvas_coords self
       (fst (world_to_canvas self (tube_cx t) (tube_cy t)))
       (snd (world_to_canvas self (tube_cx t) (tube_cy t)))
     = Some (id rc, 0%Z).
Proof.
  intros rc self.
  apply (click_on_small_tube_hits_neighbour self [] rc);
    [reflexivity
    |cbn [self set_racks connect_state zoom_level]; lra
    |reflexivity|reflexivity|reflexivity
    |cbn [rc tube_diameter]; lra].
Defined.

(** ** More of the view transform *)


Lemma planner_ext (a b : planner) :
  racks_on_canvas a = racks_on_canvas b ->
  flow_lines_on_canvas a = flow_lines_on_canvas b ->
  tube_connections a = tube_connections b ->
  selected_rack_ids a = selected_rack_ids b ->
  selected_flow_line_id a = selected_flow_line_id b ->
  zoom_level a = zoom_level b ->
  pan_offset_x a = pan_offset_x b ->
  pan_offset_y a = pan_offset_y b ->
  undo_stack a = undo_stack b ->
  redo_stack a = redo_stack b ->
  dragging_rack_id a = dragging_rack_id b ->
  drag_start_positions a = drag_start_positions b ->
  drag_operation_pending_undo_state a = drag_operation_pending_undo_state b ->
  flow_line_start_point a = flow_line_start_point b ->
  first_tube_for_connection a = first_tube_for_connection b ->
  connecting_tubes_mode a = connecting_tubes_mode b ->
  drawing_flow_line_mode a = drawing_flow_line_mode b ->
  a = b.
Proof.
  destruct a, b. cbn. intros. subst. reflexivity.
Qed.

Ltac view_fields :=
  cbn [set_zoom_level set_pan_offset zoom_level pan_offset_x pan_offset_y].

(** X10: at the zoom limits the wheel does nothing: with Control held, a
    wheel-up at [MAX_ZOOM] and a wheel-down at [MIN_ZOOM] leave zoom and pan
    exactly as they were. *)
Theorem zoom_saturates (self : planner) (event : wheel_event) :
  (Z.land (ev_state event) 4 =? 0)%Z = false ->
  (wheel_up event = true /\ zoom_level self = MAX_ZOOM)
  \/ (wheel_down event = true /\ zoom_level self = MIN_ZOOM) ->
  on_mouse_wheel self event = self.
Proof.
  intros Hctrl Hcase. unfold on_mouse_wheel. rewrite Hctrl.
  unfold wheel_down, wheel_up in Hcase. unfold canvas_to_world.
  destruct Hcase as [[Hup Hz]|[Hdown Hz]].
  - rewrite Hup.
    assert (Hclamp : Rmax MIN_ZOOM (Rmin MAX_ZOOM (zoom_level self * ZOOM_STEP))
                     = zoom_level self).
    { rewrite Hz. unfold MIN_ZOOM, MAX_ZOOM, ZOOM_STEP.
      rewrite Rmin_left by lra. rewrite Rmax_right by lra. reflexivity. }
    apply planner_ext; try reflexivity; view_fields; rewrite ?Hclamp;
      try reflexivity; unfold Rdiv; ring.
  - apply andb_true_iff in Hdown. destruct Hdown as [Hnup Hdown].
    apply negb_true_iff in Hnup. rewrite Hnup, Hdown.
    assert (Hclamp : Rmax MIN_ZOOM (Rmin MAX_ZOOM (zoom_level self / ZOOM_STEP))
                     = zoom_level self).
    { rewrite Hz. unfold MIN_ZOOM, MAX_ZOOM, ZOOM_STEP.
      rewrite Rmin_right by lra. rewrite Rmax_left by lra. reflexivity. }
    apply planner_ext; try reflexivity; view_fields; rewrite ?Hclamp;
      try reflexivity; unfold Rdiv; ring.
Qed.

Lemma zoom_saturates_witness :
  on_mouse_wheel (set_zoom_level initial_planner MAX_ZOOM) wheel_up_at_10_20
  = set_zoom_level initial_planner MAX_ZOOM.
Proof.
  apply (zoom_saturates (set_zoom_level initial_planner MAX_ZOOM)
                        wheel_up_at_10_20 eq_refl).
  left. split; reflexivity.
Defined.



(** ** More of the history manager *)

(** A push keeps an undo stack within [MAX_UNDO_STEPS]. *)
Lemma push_keeps_bound (self : planner) (e : history_entry) :
  (List.length (undo_stack self) <= MAX_UNDO_STEPS)%nat ->
  let self' := _push_to_undo_stack self e in
  (List.length (undo_stack self') <= MAX_UNDO_STEPS)%nat
  /\ undo_stack self'
     = (if (List.length (undo_stack self) <? MAX_UNDO_STEPS)%nat
        then undo_stack self else tl (undo_stack self)) ++ [e]
  /\ redo_stack self' = []
  /\ _capture_current_state self' = _capture_current_state self.
Proof.
  intros Hlen. unfold _push_to_undo_stack.
  cbn [set_redo_stack set_undo_stack undo_stack redo_stack
       _capture_current_state racks_on_canvas flow_lines_on_canvas
       tube_connections selected_rack_ids selected_flow_line_id zoom_level
       pan_offset_x pan_offset_y].
  rewrite length_app. cbn [List.length].
  destruct (Nat.ltb_spec (List.length (undo_stack self)) MAX_UNDO_STEPS)
    as [Hlt|Hge].
  - assert (Hb : (MAX_UNDO_STEPS <? List.length (undo_stack self) + 1)%nat = false)
      by (apply Nat.ltb_ge; lia).
    rewrite Hb. rewrite length_app. cbn [List.length].
    repeat split; lia.
  - assert (Hb : (MAX_UNDO_STEPS <? List.length (undo_stack self) + 1)%nat = true)
      by (apply Nat.ltb_lt; lia).
    rewrite Hb.
    destruct (undo_stack self) as [|x u] eqn:E.
    + unfold MAX_UNDO_STEPS in Hge. cbn in Hge. lia.
    + cbn [tl app List.length] in *. rewrite length_app. cbn [List.length].
      repeat split; lia.
Qed.

(** X13: with a non-empty redo stack, [redo_action] followed by
    [undo_action] brings back the scene, selection and view and both
    stacks. *)
Theorem redo_then_undo (self : planner) :
  redo_stack self <> [] ->
  let self' := undo_action (redo_action self) in
  _capture_current_state self' = _capture_current_state self
  /\ undo_stack self' = undo_stack self
  /\ redo_stack self' = redo_stack self.
Proof.
  intros Hne.
  destruct (pop_last_nonempty (redo_stack self) Hne) as (entry & rest & Hpop).
  pose proof (pop_last_inv _ _ _ Hpop) as Hstack.
  unfold redo_action. rewrite Hpop.
  unfold undo_action.
  cbn [_restore_state_from_history set_undo_stack set_redo_stack
       redo_stack undo_stack].
  rewrite pop_last_app.
  cbn [_restore_state_from_history set_undo_stack set_redo_stack
       redo_stack undo_stack].
  split; [reflexivity|split; [reflexivity|]].
  rewrite Hstack. f_equal. f_equal. destruct entry. reflexivity.
Qed.

Lemma redo_then_undo_witness :
  _capture_current_state
    (undo_action (redo_action (undo_action planner_with_history)))
  = _capture_current_state (undo_action planner_with_history).
Proof.
  apply (redo_then_undo (undo_action planner_with_history)).
  discriminate.
Defined.

(** [undo_action] and [redo_action] only move entries between the two
    stacks. *)
Lemma undo_redo_move_entries (self : planner) :
  (List.length (undo_stack (undo_action self))
   + List.length (redo_stack (undo_action self))
   = List.length (undo_stack self) + List.length (redo_stack self))%nat
  /\ (List.length (undo_stack (redo_action self))
      + List.length (redo_stack (redo_action self))
      = List.length (undo_stack self) + List.length (redo_stack self))%nat
  /\ (undo_stack self = [] -> undo_action self = self)
  /\ (redo_stack self = [] -> redo_action self = self).
Proof.
  unfold undo_action, redo_action. repeat split.
  - destruct (pop_last (undo_stack self)) as [[e r]|] eqn:E; [|reflexivity].
    apply pop_last_inv in E. rewrite E.
    cbn [_restore_state_from_history set_undo_stack set_redo_stack
         undo_stack redo_stack].
    rewrite !length_app. cbn [List.length]. lia.
  - destruct (pop_last (redo_stack self)) as [[e r]|] eqn:E; [|reflexivity].
    apply pop_last_inv in E. rewrite E.
    cbn [_restore_state_from_history set_undo_stack set_redo_stack
         undo_stack redo_stack].
    rewrite !length_app. cbn [List.length]. lia.
  - intros ->. reflexivity.
  - intros ->. reflexivity.
Qed.

(** X12: the two history stacks together never hold more than
    [MAX_UNDO_STEPS] entries. If they do not before, they do not after
    [_push_to_undo_stack] (the pushed state becomes the newest undo entry,
    the oldest entry is dropped exactly when the undo stack was full, and
    the redo stack is emptied), and [undo_action] and [redo_action], which
    append to a stack without looking at its length, only move one entry
    from one stack to the other, or do nothing when their stack is empty. *)
Theorem history_stays_bounded (self : planner) (e : history_entry) :
  (List.length (undo_stack self) + List.length (redo_stack self)
   <= MAX_UNDO_STEPS)%nat ->
  let pushed := _push_to_undo_stack self e in
  let total s := (List.length (undo_stack s) + List.length (redo_stack s))%nat in
  (total pushed <= MAX_UNDO_STEPS)%nat
  /\ undo_stack pushed
     = (if (List.length (undo_stack self) <? MAX_UNDO_STEPS)%nat
        then undo_stack self else tl (undo_stack self)) ++ [e]
  /\ redo_stack pushed = []
  /\ total (undo_action self) = total self
  /\ total (redo_action self) = total self
  /\ (undo_stack self = [] -> undo_action self = self)
  /\ (redo_stack self = [] -> redo_action self = self)
  /\ (undo_stack self <> [] ->
      List.length (redo_stack (undo_action self))
      = S (List.length (redo_stack self)))
  /\ (redo_stack self <> [] ->
      List.length (undo_stack (redo_action self))
      = S (List.length (undo_stack self))).
Proof.
  intros Hlen pushed total.
  assert (Hundo : (List.length (undo_stack self) <= MAX_UNDO_STEPS)%nat) by lia.
  destruct (push_keeps_bound self e Hundo) as (Hb & Hstack & Hredo & _).
  destruct (undo_redo_move_entries self) as (Hu & Hr & Hu0 & Hr0).
  fold pushed in Hb, Hstack, Hredo.
  subst total. cbv beta.
  split; [rewrite Hredo; cbn [List.length]; lia|].
  split; [exact Hstack|]. split; [exact Hredo|].
  split; [exact Hu|]. split; [exact Hr|].
  split; [exact Hu0|]. split; [exact Hr0|].
  split.
  - intros Hne.
    destruct (pop_last_nonempty (undo_stack self) Hne) as (entry & rest & Hpop).
    unfold undo_action. rewrite Hpop.
    cbn [_restore_state_from_history set_undo_stack set_redo_stack
         undo_stack redo_stack].
    rewrite length_app. cbn [List.length]. lia.
  - intros Hne.
    destruct (pop_last_nonempty (redo_stack self) Hne) as (entry & rest & Hpop).
    unfold redo_action. rewrite Hpop.
    cbn [_restore_state_from_history set_undo_stack set_redo_stack
         undo_stack redo_stack].
    rewrite length_app. cbn [List.length]. lia.
Qed.

Lemma history_stays_bounded_witness :
  (List.length (undo_stack (_push_to_undo_stack planner_with_history
                              (_capture_current_state planner_with_history)))
   + List.length (redo_stack (_push_to_undo_stack planner_with_history
                                (_capture_current_state planner_with_history)))
   <= MAX_UNDO_STEPS)%nat.
Proof.
  apply (history_stays_bounded planner_with_history
           (_capture_current_state planner_with_history)).
  cbn [planner_with_history undo_stack redo_stack List.length].
  unfold MAX_UNDO_STEPS. lia.
Defined.

Lemma undo_top (self : planner) (rest : list history_entry) (e : history_entry) :
  undo_stack self = rest ++ [e] ->
  _capture_current_state (undo_action self) = e
  /\ undo_stack (undo_action self) = rest
  /\ redo_stack (undo_action self)
     = redo_stack self ++ [_capture_current_state self].
Proof.
  intros H. unfold undo_action. rewrite H, pop_last_app.
  cbn [_restore_state_from_history set_undo_stack set_redo_stack
       undo_stack redo_stack].
  split; [destruct e; reflexivity|split; reflexivity].
Qed.

(** ** Rotating and nudging racks *)

(** X17: the rotation step always lands on one of the four rack angles,
    also from an angle that is not one of them (which goes to 0); on the
    four angles it moves to a different angle and four steps come back to
    the start. *)
Theorem next_rotation_cycle (a : Z) :
  In (next_rotation a) ROTATION_DEGREES
  /\ (~ In a ROTATION_DEGREES -> next_rotation a = 0%Z)
  /\ (In a ROTATION_DEGREES ->
      next_rotation a <> a
      /\ next_rotation (next_rotation (next_rotation (next_rotation a))) = a).
Proof.
  unfold ROTATION_DEGREES. cbn [In].
  destruct (Z.eq_dec a 0) as [->|H0]; [cbn; intuition lia|].
  destruct (Z.eq_dec a 90) as [->|H90]; [cbn; intuition lia|].
  destruct (Z.eq_dec a 180) as [->|H180]; [cbn; intuition lia|].
  destruct (Z.eq_dec a 270) as [->|H270]; [cbn; intuition lia|].
  assert (Hnone : next_rotation a = 0%Z).
  { unfold next_rotation, ROTATION_DEGREES. cbn [list_index].
    apply Z.eqb_neq in H0, H90, H180, H270.
    rewrite (Z.eqb_sym 0 a), (Z.eqb_sym 90 a), (Z.eqb_sym 180 a),
      (Z.eqb_sym 270 a), H0, H90, H180, H270.
    reflexivity. }
  rewrite Hnone. intuition lia.
Qed.

Section UpdateRack.
Variables f g : rack_config -> rack_config.
Hypothesis f_id : forall r, id (f r) = id r.
Hypothesis g_id : forall r, id (g r) = id r.





(** A projection that [f] keeps is kept by any sequence of updates. *)
Lemma fold_update_rack_keeps {B : Type} (proj : rack_config -> B)
    (ids : list string) (l : list rack_config) :
  (forall r, proj (f r) = proj r) ->
  map proj (fold_left (fun racks rid => update_rack racks rid f) ids l)
  = map proj l.
Proof.
  intros Hkeep. revert l. induction ids as [|a ids IH]; intros l;
    [reflexivity|].
  cbn [fold_left]. rewrite IH. clear IH.
  induction l as [|r l IHl]; [reflexivity|].
  cbn [update_rack]. destruct (id r =? a)%string; cbn [map].
  - rewrite Hkeep. reflexivity.
  - rewrite IHl. reflexivity.
Qed.

(** A rack whose id is not updated stays in the list. *)
Lemma fold_update_rack_other (ids : list string) (l : list rack_config)
    (r : rack_config) :
  In r l -> ~ In (id r) ids ->
  In r (fold_left (fun racks rid => update_rack racks rid f) ids l).
Proof.
  revert l. induction ids as [|a ids IH]; intros l Hin Hnot; [exact Hin|].
  cbn [fold_left]. apply IH.
  - clear IH. induction l as [|x l IHl]; [contradiction|].
    cbn [update_rack]. destruct (id x =? a)%string eqn:Ea.
    + destruct Hin as [->|Hin]; [|right; exact Hin].
      apply String.eqb_eq in Ea. exfalso. apply Hnot. left. symmetry. exact Ea.
    + destruct Hin as [->|Hin]; [left; reflexivity|right; apply IHl, Hin].
  - intros H. apply Hnot. right. exact H.
Qed.
End UpdateRack.

(** X18: [rotate_selected_racks_action] changes nothing but rotation
    angles: ids, names, types, dimensions, positions, diameters and tubes of
    all racks and their order are kept, racks that are not selected are
    untouched, and connections, flow lines, selection and view stay. *)
Theorem rotate_changes_only_angles (self : planner) :
  let self' := rotate_selected_racks_action self in
  map (fun r => set_rotation_angle r 0) (racks_on_canvas self')
  = map (fun r => set_rotation_angle r 0) (racks_on_canvas self)
  /\ (forall r, In r (racks_on_canvas self) ->
                ~ In (id r) (selected_rack_ids self) ->
                In r (racks_on_canvas self'))
  /\ tube_connections self' = tube_connections self
  /\ flow_lines_on_canvas self' = flow_lines_on_canvas self
  /\ selected_rack_ids self' = selected_rack_ids self
  /\ (zoom_level self', pan_offset_x self', pan_offset_y self')
     = (zoom_level self, pan_offset_x self, pan_offset_y self).
Proof.
  unfold rotate_selected_racks_action.
  destruct (truthy_id (selected_flow_line_id self)); [repeat split; auto|].
  destruct (selected_rack_ids self) as [|x xs] eqn:Hsel; [repeat split; auto|].
  cbn [set_racks racks_on_canvas tube_connections flow_lines_on_canvas
       selected_rack_ids zoom_level pan_offset_x pan_offset_y
       _record_state_for_undo _push_to_undo_stack set_redo_stack
       set_undo_stack].
  rewrite Hsel. split; [|split; [|repeat split]].
  - apply fold_update_rack_keeps. intros r. reflexivity.
  - intros r Hin Hnot. apply fold_update_rack_other; assumption.
Qed.




(** ** Duplicating and clearing *)




(** X21: a confirmed [clear_all_racks] leaves no rack and no rack
    selection, keeps exactly the tube connections that reference no rack of
    the canvas at either end (so none at all when every connection has an
    end on the canvas), and [undo_action] right after it gives the scene
    back. *)
Theorem clear_all_racks_prunes (self : planner) :
  let self' := clear_all_racks self true in
  racks_on_canvas self' = []
  /\ selected_rack_ids self' = []
  /\ (forall c,
         In c (tube_connections self')
         <-> In c (tube_connections self)
             /\ ~ In (source_rack_id c) (map id (racks_on_canvas self))
             /\ ~ In (target_rack_id c) (map id (racks_on_canvas self)))
  /\ _capture_current_state (undo_action self') = _capture_current_state self.
Proof.
  unfold clear_all_racks.
  cbn [set_tube_connections set_dragging_rack_id set_selected_rack_ids
       set_racks racks_on_canvas selected_rack_ids tube_connections].
  split; [reflexivity|split; [reflexivity|split]].
  - intros c.
    change (tube_connections (_record_state_for_undo self))
      with (tube_connections self).
    change (racks_on_canvas (_record_state_for_undo self))
      with (racks_on_canvas self).
    rewrite filter_In, andb_true_iff, !id_in_false_iff. tauto.
  - destruct (record_state_top self) as [rest Hrest].
    match goal with
    | |- _capture_current_state (undo_action ?s) = _ =>
        apply (undo_top s rest); exact Hrest
    end.
Qed.

(** ** Mode toggles *)

(** X22: after [toggle_draw_flow_line_mode] or [toggle_connect_tubes_mode]
    from any state, line drawing and tube connecting are never both on, and
    when the toggled mode ends up on, nothing is selected. *)
Theorem modes_are_exclusive (self : planner) (force_off : bool) :
  let d := toggle_draw_flow_line_mode self in
  let c := toggle_connect_tubes_mode self force_off in
  (drawing_flow_line_mode d && connecting_tubes_mode d = false)%bool
  /\ (connecting_tubes_mode c && drawing_flow_line_mode c = false)%bool
  /\ (drawing_flow_line_mode d = true ->
      selected_rack_ids d = [] /\ selected_flow_line_id d = None)
  /\ (connecting_tubes_mode c = true ->
      selected_rack_ids c = [] /\ selected_flow_line_id c = None)
  /\ drawing_flow_line_mode d = negb (drawing_flow_line_mode self)
  /\ connecting_tubes_mode c
     = (if force_off then false else negb (connecting_tubes_mode self)).
Proof.
  unfold toggle_connect_tubes_mode, toggle_draw_flow_line_mode,
    toggle_connect_tubes_mode_force_off.
  destruct self as [? ? ? ? ? ? ? ? ? ? ? ? ? ? ? connecting drawing].
  destruct force_off, drawing, connecting; cbn;
    repeat split; try discriminate; reflexivity.
Qed.

(** ** Adding a rack *)

Lemma toggles_keep_history (self : planner) :
  undo_stack (toggle_draw_flow_line_mode (toggle_connect_tubes_mode self true))
  = undo_stack self
  /\ racks_on_canvas
       (toggle_draw_flow_line_mode (toggle_connect_tubes_mode self true))
     = racks_on_canvas self.
Proof.
  unfold toggle_connect_tubes_mode, toggle_draw_flow_line_mode,
    toggle_connect_tubes_mode_force_off.
  destruct self as [? ? ? ? ? ? ? ? ? ? ? ? ? ? ? connecting drawing].
  destruct drawing; cbn; split; reflexivity.
Qed.

Lemma length_default_tube_data (n : Z) :
  List.length (_generate_default_tube_data n) = Z.to_nat n.
Proof.
  unfold _generate_default_tube_data, range, range_nat.
  rewrite !length_map, length_seq. reflexivity.
Qed.

(** X23: with accepted inputs [add_rack_to_list] appends one rack after the
    racks already there. The rack has the typed type, counts, position,
    diameter and rotation and the drawn id, it carries [cols * rows] tubes
    of the default color, it meets what the geometry kernel assumes
    (positive counts, diameter above 2), for a Crate or Fan the kernel
    reports as many tubes as the rack stores, and [undo_action] right after
    gives back the scene from before. *)
Theorem add_rack_appends (self : planner) (inputs : rack_inputs)
    (x y d rot : Z) (px py : R) :
  accepted_inputs inputs x y d rot px py ->
  let self' := add_rack_to_list self inputs in
  exists rc,
    racks_on_canvas self' = racks_on_canvas self ++ [rc]
    /\ id rc = in_uuid inputs /\ rack_type rc = in_rack_type inputs
    /\ x_tubes rc = x /\ y_tubes rc = y
    /\ pos_x rc = px /\ pos_y rc = py
    /\ tube_diameter rc = IZR d /\ rotation_angle rc = rot
    /\ List.length (tubes rc) = Z.to_nat (x * y)
    /\ Forall (fun t => color t = "pink"%string /\ firework_type t = "Standard"%string
                        /\ cue t = ""%string)
              (tubes rc)
    /\ (0 < x_tubes rc)%Z /\ (0 < y_tubes rc)%Z /\ 2 < tube_diameter rc
    /\ ((rack_type rc = "Crate" \/ rack_type rc = "Fan")%string ->
        List.length (tube_center_points_info_world
                       (_get_rack_dimensions_and_points rc))
        = List.length (tubes rc))
    /\ _capture_current_state (undo_action self') = _capture_current_state self.
Proof.
  intros (Hx & Hy & Hpx & Hpy & Hd & Hrot & Hty & Hxpos & Hypos & Hdpos) self'.
  subst self'. unfold add_rack_to_list.
  rewrite Hx, Hy, Hpx, Hpy, Hd, Hrot.
  assert (Hguard : ((in_rack_type inputs =? "")%string || (x <=? 0)%Z
                    || (y <=? 0)%Z || (d <=? 2)%Z)%bool = false).
  { apply String.eqb_neq in Hty. rewrite Hty.
    assert ((x <=? 0)%Z = false) as -> by (apply Z.leb_gt; lia).
    assert ((y <=? 0)%Z = false) as -> by (apply Z.leb_gt; lia).
    assert ((d <=? 2)%Z = false) as -> by (apply Z.leb_gt; lia).
    reflexivity. }
  rewrite Hguard.
  match goal with
  | |- context [racks_on_canvas (_record_state_for_undo self) ++ [?r]] =>
      set (rc := r)
  end.
  exists rc.
  assert (Hracks_undo :
            forall s, racks_on_canvas s = racks_on_canvas self ++ [rc] ->
                      undo_stack s = undo_stack (_record_state_for_undo self) ->
                      racks_on_canvas s = racks_on_canvas self ++ [rc]
                      /\ _capture_current_state (undo_action s)
                         = _capture_current_state self).
  { intros s Hr Hu. split; [exact Hr|].
    destruct (record_state_top self) as [rest Hrest].
    apply (undo_top s rest). rewrite Hu. exact Hrest. }
  match goal with
  | |- racks_on_canvas ?s = _ /\ _ =>
      assert (Hs : racks_on_canvas s = racks_on_canvas self ++ [rc]
                   /\ _capture_current_state (undo_action s)
                      = _capture_current_state self)
  end.
  { apply Hracks_undo;
      match goal with
      | |- context [if ?b then _ else _] => destruct b
      end; try reflexivity.
    - rewrite (proj2 (toggles_keep_history _)). reflexivity.
    - rewrite (proj1 (toggles_keep_history _)). reflexivity. }
  destruct Hs as [Hs1 Hs2].
  split; [exact Hs1|].
  assert (Hlen : List.length (tubes rc) = Z.to_nat (x * y))
    by (subst rc; cbn [tubes]; apply length_default_tube_data).
  subst rc. cbn [id rack_type x_tubes y_tubes pos_x pos_y tube_diameter
                 rotation_angle tubes] in *.
  repeat split; try assumption; try reflexivity.
  - unfold _generate_default_tube_data. apply Forall_forall.
    intros t Hin. apply in_map_iff in Hin. destruct Hin as (k & <- & _).
    repeat split.
  - apply (IZR_lt 2 d). exact Hdpos.
  - intros Hkind. rewrite kernel_tubes_grid.
    rewrite tube_grid_length by exact Hkind.
    cbn [x_tubes y_tubes tubes]. rewrite Hlen.
    rewrite Z2Nat.inj_mul by lia. reflexivity.
Qed.

Lemma add_rack_appends_witness :
  exists rc,
    racks_on_canvas (add_rack_to_list planner_with_history example_inputs)
    = racks_on_canvas planner_with_history ++ [rc]
    /\ id rc = "rack-new"%string.
Proof.
  destruct (add_rack_appends planner_with_history example_inputs
              2 3 20 90 50 50) as (rc & Hr & Hid & _).
  - unfold accepted_inputs, example_inputs. cbn.
    repeat split; try reflexivity. discriminate.
  - exists rc. split; [exact Hr|exact Hid].
Defined.

(** X24: [add_rack_to_list] leaves the whole state as it was when an input
    does not parse, the type is empty, a tube count is not positive or the
    diameter is 2 or less. *)
Theorem add_rack_rejects (self : planner) (inputs : rack_inputs) :
  (in_x_tubes inputs = None \/ in_y_tubes inputs = None
   \/ in_pos_x inputs = None \/ in_pos_y inputs = None
   \/ in_tube_diameter inputs = None \/ in_rotation inputs = None
   \/ in_rack_type inputs = ""%string
   \/ (exists x, in_x_tubes inputs = Some x /\ (x <= 0)%Z)
   \/ (exists y, in_y_tubes inputs = Some y /\ (y <= 0)%Z)
   \/ (exists d, in_tube_diameter inputs = Some d /\ (d <= 2)%Z)) ->
  add_rack_to_list self inputs = self.
Proof.
  intros H. unfold add_rack_to_list.
  destruct (in_x_tubes inputs) as [x|]; [|reflexivity].
  destruct (in_y_tubes inputs) as [y|]; [|reflexivity].
  destruct (in_pos_x inputs) as [px|]; [|reflexivity].
  destruct (in_pos_y inputs) as [py|]; [|reflexivity].
  destruct (in_tube_diameter inputs) as [d|]; [|reflexivity].
  destruct (in_rotation inputs) as [rot|]; [|reflexivity].
  assert (Hguard : ((in_rack_type inputs =? "")%string || (x <=? 0)%Z
                    || (y <=? 0)%Z || (d <=? 2)%Z)%bool = true).
  { rewrite !orb_true_iff.
    destruct H as [H|[H|[H|[H|[H|[H|[H|[H|[H|H]]]]]]]]]; try discriminate.
    - left; left; left. apply String.eqb_eq. exact H.
    - destruct H as (x' & Hx & Hle). injection Hx as <-.
      left; left; right. apply Z.leb_le. exact Hle.
    - destruct H as (y' & Hy & Hle). injection Hy as <-.
      left; right. apply Z.leb_le. exact Hle.
    - destruct H as (d' & Hd & Hle). injection Hd as <-.
      right. apply Z.leb_le. exact Hle. }
  rewrite Hguard. reflexivity.
Qed.

Lemma add_rack_rejects_witness :
  add_rack_to_list planner_with_history
    (mk_rack_inputs "Crate" (Some 3%Z) (Some 2%Z) (Some 0) (Some 0)
                    (Some 2%Z) (Some 0%Z) "" "rack-new")
  = planner_with_history.
Proof.
  apply add_rack_rejects.
  do 9 right. exists 2%Z. split; [reflexivity|lia].
Defined.

(** X25: a rack added while tube connect mode is on (and line drawing is
    off) ends with connect mode off, line drawing mode on and an empty
    selection: the new rack is on the canvas but not selected. With both
    modes off the new rack is the selection. *)
Theorem add_rack_in_connect_mode (self : planner) (inputs : rack_inputs)
    (x y d rot : Z) (px py : R) :
  accepted_inputs inputs x y d rot px py ->
  drawing_flow_line_mode self = false ->
  let self' := add_rack_to_list self inputs in
  (connecting_tubes_mode self = true ->
   connecting_tubes_mode self' = false
   /\ drawing_flow_line_mode self' = true
   /\ selected_rack_ids self' = [])
  /\ (connecting_tubes_mode self = false ->
      connecting_tubes_mode self' = false
      /\ drawing_flow_line_mode self' = false
      /\ selected_rack_ids self' = [in_uuid inputs]).
Proof.
  intros (Hx & Hy & Hpx & Hpy & Hd & Hrot & Hty & Hxpos & Hypos & Hdpos)
         Hdraw self'.
  subst self'. unfold add_rack_to_list.
  rewrite Hx, Hy, Hpx, Hpy, Hd, Hrot.
  assert (Hguard : ((in_rack_type inputs =? "")%string || (x <=? 0)%Z
                    || (y <=? 0)%Z || (d <=? 2)%Z)%bool = false).
  { apply String.eqb_neq in Hty. rewrite Hty.
    assert ((x <=? 0)%Z = false) as -> by (apply Z.leb_gt; lia).
    assert ((y <=? 0)%Z = false) as -> by (apply Z.leb_gt; lia).
    assert ((d <=? 2)%Z = false) as -> by (apply Z.leb_gt; lia).
    reflexivity. }
  rewrite Hguard.
  cbn [set_selected_flow_line_id set_selected_rack_ids set_racks
       connecting_tubes_mode drawing_flow_line_mode _record_state_for_undo
       _push_to_undo_stack set_redo_stack set_undo_stack].
  rewrite Hdraw.
  split; intros Hconn; rewrite Hconn; cbn [orb];
    unfold toggle_connect_tubes_mode, toggle_draw_flow_line_mode,
      toggle_connect_tubes_mode_force_off;
    cbn [set_selected_flow_line_id set_selected_rack_ids set_racks
         set_connecting_tubes_mode set_drawing_flow_line_mode
         set_first_tube_for_connection set_flow_line_start_point
         connecting_tubes_mode drawing_flow_line_mode selected_rack_ids
         _record_state_for_undo _push_to_undo_stack set_redo_stack
         set_undo_stack negb andb];
    rewrite ?Hdraw, ?Hconn;
    cbn [set_selected_flow_line_id set_selected_rack_ids set_racks
         set_connecting_tubes_mode set_drawing_flow_line_mode
         set_first_tube_for_connection set_flow_line_start_point
         connecting_tubes_mode drawing_flow_line_mode selected_rack_ids
         _record_state_for_undo _push_to_undo_stack set_redo_stack
         set_undo_stack negb andb];
    repeat split; reflexivity.
Qed.

Lemma add_rack_in_connect_mode_witness :
  selected_rack_ids (add_rack_to_list connect_state example_inputs) = []
  /\ drawing_flow_line_mode (add_rack_to_list connect_state example_inputs)
     = true.
Proof.
  destruct (add_rack_in_connect_mode connect_state example_inputs
              2 3 20 90 50 50) as [Hon _].
  - unfold accepted_inputs, example_inputs. cbn.
    repeat split; try reflexivity. discriminate.
  - reflexivity.
  - destruct (Hon eq_refl) as (_ & Hd & Hs). split; assumption.
Defined.

(** ** Flow lines *)

Lemma hypot_0 : hypot 0 0 = 0.
Proof. unfold hypot. replace (0 * 0 + 0 * 0) with 0 by ring. apply sqrt_0. Qed.


Lemma sum_sq_zero (a b : R) : a * a + b * b = 0 -> a = 0 /\ b = 0.
Proof.
  intros H. pose proof (Rle_0_sqr a) as Ha. pose proof (Rle_0_sqr b) as Hb.
  unfold Rsqr in Ha, Hb.
  assert (Ha0 : a * a = 0) by lra. assert (Hb0 : b * b = 0) by lra.
  apply Rmult_integral in Ha0, Hb0. tauto.
Qed.

Lemma segment_between (a b t : R) :
  0 <= t <= 1 -> Rmin a b <= a + t * (b - a) <= Rmax a b.
Proof.
  intros Ht. unfold Rmin, Rmax. destruct (Rle_dec a b) as [Hle|Hgt].
  - assert (0 <= t * (b - a)) by (apply Rmult_le_pos; lra).
    assert (0 <= (1 - t) * (b - a)) by (apply Rmult_le_pos; lra).
    lra.
  - assert (0 <= t * (a - b)) by (apply Rmult_le_pos; lra).
    assert (0 <= (1 - t) * (a - b)) by (apply Rmult_le_pos; lra).
    lra.
Qed.

(** X26: a click on any point of the topmost flow line (the last of the
    list), at any positive zoom, selects that line: [_get_line_under_mouse]
    returns its id, also for a line of length zero. *)
Theorem click_on_flow_line (self : planner) (rest : list flow_line)
    (l : flow_line) (t : R) :
  flow_lines_on_canvas self = rest ++ [l] ->
  0 < zoom_level self ->
  0 <= t <= 1 ->
  _get_line_under_mouse self
    (fl_x1 l + t * (fl_x2 l - fl_x1 l)) (fl_y1 l + t * (fl_y2 l - fl_y1 l))
  = Some (fl_id l).
Proof.
  intros Hlines Hz Ht. unfold _get_line_under_mouse.
  rewrite Hlines, rev_app_distr. cbn [rev app find].
  assert (Hhit : line_hit self (fl_x1 l + t * (fl_x2 l - fl_x1 l))
                                (fl_y1 l + t * (fl_y2 l - fl_y1 l)) l = true).
  { unfold line_hit.
    set (x1 := fl_x1 l). set (y1 := fl_y1 l).
    set (x2 := fl_x2 l). set (y2 := fl_y2 l).
    assert (Hhalo : 0 < LINE_CLICK_HALO / zoom_level self).
    { apply Rdiv_lt_0_compat; [unfold LINE_CLICK_HALO; lra|exact Hz]. }
    set (halo := LINE_CLICK_HALO / zoom_level self) in *.
    assert (Hbox : (Rleb (Rmin x1 x2 - halo) (x1 + t * (x2 - x1))
                    && Rleb (x1 + t * (x2 - x1)) (Rmax x1 x2 + halo)
                    && (Rleb (Rmin y1 y2 - halo) (y1 + t * (y2 - y1))
                        && Rleb (y1 + t * (y2 - y1)) (Rmax y1 y2 + halo)))%bool
                   = true).
    { rewrite !andb_true_iff, !Rleb_true.
      pose proof (segment_between x1 x2 t Ht).
      pose proof (segment_between y1 y2 t Ht).
      repeat split; lra. }
    rewrite Hbox. cbn [negb].
    apply Rleb_true.
    destruct (Reqb (x2 - x1) 0 && Reqb (y2 - y1) 0)%bool eqn:Edeg.
    - apply andb_true_iff in Edeg. destruct Edeg as [Ex Ey].
      apply Reqb_true in Ex, Ey. rewrite Ex, Ey.
      replace (x1 + t * 0 - x1) with 0 by ring.
      replace (y1 + t * 0 - y1) with 0 by ring.
      rewrite hypot_0. lra.
    - assert (Hden : (x2 - x1) * (x2 - x1) + (y2 - y1) * (y2 - y1) <> 0).
      { intros Hzero. apply sum_sq_zero in Hzero. destruct Hzero as [Ha Hb].
        apply Reqb_true in Ha, Hb. rewrite Ha, Hb in Edeg. discriminate. }
      replace (((x1 + t * (x2 - x1) - x1) * (x2 - x1)
                + (y1 + t * (y2 - y1) - y1) * (y2 - y1))
               / ((x2 - x1) * (x2 - x1) + (y2 - y1) * (y2 - y1)))
        with t by (field; exact Hden).
      rewrite (Rmin_right 1 t) by lra. rewrite (Rmax_right 0 t) by lra.
      replace (x1 + t * (x2 - x1) - (x1 + t * (x2 - x1))) with 0 by ring.
      replace (y1 + t * (y2 - y1) - (y1 + t * (y2 - y1))) with 0 by ring.
      rewrite hypot_0. lra. }
  rewrite Hhit. reflexivity.
Qed.

Lemma click_on_flow_line_witness :
  _get_line_under_mouse (set_flow_lines initial_planner [example_line])
    (fl_x1 example_line + 0.5 * (fl_x2 example_line - fl_x1 example_line))
    (fl_y1 example_line + 0.5 * (fl_y2 example_line - fl_y1 example_line))
  = Some "line-1"%string.
Proof.
  apply (click_on_flow_line (set_flow_lines initial_planner [example_line])
                            [] example_line 0.5);
    [reflexivity|cbn [set_flow_lines initial_planner zoom_level]; lra|lra].
Defined.



(** X15: the commands that record the scene before they change it can be
    undone. When it applies, [undo_action] right after
    [rotate_selected_racks_action], after a confirmed [delete_selected_item]
    of racks, or after a confirmed [clear_all_tube_connections] or
    [clear_all_flow_lines] gives back the scene, selection and view from
    before the command (every deleted rack, pruned connection and cleared
    line included); a [redo_action] after the undone rotation gives the
    rotated scene again. *)
Theorem commands_can_be_undone (self : planner) :
  (truthy_id (selected_flow_line_id self) = false ->
   selected_rack_ids self <> [] ->
   let rotated := rotate_selected_racks_action self in
   _capture_current_state (undo_action rotated) = _capture_current_state self
   /\ _capture_current_state (redo_action (undo_action rotated))
      = _capture_current_state rotated)
  /\ (truthy_id (selected_flow_line_id self) = false ->
      selected_rack_ids self <> [] ->
      _capture_current_state (undo_action (delete_selected_item self true))
      = _capture_current_state self)
  /\ (tube_connections self <> [] ->
      tube_connections (clear_all_tube_connections self true) = []
      /\ _capture_current_state
           (undo_action (clear_all_tube_connections self true))
         = _capture_current_state self)
  /\ (flow_lines_on_canvas self <> [] ->
      flow_lines_on_canvas (clear_all_flow_lines self true) = []
      /\ _capture_current_state (undo_action (clear_all_flow_lines self true))
         = _capture_current_state self).
Proof.
  split; [|split; [|split]].
  - intros Hfl Hsel rotated.
    destruct (rotate_records_before_mutation self Hfl Hsel) as [rest Hrest].
    fold rotated in Hrest.
    destruct (undo_top rotated rest _ Hrest) as (Hcap & Hundo & Hredo).
    split; [exact Hcap|].
    unfold redo_action. rewrite Hredo, pop_last_app.
    cbn [_restore_state_from_history set_undo_stack set_redo_stack
         undo_stack redo_stack].
    destruct rotated. reflexivity.
  - intros Hfl Hsel.
    destruct (delete_records_before_mutation self Hfl Hsel) as [rest Hrest].
    apply (undo_top _ rest _ Hrest).
  - intros Hne. unfold clear_all_tube_connections.
    destruct (tube_connections self) as [|c cs] eqn:E; [contradiction|].
    split; [reflexivity|].
    destruct (record_state_top self) as [rest Hrest].
    match goal with
    | |- _capture_current_state (undo_action ?s) = _ =>
        apply (undo_top s rest); exact Hrest
    end.
  - intros Hne. unfold clear_all_flow_lines.
    destruct (flow_lines_on_canvas self) as [|c cs] eqn:E; [contradiction|].
    split; [reflexivity|].
    destruct (record_state_top self) as [rest Hrest].
    match goal with
    | |- _capture_current_state (undo_action ?s) = _ =>
        apply (undo_top s rest); exact Hrest
    end.
Qed.

Lemma commands_can_be_undone_witness :
  _capture_current_state
    (undo_action (delete_selected_item two_rack_planner true))
  = _capture_current_state two_rack_planner.
Proof.
  apply (proj1 (proj2 (commands_can_be_undone two_rack_planner)));
    [reflexivity|discriminate].
Defined.

(** ** Tube dialogs *)

Lemma index_cell_bounds (i m n : Z) :
  (0 < m)%Z -> (0 < n)%Z -> (0 <= i < m * n)%Z ->
  (0 <= i mod m < m)%Z /\ (0 <= i / m < n)%Z.
Proof.
  intros Hm Hn Hi. split.
  - apply Z.mod_pos_bound. exact Hm.
  - split; [apply Z.div_pos; lia|].
    apply Z.div_lt_upper_bound; lia.
Qed.

Lemma index_of_cell (i j m : Z) :
  (0 < m)%Z -> (i mod m = j mod m)%Z -> (i / m = j / m)%Z -> i = j.
Proof.
  intros Hm H1 H2.
  rewrite (Z.div_mod i m), (Z.div_mod j m) by lia. rewrite H1, H2. reflexivity.
Qed.

(** X29: in the tube dialogs of a Crate or Fan rack with positive
    dimensions at one of the four angles, every tube index below
    [cols * rows] is drawn: its square lies inside the padded dialog
    canvas, and two different indices get squares that do not overlap. *)
Theorem dialog_squares_fit_and_are_disjoint (ty : string)
    (cols rows angle i j : Z) :
  (ty = "Crate" \/ ty = "Fan")%string ->
  (0 < cols)%Z -> (0 < rows)%Z -> In angle ROTATION_DEGREES ->
  (0 <= i < cols * rows)%Z -> (0 <= j < cols * rows)%Z ->
  exists dc dr w h vci vri xi yi vcj vrj xj yj,
    dialog_grid_and_canvas ty cols rows angle = Some ((dc, dr), (w, h))
    /\ dialog_tube_cell ty cols rows angle i = Some ((vci, vri), (xi, yi))
    /\ dialog_tube_cell ty cols rows angle j = Some ((vcj, vrj), (xj, yj))
    /\ (0 <= vci < dc /\ 0 <= vri < dr)%Z
    /\ (_padding <= xi /\ xi + _tube_size <= w - _padding
        /\ _padding <= yi /\ yi + _tube_size <= h - _padding)%Z
    /\ (i <> j ->
        (xi + _tube_size <= xj \/ xj + _tube_size <= xi
         \/ yi + _tube_size <= yj \/ yj + _tube_size <= yi)%Z).
Proof.
  intros Hty Hc Hr Hang Hi Hj.
  assert (Hc0 : (cols =? 0)%Z = false) by (apply Z.eqb_neq; lia).
  assert (Hr0 : (rows =? 0)%Z = false) by (apply Z.eqb_neq; lia).
  destruct (index_cell_bounds i cols rows Hc Hr Hi) as [Hic Hir].
  destruct (index_cell_bounds j cols rows Hc Hr Hj) as [Hjc Hjr].
  destruct (index_cell_bounds i rows cols Hr Hc ltac:(lia)) as [Hit His].
  destruct (index_cell_bounds j rows cols Hr Hc ltac:(lia)) as [Hjt Hjs].
  pose proof (index_of_cell i j cols Hc) as Hinj1.
  pose proof (index_of_cell i j rows Hr) as Hinj2.
  unfold dialog_grid_and_canvas, dialog_tube_cell.
  rewrite Hc0. unfold ROTATION_DEGREES in Hang. cbn [In] in Hang.
  unfold _padding, _tube_size, _spacing, _segment_visual_spacing.
  set (ic := (i mod cols)%Z) in *. set (ir := (i / cols)%Z) in *.
  set (jc := (j mod cols)%Z) in *. set (jr := (j / cols)%Z) in *.
  set (it := (i mod rows)%Z) in *. set (isg := (i / rows)%Z) in *.
  set (jt := (j mod rows)%Z) in *. set (jsg := (j / rows)%Z) in *.
  destruct Hty as [-> | ->];
    [rewrite !String.eqb_refl
    |change (("Fan" =? "Crate")%string) with false;
     rewrite !String.eqb_refl, ?Hr0];
    destruct Hang as [<-|[<-|[<-|[<-|[]]]]]; cbn [Z.eqb orb Pos.eqb];
    do 12 eexists;
    (split; [reflexivity|]); (split; [reflexivity|]);
    (split; [reflexivity|]);
    (split; [lia|]); (split; [lia|]);
    intros Hne;
    assert (Hdiff : (ic <> jc \/ ir <> jr) /\ (it <> jt \/ isg <> jsg))
      by (split;
          [destruct (Z.eq_dec ic jc); [|tauto];
           destruct (Z.eq_dec ir jr); [|tauto];
           exfalso; apply Hne, Hinj1; assumption
          |destruct (Z.eq_dec it jt); [|tauto];
           destruct (Z.eq_dec isg jsg); [|tauto];
           exfalso; apply Hne, Hinj2; assumption]);
    lia.
Qed.

Lemma dialog_squares_fit_and_are_disjoint_witness :
  exists dc dr w h vci vri xi yi vcj vrj xj yj,
    dialog_grid_and_canvas "Fan" 2 3 90 = Some ((dc, dr), (w, h))
    /\ dialog_tube_cell "Fan" 2 3 90 1 = Some ((vci, vri), (xi, yi))
    /\ dialog_tube_cell "Fan" 2 3 90 4 = Some ((vcj, vrj), (xj, yj))
    /\ (0 <= vci < dc /\ 0 <= vri < dr)%Z
    /\ (_padding <= xi /\ xi + _tube_size <= w - _padding
        /\ _padding <= yi /\ yi + _tube_size <= h - _padding)%Z
    /\ (1%Z <> 4%Z ->
        (xi + _tube_size <= xj \/ xj + _tube_size <= xi
         \/ yi + _tube_size <= yj \/ yj + _tube_size <= yi)%Z).
Proof.
  apply (dialog_squares_fit_and_are_disjoint "Fan" 2 3 90 1 4);
    [right; reflexivity|reflexivity|reflexivity
    |right; left; reflexivity|lia|lia].
Defined.






(** ** Dragging racks *)
















(** ** Snapping *)

Lemma py_round_near (x : R) :
  Rabs (x - IZR (py_round x)) <= 1 / 2
  /\ (Rabs (x - IZR (py_round x)) = 1 / 2 -> Z.even (py_round x) = true).
Proof.
  unfold py_round.
  destruct (base_fp x) as [Hge Hlt].
  assert (Hx : x = IZR (Int_part x) + frac_part x) by (unfold frac_part; ring).
  unfold Rltb.
  destruct (Rlt_dec (frac_part x) (1 / 2)) as [H1|H1].
  - split.
    + rewrite Hx at 1. apply Rabs_le. lra.
    + intros H. exfalso. rewrite Hx in H at 1.
      rewrite Rabs_right in H by lra. lra.
  - destruct (Rlt_dec (1 / 2) (frac_part x)) as [H2|H2].
    + rewrite plus_IZR. split.
      * rewrite Hx at 1. apply Rabs_le. lra.
      * intros H. exfalso. rewrite Hx in H at 1.
        rewrite Rabs_left in H by lra. lra.
    + assert (Hhalf : frac_part x = 1 / 2) by lra.
      destruct (Z.even (Int_part x)) eqn:Ev.
      * split; [|intros _; exact Ev].
        rewrite Hx at 1. apply Rabs_le. lra.
      * split.
        -- rewrite plus_IZR. rewrite Hx at 1. apply Rabs_le. lra.
        -- intros _. rewrite Z.even_add, Ev. reflexivity.
Qed.

Lemma grid_multiple_near (p : R) (g : Z) :
  (0 < g)%Z ->
  Rabs (IZR (py_round (p / IZR g) * g) - p) <= IZR g / 2
  /\ (Rabs (IZR (py_round (p / IZR g) * g) - p) = IZR g / 2 ->
      Z.even (py_round (p / IZR g)) = true).
Proof.
  intros Hg. assert (Hg' : 0 < IZR g) by (apply IZR_lt; exact Hg).
  destruct (py_round_near (p / IZR g)) as [Hle Heven].
  assert (Hscale :
            Rabs (IZR (py_round (p / IZR g) * g) - p)
            = Rabs (p / IZR g - IZR (py_round (p / IZR g))) * IZR g).
  { rewrite mult_IZR.
    replace (IZR (py_round (p / IZR g)) * IZR g - p)
      with (- ((p / IZR g - IZR (py_round (p / IZR g))) * IZR g))
      by (field; lra).
    rewrite Rabs_Ropp, Rabs_mult, (Rabs_right (IZR g)) by lra. reflexivity. }
  rewrite Hscale. split.
  - apply Rmult_le_compat_r with (r := IZR g) in Hle; lra.
  - intros H. apply Heven.
    apply Rmult_eq_reg_r with (r := IZR g); lra.
Qed.

(** X8: with grid snapping on, a grid size that parses and is positive and
    rack snapping off, the position [on_canvas_drag] aims at is a multiple of
    the grid size in both axes, at most half a grid step away from the
    position under the cursor; exactly half way between two multiples it is
    the even multiple. With grid snapping off, or a grid size that does not
    parse or is not positive, it is the position under the cursor. *)
Theorem drag_grid_snap (self : planner) (drag_offset : R * R)
    (settings : snap_settings) (primary : rack_config) (event_x event_y : R)
    (grid : Z) :
  snap_to_grid_enabled settings = true ->
  grid_size_var settings = Some grid ->
  (0 < grid)%Z ->
  snap_to_racks_enabled settings = false ->
  let proposed_x := fst (canvas_to_world self event_x event_y) - fst drag_offset in
  let proposed_y := snd (canvas_to_world self event_x event_y) - snd drag_offset in
  let target :=
    fst (drag_target self drag_offset settings primary event_x event_y) in
  (exists kx ky : Z,
      target = (IZR (kx * grid), IZR (ky * grid))
      /\ (Rabs (fst target - proposed_x) = IZR grid / 2 -> Z.even kx = true)
      /\ (Rabs (snd target - proposed_y) = IZR grid / 2 -> Z.even ky = true))
  /\ Rabs (fst target - proposed_x) <= IZR grid / 2
  /\ Rabs (snd target - proposed_y) <= IZR grid / 2
  /\ (forall other : snap_settings,
         snap_to_racks_enabled other = false ->
         snap_to_grid_enabled other = false
         \/ grid_size_var other = None
         \/ (exists g, grid_size_var other = Some g /\ (g <= 0)%Z) ->
         fst (drag_target self drag_offset other primary event_x event_y)
         = (proposed_x, proposed_y)).
Proof.
  intros Hon Hgrid Hpos Hoff proposed_x proposed_y target.
  assert (Htarget :
            target
            = (IZR (py_round (proposed_x / IZR grid) * grid),
               IZR (py_round (proposed_y / IZR grid) * grid))).
  { subst target proposed_x proposed_y. unfold drag_target.
    rewrite Hon, Hgrid, Hoff.
    destruct (canvas_to_world self event_x event_y) as [wx wy].
    assert (Hp : (0 <? grid)%Z = true) by (apply Z.ltb_lt; exact Hpos).
    rewrite Hp. cbn [fst snd].
    destruct (match dict_get (drag_start_positions self) _ with
              | Some p => p
              | None => _
              end) as [ox oy].
    reflexivity. }
  destruct (grid_multiple_near proposed_x grid Hpos) as [Hx Hxe].
  destruct (grid_multiple_near proposed_y grid Hpos) as [Hy Hye].
  rewrite Htarget. cbn [fst snd].
  split; [|split; [exact Hx|split; [exact Hy|]]].
  - exists (py_round (proposed_x / IZR grid)),
           (py_round (proposed_y / IZR grid)).
    split; [reflexivity|split; assumption].
  - intros other Hoff' Hcase.
    subst proposed_x proposed_y. unfold drag_target. rewrite Hoff'.
    destruct (canvas_to_world self event_x event_y) as [wx wy]. cbn [fst snd].
    destruct (match dict_get (drag_start_positions self) _ with
              | Some p => p
              | None => _
              end) as [ox oy].
    destruct Hcase as [H|[H|[g [H Hle]]]]; rewrite H.
    + reflexivity.
    + destruct (snap_to_grid_enabled other); reflexivity.
    + assert (Hp : (0 <? g)%Z = false) by (apply Z.ltb_ge; exact Hle).
      rewrite Hp. destruct (snap_to_grid_enabled other); reflexivity.
Qed.

Lemma drag_grid_snap_witness :
  Rabs (fst (fst (drag_target mid_drag_planner (0, 0) grid_of_20
                    scenario_crate 87 31))
        - (fst (canvas_to_world mid_drag_planner 87 31) - 0))
  <= IZR 20 / 2.
Proof.
  refine (proj1 (proj2 (drag_grid_snap mid_drag_planner (0, 0) grid_of_20
                          scenario_crate 87 31 20 _ _ _ _)));
    first [reflexivity | lia].
Defined.











(** ** Pressing on a rack *)

Lemma first_rack_at_topmost (x y : R) (below above : list rack_config)
    (clicked : rack_config) :
  Forall
    (fun r =>
       _is_point_in_polygon x y
         (rotated_outline_points_absolute_world
            (_get_rack_dimensions_and_points r)) = Some false) above ->
  _is_point_in_polygon x y
    (rotated_outline_points_absolute_world
       (_get_rack_dimensions_and_points clicked)) = Some true ->
  first_rack_at x y (rev (below ++ clicked :: above)) = Some (Some clicked).
Proof.
  intros Habove Hin. rewrite rev_app_distr. cbn [rev]. rewrite <- app_assoc.
  apply Forall_rev in Habove.
  induction (rev above) as [|r l IH].
  - cbn [app first_rack_at]. rewrite Hin. reflexivity.
  - cbn [app first_rack_at]. inversion Habove as [|? ? Hr Hl]; subst.
    rewrite Hr. apply IH, Hl.
Qed.

Lemma filter_split_permutation {A : Type} (p : A -> bool) (l : list A) :
  Permutation (filter (fun a => negb (p a)) l ++ filter p l) l.
Proof.
  induction l as [|a l IH]; [constructor|].
  cbn [filter]. destruct (p a); cbn [negb].
  - apply Permutation_sym, Permutation_cons_app, Permutation_sym, IH.
  - cbn [app]. constructor. exact IH.
Qed.

Lemma remove_first_rack_permutation (c : rack_config) (l : list rack_config) :
  In c l -> Permutation (remove_first_rack c l ++ [c]) l.
Proof.
  induction l as [|r l IH]; [contradiction|].
  intros Hin. cbn [remove_first_rack].
  destruct (rack_config_eq_dec r c) as [->|Hne].
  - apply Permutation_sym, Permutation_cons_append.
  - destruct Hin as [->|Hin]; [contradiction|].
    cbn [app]. constructor. apply IH, Hin.
Qed.

Lemma id_in_singleton (x : string) (ids : list string) :
  id_in x ids = true -> (1 <? List.length ids)%nat = false -> ids = [x].
Proof.
  destruct ids as [|a [|b ids]]; cbn; try discriminate.
  rewrite orb_false_r. intros H _. apply String.eqb_eq in H. subst. reflexivity.
Qed.

Ltac press_fields :=
  cbn [set_selected_flow_line_id set_drag_operation_pending_undo_state
       set_dragging_rack_id set_drag_start_positions set_selected_rack_ids
       set_racks racks_on_canvas flow_lines_on_canvas tube_connections
       selected_rack_ids selected_flow_line_id zoom_level pan_offset_x
       pan_offset_y undo_stack redo_stack dragging_rack_id
       drag_start_positions drag_operation_pending_undo_state
       flow_line_start_point first_tube_for_connection connecting_tubes_mode
       drawing_flow_line_mode fst snd].

Ltac press_side :=
  try reflexivity; try contradiction;
  try (match goal with
       | Econd : (_ && _)%bool = true |- Permutation _ _ =>
           apply andb_true_iff in Econd;
           match goal with
           | Hperm : forall ids, _ -> Permutation _ _ |- _ =>
               apply Hperm, Econd
           end
       end);
  try (match goal with
       | |- _ = false -> _ <> ""%string -> ?s = [_] =>
           let Hm := fresh "Hm" in
           let Hne := fresh "Hne" in
           intros Hm Hne; subst s; rewrite Hm; cbn [truthy_id];
           apply String.eqb_neq in Hne; rewrite Hne; reflexivity
       end).

(** X3: a press on a rack (no mode on, no flow line under the cursor; the
    rack is the topmost one whose outline contains the point) starts a drag
    of that rack: its id becomes the dragged id, the drag offset is the
    world point of the press relative to the rack position, the pending undo
    entry is the scene of that moment with the flow-line selection cleared,
    and nothing is recorded yet. The racks are only reordered. Without
    Control and Shift the rack becomes the whole selection and the last rack
    of the list (the one drawn on top); with Shift the selection stays; when
    the rack was not part of a selection of several racks, its position is
    the only recorded start position. *)
Theorem press_on_rack_starts_drag (self : planner) (drag_offset : R * R)
    (event_x event_y : R) (event_state : Z)
    (below above : list rack_config) (clicked : rack_config) :
  drawing_flow_line_mode self = false ->
  connecting_tubes_mode self = false ->
  let world := canvas_to_world self event_x event_y in
  truthy_id (_get_line_under_mouse self (fst world) (snd world)) = false ->
  racks_on_canvas self = below ++ clicked :: above ->
  _is_point_in_polygon (fst world) (snd world)
    (rotated_outline_points_absolute_world
       (_get_rack_dimensions_and_points clicked)) = Some true ->
  Forall
    (fun r =>
       _is_point_in_polygon (fst world) (snd world)
         (rotated_outline_points_absolute_world
            (_get_rack_dimensions_and_points r)) = Some false) above ->
  let after :=
    fst (on_canvas_press self drag_offset event_x event_y event_state) in
  let drag_offset' :=
    snd (on_canvas_press self drag_offset event_x event_y event_state) in
  dragging_rack_id after = Some (id clicked)
  /\ drag_offset' = (fst world - pos_x clicked, snd world - pos_y clicked)
  /\ drag_operation_pending_undo_state after
     = Some (_capture_current_state (set_selected_flow_line_id self None))
  /\ selected_flow_line_id after = None
  /\ Permutation (racks_on_canvas after) (racks_on_canvas self)
  /\ (undo_stack after, redo_stack after) = (undo_stack self, redo_stack self)
  /\ (flow_lines_on_canvas after, tube_connections after)
     = (flow_lines_on_canvas self, tube_connections self)
  /\ (zoom_level after, pan_offset_x after, pan_offset_y after)
     = (zoom_level self, pan_offset_x self, pan_offset_y self)
  /\ (Z.land event_state 4 = 0%Z -> Z.land event_state 1 = 0%Z ->
      selected_rack_ids after = [id clicked]
      /\ exists front, racks_on_canvas after = front ++ [clicked])
  /\ (Z.land event_state 1 <> 0%Z ->
      selected_rack_ids after = selected_rack_ids self)
  /\ ((id_in (id clicked) (selected_rack_ids self)
       && (1 <? List.length (selected_rack_ids self))%nat)%bool = false ->
      id clicked <> ""%string ->
      drag_start_positions after
      = [(id clicked, (pos_x clicked, pos_y clicked))]).
Proof.
  intros Hdraw Hconn world Hline Hracks Hin Habove after drag_offset'.
  pose proof (first_rack_at_topmost (fst world) (snd world) below above clicked
                Habove Hin) as Hfirst.
  rewrite <- Hracks in Hfirst.
  assert (Hclicked_in : In clicked (racks_on_canvas self)).
  { rewrite Hracks. apply in_or_app. right. left. reflexivity. }
  subst after drag_offset'. unfold on_canvas_press.
  rewrite Hdraw, Hconn. cbn [orb].
  subst world.
  destruct (canvas_to_world self event_x event_y) as [wx wy].
  cbn [fst snd] in *.
  rewrite Hline, Hfirst. cbv zeta.
  destruct self as [racks lines conns sel fsel z px py undo redo drg starts
                      pend flstart ftc cmode dmode].
  cbn [set_selected_flow_line_id set_drag_operation_pending_undo_state
       set_dragging_rack_id set_drag_start_positions set_selected_rack_ids
       set_racks racks_on_canvas flow_lines_on_canvas tube_connections
       selected_rack_ids selected_flow_line_id zoom_level pan_offset_x
       pan_offset_y undo_stack redo_stack dragging_rack_id
       drag_start_positions drag_operation_pending_undo_state
       flow_line_start_point first_tube_for_connection connecting_tubes_mode
       drawing_flow_line_mode] in *.
  set (cid := id clicked) in *.
  set (multi := (id_in cid sel && (1 <? List.length sel)%nat)%bool).
  set (starts' :=
         if multi then
           fold_left
             (fun d r_id =>
                match rack_by_id racks r_id with
                | Some r_sel => dict_set d r_id (pos_x r_sel, pos_y r_sel)
                | None => d
                end) sel []
         else if truthy_id (Some cid)
              then dict_set [] cid (pos_x clicked, pos_y clicked) else []).
  assert (Hperm :
            forall ids,
              id_in cid ids = true ->
              Permutation
                (filter (fun r => negb (id_in (id r) ids)) racks
                 ++ remove_first_rack clicked
                      (filter (fun r => id_in (id r) ids) racks)
                 ++ [clicked])
                racks).
  { intros ids Hid.
    eapply Permutation_trans;
      [|apply (filter_split_permutation (fun r => id_in (id r) ids))].
    apply Permutation_app_head, remove_first_rack_permutation.
    apply filter_In. split; [exact Hclicked_in|exact Hid]. }
  assert (Hself : id_in cid [cid] = true).
  { unfold id_in. cbn [existsb]. rewrite String.eqb_refl. reflexivity. }
  destruct (Z.land event_state 4 =? 0)%Z eqn:Ectrl;
    destruct (Z.land event_state 1 =? 0)%Z eqn:Eshift;
    cbn [negb andb orb].
  - (* no modifier *)
    assert (Hsel' :
              selected_rack_ids
                (if (negb (id_in cid sel) || (1 <? List.length sel)%nat)%bool
                 then
                   mk_planner racks lines conns [cid] None z px py undo redo
                     (Some cid) starts'
                     (Some (_capture_current_state
                              (mk_planner racks lines conns sel None z px py
                                 undo redo drg starts pend flstart ftc cmode
                                 dmode)))
                     flstart ftc cmode dmode
                 else
                   mk_planner racks lines conns sel None z px py undo redo
                     (Some cid) starts'
                     (Some (_capture_current_state
                              (mk_planner racks lines conns sel None z px py
                                 undo redo drg starts pend flstart ftc cmode
                                 dmode)))
                     flstart ftc cmode dmode)
              = [cid]).
    { destruct (id_in cid sel) eqn:Ein; cbn [negb orb];
        [|reflexivity].
      destruct (1 <? List.length sel)%nat eqn:Elen; [reflexivity|].
      cbn [selected_rack_ids]. apply id_in_singleton; assumption. }
    match goal with
    | |- context [if (negb (id_in cid sel) || _)%bool then ?a else ?b] =>
        set (s5 := if (negb (id_in cid sel) || (1 <? List.length sel)%nat)%bool
                   then a else b) in *
    end.
    assert (Hs5 :
              s5 = mk_planner racks lines conns [cid] None z px py undo redo
                     (Some cid) starts'
                     (Some (_capture_current_state
                              (mk_planner racks lines conns sel None z px py
                                 undo redo drg starts pend flstart ftc cmode
                                 dmode)))
                     flstart ftc cmode dmode).
    { subst s5.
      destruct (negb (id_in cid sel) || (1 <? List.length sel)%nat)%bool;
        [reflexivity|].
      cbn [selected_rack_ids] in Hsel'. rewrite Hsel'. reflexivity. }
    rewrite Hs5.
    cbn [selected_rack_ids List.length Nat.eqb negb andb racks_on_canvas
         set_racks].
    rewrite Hself.
    cbn [fst snd dragging_rack_id drag_operation_pending_undo_state
         selected_flow_line_id racks_on_canvas undo_stack redo_stack
         flow_lines_on_canvas tube_connections zoom_level pan_offset_x
         pan_offset_y selected_rack_ids drag_start_positions].
    repeat split; try reflexivity.
    + apply Hperm, Hself.
    + exists (filter (fun r => negb (id_in (id r) [cid])) racks
              ++ remove_first_rack clicked
                   (filter (fun r => id_in (id r) [cid]) racks)).
      rewrite <- app_assoc. reflexivity.
    + intros H. apply Z.eqb_eq in Eshift. contradiction.
    + intros Hm Hne. subst starts'. fold multi in Hm. rewrite Hm.
      cbn [truthy_id]. apply String.eqb_neq in Hne. rewrite Hne. reflexivity.
  - (* Shift *)
    press_fields. apply Z.eqb_neq in Eshift.
    destruct (negb (List.length sel =? 0)%nat && id_in cid sel)%bool eqn:Econd;
      press_fields; repeat split; press_side.
  - (* Control *)
    apply Z.eqb_neq in Ectrl. apply Z.eqb_eq in Eshift.
    destruct (id_in cid sel) eqn:Ein; press_fields.
    + destruct (negb (List.length (remove_first_id cid sel) =? 0)%nat
                && id_in cid (remove_first_id cid sel))%bool eqn:Econd;
        press_fields; repeat split; press_side.
    + assert (Hlast : id_in cid (sel ++ [cid]) = true).
      { unfold id_in. rewrite existsb_app. cbn [existsb].
        rewrite String.eqb_refl, orb_true_r. reflexivity. }
      assert (Hlen : (List.length (sel ++ [cid]) =? 0)%nat = false).
      { rewrite length_app. cbn [List.length]. apply Nat.eqb_neq. lia. }
      rewrite Hlast, Hlen. cbn [negb andb].
      press_fields; repeat split; press_side.
      apply Hperm, Hlast.
  - (* Control and Shift *)
    press_fields. apply Z.eqb_neq in Ectrl. apply Z.eqb_neq in Eshift.
    destruct (negb (List.length sel =? 0)%nat && id_in cid sel)%bool eqn:Econd;
      press_fields; repeat split; press_side.
Qed.

(** The position of the Crate of the examples is inside its outline. *)
Lemma scenario_crate_contains_center :
  _is_point_in_polygon 50 50
    (rotated_outline_points_absolute_world
       (_get_rack_dimensions_and_points scenario_crate))
  = Some true.
Proof.
  rewrite kernel_outline, scenario_crate_size. cbn [map fst snd].
  unfold to_world, rack_center. rewrite scenario_crate_size.
  cbn [fst snd scenario_crate rotation_angle pos_x pos_y].
  rewrite !rotate_point_0. cbn [fst snd].
  rewrite (point_in_rectangle 50 50 _ _ _ _ 11 89 23 77);
    try solve_rectangle_side.
  unfold in_half_open_box, Rltb, Rleb. split_comparisons. reflexivity.
Qed.

Lemma press_on_rack_starts_drag_witness :
  dragging_rack_id
    (fst (on_canvas_press planner_with_history (0, 0) 50 50 0))
  = Some "rack-1"%string.
Proof.
  assert (Hworld : canvas_to_world planner_with_history 50 50 = (50, 50)).
  { unfold canvas_to_world, planner_with_history.
    cbn [zoom_level pan_offset_x pan_offset_y]. f_equal; lra. }
  refine (proj1 (press_on_rack_starts_drag planner_with_history (0, 0) 50 50 0
                   [] [] scenario_crate _ _ _ _ _ _));
    try reflexivity.
  - rewrite Hworld. exact scenario_crate_contains_center.
  - constructor.
Defined.

(** ** Releasing a drag *)

Lemma push_top (self : planner) (e : history_entry) :
  exists rest, undo_stack (_push_to_undo_stack self e) = rest ++ [e].
Proof.
  unfold _push_to_undo_stack. cbn [set_redo_stack set_undo_stack undo_stack].
  destruct (MAX_UNDO_STEPS <? List.length (undo_stack self ++ [e]))%nat eqn:E.
  - destruct (undo_stack self) as [|e0 u].
    + cbn in E. discriminate.
    + exists u. reflexivity.
  - eauto.
Qed.

Lemma drag_ended_state_different_iff (self : planner) :
  drag_ended_state_different self = true <-> some_selected_rack_moved self.
Proof.
  unfold drag_ended_state_different, some_selected_rack_moved.
  rewrite existsb_exists. split.
  - intros (rid & Hin & H).
    destruct (rack_by_id (racks_on_canvas self) rid) as [r|] eqn:Er;
      [|discriminate].
    destruct (dict_get (drag_start_positions self) rid) as [[sx sy]|] eqn:Es;
      [|discriminate].
    exists rid, r, (sx, sy). repeat split; try assumption.
    intros Heq. injection Heq as Hx Hy. unfold Reqb in H.
    destruct (Req_dec_T (pos_x r) sx); [|contradiction].
    destruct (Req_dec_T (pos_y r) sy); [|contradiction].
    discriminate.
  - intros (rid & r & [sx sy] & Hin & Er & Es & Hne).
    exists rid. split; [exact Hin|]. rewrite Er, Es. unfold Reqb.
    destruct (Req_dec_T (pos_x r) sx) as [Hx|]; [|reflexivity].
    destruct (Req_dec_T (pos_y r) sy) as [Hy|]; [|rewrite orb_true_r; reflexivity].
    exfalso. apply Hne. rewrite Hx, Hy. reflexivity.
Qed.

(** X16: releasing a drag records it only if something moved. With a rack
    being dragged, a pending undo entry and recorded start positions,
    [on_canvas_release] pushes the pending entry (the scene at the press)
    when some selected rack is away from its start position, so that
    [undo_action] right after gives back the scene of the press and the redo
    stack is emptied; when every selected rack is at its start position both
    stacks stay as they were. Either way the scene, selection and view stay
    and the drag is over. *)
Theorem release_records_moved_drag (self : planner) (pending : history_entry) :
  truthy_id (selected_flow_line_id self) = false ->
  drawing_flow_line_mode self = false ->
  connecting_tubes_mode self = false ->
  truthy_id (dragging_rack_id self) = true ->
  drag_operation_pending_undo_state self = Some pending ->
  drag_start_positions self <> [] ->
  let after := on_canvas_release self false in
  (some_selected_rack_moved self ->
   _capture_current_state (undo_action after) = pending
   /\ (exists rest, undo_stack after = rest ++ [pending])
   /\ redo_stack after = [])
  /\ (~ some_selected_rack_moved self ->
      undo_stack after = undo_stack self /\ redo_stack after = redo_stack self)
  /\ _capture_current_state after = _capture_current_state self
  /\ dragging_rack_id after = None
  /\ drag_start_positions after = []
  /\ drag_operation_pending_undo_state after = None.
Proof.
  intros Hfl Hdraw Hconn Hdrag Hpend Hstarts after.
  assert (Hafter :
            after
            = set_drag_operation_pending_undo_state
                (set_drag_start_positions
                   (set_dragging_rack_id
                      (if drag_ended_state_different self
                       then _push_to_undo_stack self pending else self) None)
                   []) None).
  { subst after. unfold on_canvas_release.
    rewrite Hfl, Hdraw, Hconn, Hdrag, Hpend. cbn [orb].
    destruct (drag_start_positions self); [contradiction|]. reflexivity. }
  pose proof (drag_ended_state_different_iff self) as Hiff.
  destruct (drag_ended_state_different self) eqn:Ediff.
  - destruct (push_top self pending) as [rest Hrest].
    assert (Hundo : undo_stack after = rest ++ [pending]).
    { rewrite Hafter, <- Hrest. destruct self. reflexivity. }
    split; [|split; [|split; [|split; [|split]]]].
    + intros _.
      destruct (undo_top after rest pending Hundo) as (Hcap & _ & _).
      split; [exact Hcap|]. split; [exists rest; exact Hundo|].
      rewrite Hafter. destruct self. reflexivity.
    + intros Hnot. exfalso. apply Hnot, Hiff. reflexivity.
    + rewrite Hafter. destruct self. reflexivity.
    + rewrite Hafter. destruct self. reflexivity.
    + rewrite Hafter. destruct self. reflexivity.
    + rewrite Hafter. destruct self. reflexivity.
  - split; [|split; [|split; [|split; [|split]]]].
    + intros Hmoved. apply Hiff in Hmoved. discriminate.
    + intros _. rewrite Hafter. destruct self. split; reflexivity.
    + rewrite Hafter. destruct self. reflexivity.
    + rewrite Hafter. destruct self. reflexivity.
    + rewrite Hafter. destruct self. reflexivity.
    + rewrite Hafter. destruct self. reflexivity.
Qed.

Lemma release_records_moved_drag_witness :
  _capture_current_state (undo_action (on_canvas_release moved_drag_planner false))
  = _capture_current_state two_rack_planner.
Proof.
  refine (proj1 (proj1 (release_records_moved_drag moved_drag_planner
                          (_capture_current_state two_rack_planner)
                          _ _ _ _ _ _) _));
    try reflexivity; try discriminate.
  exists "rack-1"%string, (set_pos scenario_crate 80 90), (50, 50).
  repeat split; try reflexivity.
  - left. reflexivity.
  - cbn [set_pos pos_x pos_y]. intros H. injection H as H _. lra.
Defined.
